(** * Task Master for Claude Desktop: provider selection and the parse_prd
      request/response contract

    A shallow embedding of [ai-client-utils.js] and [parse-prd-direct.js]:
    JavaScript values and the built-ins the two files call, the process
    environment, the file system and the logger as an explicit world that is
    threaded through every call, and the functions of the two files written
    over that world. *)

From Stdlib Require Import ZArith NArith String Ascii List Lia.
From Stdlib Require Import Decimal DecimalString DecimalPos DecimalZ.
From stdpp Require Import base option list gmap strings.

Local Open Scope string_scope.
Local Open Scope Z_scope.

(** ** JavaScript values and built-ins *)

Module JS.

(** Characters are code units below 256; the double quote is built from its
    code so that source text can be quoted without escapes. *)
Definition dq : string := String (ascii_of_nat 34) "".
Definition nl : string := String (ascii_of_nat 10) "".
Definition quoted (s : string) : string := dq +:+ s +:+ dq.

(** A Number is NaN or an integer; -0 is identified with 0, and numbers with
    a fractional part occur only as the temperature, see [decimal].

    [Int z] is the Number [z] when [z] is a safe integer, see [safeInteger]:
    there a Number holds the integer exactly, [parseInt] returns it unrounded
    and Number::toString prints its decimal digits.  Beyond that range a
    Number is a rounded binary64 (parseInt('9007199254740993') is
    9007199254740992) and prints in another form (exponent form from 1e21, so
    that parseInt(1e21) is 1); the model does not follow the code there.
    Every statement below that reads a numeral or prints a Number is made
    for safe integers. *)
Inductive number : Type :=
  | NaN
  | Int (z : Z).

(** Number.isSafeInteger on integers: at most 2^53 - 1 in absolute value *)
Definition safeInteger (z : Z) : Prop := - (2 ^ 53 - 1) <= z <= 2 ^ 53 - 1.

(** The Numbers on which the model is exact: NaN and the safe integers *)
Definition exactNumber (n : number) : Prop :=
  match n with
  | NaN => True
  | Int z => safeInteger z
  end.

(** The primitive values an argument object decoded from JSON can hold. *)
Inductive jsval : Type :=
  | JUndefined
  | JNull
  | JBool (b : bool)
  | JNum (n : number)
  | JStr (s : string).

#[global] Instance number_eq_dec : EqDecision number.
Proof. solve_decision. Defined.
#[global] Instance jsval_eq_dec : EqDecision jsval.
Proof. solve_decision. Defined.

(** ToBoolean *)
Definition truthy (v : jsval) : bool :=
  match v with
  | JUndefined | JNull => false
  | JBool b => b
  | JNum NaN => false
  | JNum (Int z) => negb (z =? 0)
  | JStr s => negb (String.eqb s "")
  end.

(** Truthiness of a string that may be absent ([undefined]). *)
Definition truthy_str (o : option string) : option string :=
  match o with
  | Some s => if String.eqb s "" then None else Some s
  | None => None
  end.

Definition Z_to_string (z : Z) : string :=
  NilEmpty.string_of_int (Z.to_int z).

(** Number::toString, radix 10, of an exact Number *)
Definition number_to_string (n : number) : string :=
  match n with
  | NaN => "NaN"
  | Int z => Z_to_string z
  end.

(** ToString, as applied by template literals and by [parseInt] *)
Definition ToString (v : jsval) : string :=
  match v with
  | JUndefined => "undefined"
  | JNull => "null"
  | JBool true => "true"
  | JBool false => "false"
  | JNum n => number_to_string n
  | JStr s => s
  end.

Definition code (c : ascii) : Z := Z.of_nat (nat_of_ascii c).

(** StrWhiteSpaceChar below 256: TAB, LF, VT, FF, CR, SP, NBSP *)
Definition isStrWhiteSpaceChar (c : ascii) : bool :=
  let n := code c in
  ((9 <=? n) && (n <=? 13)) || (n =? 32) || (n =? 160).

Fixpoint skipWhiteSpace (s : string) : string :=
  match s with
  | String c s' => if isStrWhiteSpaceChar c then skipWhiteSpace s' else s
  | EmptyString => s
  end.

(** The value of a digit in radices up to 36 *)
Definition digitValue (c : ascii) : option Z :=
  let n := code c in
  if (48 <=? n) && (n <=? 57) then Some (n - 48)
  else if (97 <=? n) && (n <=? 122) then Some (n - 97 + 10)
  else if (65 <=? n) && (n <=? 90) then Some (n - 65 + 10)
  else None.

Definition radixDigit (R : Z) (c : ascii) : option Z :=
  match digitValue c with
  | Some d => if d <? R then Some d else None
  | None => None
  end.

(** The mathematical value of the longest prefix of radix-R digits *)
Fixpoint digitsPrefix (R : Z) (s : string) (acc : Z) : Z :=
  match s with
  | String c s' =>
      match radixDigit R c with
      | Some d => digitsPrefix R s' (acc * R + d)
      | None => acc
      end
  | EmptyString => acc
  end.

Definition startsWithDigit (R : Z) (s : string) : bool :=
  match s with
  | String c _ => bool_decide (is_Some (radixDigit R c))
  | EmptyString => false
  end.

Definition stripSign (s : string) : bool * string :=
  match s with
  | String "-" s' => (true, s')
  | String "+" s' => (false, s')
  | _ => (false, s)
  end.

Definition stripHexPrefix (s : string) : option string :=
  match s with
  | String "0" (String "x" s') => Some s'
  | String "0" (String "X" s') => Some s'
  | _ => None
  end.

(** parseInt(input, radix); [radix = None] is a call with one argument. *)
Definition parseInt (input : jsval) (radix : option Z) : number :=
  let S0 := skipWhiteSpace (ToString input) in
  let '(neg, S1) := stripSign S0 in
  let R0 := default 0 radix in
  if negb (R0 =? 0) && ((R0 <? 2) || (36 <? R0)) then NaN
  else
    let stripPrefix := (R0 =? 0) || (R0 =? 16) in
    let R1 := if R0 =? 0 then 10 else R0 in
    let '(R, S2) :=
      match (if stripPrefix then stripHexPrefix S1 else None) with
      | Some rest => (16, rest)
      | None => (R1, S1)
      end in
    if startsWithDigit R S2
    then Int ((if neg then -1 else 1) * digitsPrefix R S2 0)
    else NaN.

Definition number_isNaN (n : number) : bool :=
  match n with NaN => true | Int _ => false end.

(** *** Decimal literals: parseFloat and the numeric-string test of isNaN *)

(** What [parseFloat] denotes: NaN, an infinity, or the decimal
    [(-1)^neg * mantissa * 10^exp10] read from the text (the rounding of that
    real to a binary64 is left out). *)
Inductive decimal : Type :=
  | DNaN
  | DInfinity (neg : bool)
  | DFinite (neg : bool) (mantissa : N) (exp10 : Z).

Definition isDecimalDigit (c : ascii) : option N :=
  let n := code c in
  if (48 <=? n) && (n <=? 57) then Some (Z.to_N (n - 48)) else None.

(** Longest prefix of decimal digits: accumulated value, how many, the rest *)
Fixpoint scanDigits (s : string) (acc : N) (count : nat) : N * nat * string :=
  match s with
  | String c s' =>
      match isDecimalDigit c with
      | Some d => scanDigits s' (acc * 10 + d)%N (S count)
      | None => (acc, count, s)
      end
  | EmptyString => (acc, count, s)
  end.

Definition dropPrefix (p s : string) : option string :=
  if String.prefix p s
  then Some (String.substring (String.length p) (String.length s - String.length p) s)
  else None.

(** ExponentPart, when one follows: its value and the text after it *)
Definition scanExponent (s : string) : option (Z * string) :=
  match s with
  | String c s1 =>
      if (code c =? 101) || (code c =? 69) then
        let '(neg, s2) := stripSign s1 in
        let '(e, n, s3) := scanDigits s2 0%N 0%nat in
        if (n =? 0)%nat then None
        else Some ((if neg then -1 else 1) * Z.of_N e, s3)
      else None
  | EmptyString => None
  end.

(** Longest prefix that is a StrUnsignedDecimalLiteral other than Infinity *)
Definition scanUnsignedDecimal (s : string) : option (N * Z * string) :=
  let '(i, ni, r1) := scanDigits s 0%N 0%nat in
  let '(m, nf, r2) :=
    match r1 with
    | String "." r1' =>
        let '(f, nf, r2) := scanDigits r1' i 0%nat in
        if (ni =? 0)%nat && (nf =? 0)%nat then (i, 0%nat, r1) else (f, nf, r2)
    | _ => (i, 0%nat, r1)
    end in
  if (ni =? 0)%nat && (nf =? 0)%nat then None
  else
    match scanExponent r2 with
    | Some (e, r3) => Some (m, e - Z.of_nat nf, r3)
    | None => Some (m, - Z.of_nat nf, r2)
    end.

(** Longest prefix that is a StrDecimalLiteral *)
Definition scanStrDecimalLiteral (s : string) : option (decimal * string) :=
  let '(neg, s1) := stripSign s in
  match dropPrefix "Infinity" s1 with
  | Some rest => Some (DInfinity neg, rest)
  | None =>
      match scanUnsignedDecimal s1 with
      | Some (m, e, rest) => Some (DFinite neg m e, rest)
      | None => None
      end
  end.

Definition parseFloat (input : string) : decimal :=
  match scanStrDecimalLiteral (skipWhiteSpace input) with
  | Some (d, _) => d
  | None => DNaN
  end.

Definition decimal_isNaN (d : decimal) : bool :=
  match d with DNaN => true | _ => false end.

Definition allWhiteSpace (s : string) : bool :=
  String.eqb (skipWhiteSpace s) "".

Fixpoint skipDigits (R : Z) (s : string) : string :=
  match s with
  | String c s' =>
      match radixDigit R c with
      | Some _ => skipDigits R s'
      | None => s
      end
  | EmptyString => s
  end.

(** The 0x, 0o and 0b literals of StringNumericLiteral *)
Definition nonDecimalLiteral (s : string) : option N :=
  match s with
  | String "0" (String p rest) =>
      let R := if (code p =? 120) || (code p =? 88) then 16
               else if (code p =? 111) || (code p =? 79) then 8
               else if (code p =? 98) || (code p =? 66) then 2
               else 0 in
      if startsWithDigit R rest && allWhiteSpace (skipDigits R rest)
      then Some (Z.to_N (digitsPrefix R rest 0))
      else None
  | _ => None
  end.

(** StringToNumber *)
Definition StringToNumber (s : string) : decimal :=
  let t := skipWhiteSpace s in
  if String.eqb t "" then DFinite false 0 0
  else
    match nonDecimalLiteral t with
    | Some n => DFinite false n 0
    | None =>
        match scanStrDecimalLiteral t with
        | Some (d, rest) => if allWhiteSpace rest then d else DNaN
        | None => DNaN
        end
    end.

(** ToNumber *)
Definition ToNumber (v : jsval) : decimal :=
  match v with
  | JUndefined => DNaN
  | JNull => DFinite false 0 0
  | JBool true => DFinite false 1 0
  | JBool false => DFinite false 0 0
  | JNum NaN => DNaN
  | JNum (Int z) => DFinite (z <? 0) (Z.abs_N z) 0
  | JStr s => StringToNumber s
  end.

(** The global isNaN: ToNumber, then the NaN test *)
Definition isNaN (v : jsval) : bool := decimal_isNaN (ToNumber v).

(** ToLength: truncate, then clamp to 0 .. 2^53 - 1 *)
Definition ToLength (v : jsval) : nat :=
  match ToNumber v with
  | DNaN => 0%nat
  | DInfinity neg => if neg then 0%nat else Z.to_nat (2 ^ 53 - 1)
  | DFinite neg m e =>
      if neg then 0%nat
      else
        let t := if 0 <=? e then Z.of_N m * 10 ^ e else Z.of_N m / 10 ^ (- e) in
        Z.to_nat (Z.min t (2 ^ 53 - 1))
  end.

(** Array.prototype.join on strings *)
Fixpoint join (sep : string) (l : list string) : string :=
  match l with
  | [] => ""
  | [x] => x
  | x :: rest => x +:+ sep +:+ join sep rest
  end.

(** text.split(sep)[0] *)
Fixpoint upTo (sep : ascii) (s : string) : string :=
  match s with
  | String c s' => if bool_decide (c = sep) then "" else String c (upTo sep s')
  | EmptyString => ""
  end.

End JS.

(** ** JSON.stringify on the values above *)

Module JSON.
Import JS.

Definition hexDigit (n : Z) : ascii :=
  ascii_of_nat (Z.to_nat (if n <? 10 then 48 + n else 87 + n)).

(** QuoteJSONString, one code unit at a time *)
Definition escapeChar (c : ascii) : string :=
  let n := code c in
  if n =? 8 then "\b"
  else if n =? 9 then "\t"
  else if n =? 10 then "\n"
  else if n =? 12 then "\f"
  else if n =? 13 then "\r"
  else if n =? 34 then "\" +:+ dq
  else if n =? 92 then "\\"
  else if n <? 32 then "\u00" +:+ String (hexDigit (n / 16)) (String (hexDigit (n mod 16)) "")
  else String c "".

Fixpoint escape (s : string) : string :=
  match s with
  | String c s' => escapeChar c +:+ escape s'
  | EmptyString => ""
  end.

Definition quote (s : string) : string := dq +:+ escape s +:+ dq.

(** The text of a property value; [None] when the property is left out *)
Definition value (v : jsval) : option string :=
  match v with
  | JUndefined => None
  | JNull => Some "null"
  | JBool true => Some "true"
  | JBool false => Some "false"
  | JNum NaN => Some "null"
  | JNum (Int z) => Some (Z_to_string z)
  | JStr s => Some (quote s)
  end.

Definition member (kv : string * jsval) : option string :=
  match value (snd kv) with
  | Some t => Some (quote (fst kv) +:+ ":" +:+ t)
  | None => None
  end.

(** JSON.stringify of an object of primitives, properties in the given order *)
Definition object (props : list (string * jsval)) : string :=
  "{" +:+ join "," (omap member props) +:+ "}".

End JSON.

(** ** path (POSIX) *)

Module Path.

Definition slash : ascii := "/"%char.

Definition isAbsolute (p : string) : bool :=
  match p with
  | String c _ => bool_decide (c = slash)
  | EmptyString => false
  end.

Fixpoint split (s : string) : list string :=
  match s with
  | EmptyString => [""]
  | String c s' =>
      if bool_decide (c = slash) then "" :: split s'
      else match split s' with
           | h :: t => String c h :: t
           | [] => [String c ""]
           end
  end.

(** normalizeString: the segment stack, innermost first *)
Definition pushSegment (allowAboveRoot : bool) (stack : list string) (seg : string)
  : list string :=
  if String.eqb seg "" || String.eqb seg "." then stack
  else if String.eqb seg ".." then
    match stack with
    | top :: below =>
        if String.eqb top ".." then seg :: stack else below
    | [] => if allowAboveRoot then [seg] else []
    end
  else seg :: stack.

Definition normalizeSegments (allowAboveRoot : bool) (p : string) : list string :=
  rev (fold_left (pushSegment allowAboveRoot) (split p) []).

Definition normalizeString (allowAboveRoot : bool) (p : string) : string :=
  JS.join "/" (normalizeSegments allowAboveRoot p).

(** The right-to-left loop of path.resolve over the arguments and then the
    working directory; empty arguments are skipped. *)
Fixpoint resolveLoop (rightToLeft : list string) (resolvedPath : string) : string :=
  match rightToLeft with
  | [] => resolvedPath
  | p :: more =>
      if String.eqb p "" then resolveLoop more resolvedPath
      else
        let resolvedPath' := p +:+ "/" +:+ resolvedPath in
        if isAbsolute p then resolvedPath' else resolveLoop more resolvedPath'
  end.

Definition resolve (cwd : string) (paths : list string) : string :=
  let raw := resolveLoop (rev paths ++ [cwd]) "" in
  let resolvedAbsolute := isAbsolute raw in
  let normalized := normalizeString (negb resolvedAbsolute) raw in
  if resolvedAbsolute then "/" +:+ normalized
  else if String.eqb normalized "" then "." else normalized.

Fixpoint dropWhile {A} (f : A -> bool) (l : list A) : list A :=
  match l with
  | x :: l' => if f x then dropWhile f l' else l
  | [] => []
  end.

(** path.dirname: scan from the end down to index 1 for the first slash that
    follows a non-slash character. *)
Definition dirname (p : string) : string :=
  match list_ascii_of_string p with
  | [] => "."
  | c0 :: rest =>
      let hasRoot := bool_decide (c0 = slash) in
      let isSlash := fun c : ascii => bool_decide (c = slash) in
      let afterTrailing := dropWhile isSlash (rev rest) in
      let atSlash := dropWhile (fun c => negb (isSlash c)) afterTrailing in
      match atSlash with
      | [] => if hasRoot then "/" else "."
      | _ =>
          let e := length atSlash in
          if hasRoot && (e =? 1)%nat then "//"
          else string_of_list_ascii (take e (c0 :: rest))
      end
  end.

(** Every directory on the way down to a normalised absolute path *)
Definition ancestorsAndSelf (key : string) : list string :=
  let segs := normalizeSegments false key in
  map (fun n => "/" +:+ JS.join "/" (take n segs)) (seq 1 (length segs)).

End Path.

(** ** The world the functions run in *)

Inductive level : Type := Info | Warn | Error | Debug.

#[global] Instance level_eq_dec : EqDecision level.
Proof. solve_decision. Defined.

(** [env] is process.env, [cwd] the working directory, [files] the content of
    every regular file and [dirs] the directories other than the root, both
    keyed by normalised absolute path, [now] the text of
    [new Date().toISOString()], [log] the calls received by the logger that is
    passed around and [console] the lines printed with console.log. *)
Record World : Type := mkWorld {
  env : gmap string string;
  cwd : string;
  files : gmap string string;
  dirs : gset string;
  now : string;
  log : list (level * string);
  console : list string
}.

Definition set_env (f : gmap string string -> gmap string string) (w : World) : World :=
  mkWorld (f (env w)) (cwd w) (files w) (dirs w) (now w) (log w) (console w).
Definition set_files (f : gmap string string -> gmap string string) (w : World) : World :=
  mkWorld (env w) (cwd w) (f (files w)) (dirs w) (now w) (log w) (console w).
Definition set_dirs (f : gset string -> gset string) (w : World) : World :=
  mkWorld (env w) (cwd w) (files w) (f (dirs w)) (now w) (log w) (console w).
Definition add_log (e : level * string) (w : World) : World :=
  mkWorld (env w) (cwd w) (files w) (dirs w) (now w) (log w ++ [e]) (console w).
Definition add_console (line : string) (w : World) : World :=
  mkWorld (env w) (cwd w) (files w) (dirs w) (now w) (log w) (console w ++ [line]).

(** A call returns a value or throws an Error with a message; either way it
    leaves a world behind. *)
Inductive outcome (A : Type) : Type :=
  | Ret (a : A)
  | Throw (message : string).
Arguments Ret {A} a.
Arguments Throw {A} message.

Definition M (A : Type) : Type := World -> outcome A * World.

Definition ret {A} (a : A) : M A := fun w => (Ret a, w).
Definition throw {A} (message : string) : M A := fun w => (Throw message, w).
Definition bind {A B} (m : M A) (k : A -> M B) : M B :=
  fun w => match m w with
           | (Ret a, w') => k a w'
           | (Throw e, w') => (Throw e, w')
           end.
Definition try_catch {A} (body : M A) (handler : string -> M A) : M A :=
  fun w => match body w with
           | (Ret a, w') => (Ret a, w')
           | (Throw e, w') => handler e w'
           end.
Definition get_world : M World := fun w => (Ret w, w).
Definition modify (f : World -> World) : M unit := fun w => (Ret tt, f w).

Declare Scope js_scope.
Delimit Scope js_scope with js.
Notation "x <- m ;; k" := (bind m (fun x => k))
  (at level 100, m at next level, right associativity) : js_scope.
Notation "m ;; k" := (bind m (fun _ => k))
  (at level 100, right associativity) : js_scope.
Local Open Scope js_scope.

Module Logger.
Definition info (msg : string) : M unit := modify (add_log (Info, msg)).
Definition warn (msg : string) : M unit := modify (add_log (Warn, msg)).
Definition error (msg : string) : M unit := modify (add_log (Error, msg)).
End Logger.

Definition console_log (line : string) : M unit := modify (add_console line).

(** ** fs *)

(** A path is looked up under [key], the path that path.resolve makes of it
    against the working directory.  That is where the operating system finds
    an absolute path without '.', '..' or empty segments and without a
    trailing slash, and a relative path made of names only.  Other paths the
    operating system walks segment by segment: /proj/missing/../prd.txt does
    not exist when /proj/missing does not, and /proj/prd.txt/ does not when
    /proj/prd.txt is a regular file, where the lookup under [key] finds the
    file; and mkdir of /proj/a/../b makes /proj/a on the way.  What is said
    below about the directories a call makes is said for paths of the first
    kind, see [Plain.plainPaths]. *)
Module Fs.

Definition key (w : World) (p : string) : string := Path.resolve (cwd w) [p].

Definition isDirectory (w : World) (k : string) : bool :=
  String.eqb k "/" || bool_decide (k ∈ dirs w).

Definition isFile (w : World) (k : string) : bool :=
  bool_decide (is_Some (files w !! k)).

Definition pathExists (w : World) (p : string) : bool :=
  if String.eqb p "" then false
  else let k := key w p in isDirectory w k || isFile w k.

Definition existsSync (p : string) : M bool :=
  fun w => (Ret (pathExists w p), w).

Definition readFile (w : World) (p : string) : outcome string :=
  let k := key w p in
  match files w !! k with
  | Some content => Ret content
  | None =>
      if isDirectory w k
      then Throw "EISDIR: illegal operation on a directory, read"
      else Throw ("ENOENT: no such file or directory, open '" +:+ p +:+ "'")
  end.

(** readFileSync(p, 'utf8') *)
Definition readFileSync (p : string) : M string :=
  fun w => (readFile w p, w).

(** mkdirSync(p, { recursive: true }) *)
Definition mkdirSync (p : string) : M unit :=
  fun w =>
    let k := key w p in
    let targets := Path.ancestorsAndSelf k in
    if isFile w k
    then (Throw ("EEXIST: file already exists, mkdir '" +:+ p +:+ "'"), w)
    else if existsb (isFile w) targets
    then (Throw ("ENOTDIR: not a directory, mkdir '" +:+ p +:+ "'"), w)
    else (Ret tt, set_dirs (fun d => d ∪ list_to_set targets) w).

Definition writeFileSync (p data : string) : M unit :=
  fun w =>
    let k := key w p in
    if isDirectory w k
    then (Throw ("EISDIR: illegal operation on a directory, open '" +:+ p +:+ "'"), w)
    else if isFile w (Path.dirname k)
    then (Throw ("ENOTDIR: not a directory, open '" +:+ p +:+ "'"), w)
    else if negb (isDirectory w (Path.dirname k))
    then (Throw ("ENOENT: no such file or directory, open '" +:+ p +:+ "'"), w)
    else (Ret tt, set_files (insert k data) w).

End Fs.

(** ** ai-client-utils.js *)

Module AiClientUtils.
Import JS.

(** The session handed over by the MCP host; [session?.env?.KEY] reads it. *)
Record Session : Type := mkSession { session_env : option (gmap string string) }.

Definition sessionEnv (session : option Session) (k : string) : option string :=
  s ← session; e ← session_env s; e !! k.

(** The parameter object of a messages call: the two fields the mock looks at
    and [params_json], the text JSON.stringify gives for the whole object. *)
Record Params : Type := mkParams {
  params_model : jsval;
  params_stream : jsval;
  params_json : string
}.

Record ContentBlock : Type := mkContentBlock { block_type : string; block_text : string }.
Record Usage : Type := mkUsage { input_tokens : Z; output_tokens : Z }.

Record Message : Type := mkMessage {
  message_id : string;
  message_type : string;
  message_role : string;
  message_content : list ContentBlock;
  message_model : jsval;
  message_stop_reason : string;
  message_usage : option Usage
}.

(** The objects the async iterator of a mock stream yields *)
Inductive StreamEvent : Type :=
  | content_block_start (type id : string)
  | content_block_delta (text : string) (index : Z)
  | content_block_stop (type id : string)
  | message_stop (message : Message).

Definition SENTINEL : string := "NOT_IMPLEMENTED".

Definition defaultModel (m : jsval) (fallback : string) : jsval :=
  if truthy m then m else JStr fallback.

(** MockAnthropicClient.generateResponse *)
Definition generateResponse (params : Params) : M string :=
  console_log "Generating response with Claude's own capabilities" ;;
  console_log ("Prompt: " +:+ params_json params) ;;
  ret SENTINEL.

(** The dot of a regular expression without the s flag *)
Definition isLineTerminator (c : ascii) : bool :=
  (code c =? 10) || (code c =? 13).

(** response.match(/.{1,20}/g) || []: [cur] is the match in progress, newest
    character first, and [room] how many more characters it may take. *)
Fixpoint matchChunks (s : string) (cur : list ascii) (room : nat) : list string :=
  let flush := match cur with
               | [] => []
               | _ => [string_of_list_ascii (rev cur)]
               end in
  match s with
  | EmptyString => flush
  | String c s' =>
      if isLineTerminator c then flush ++ matchChunks s' [] 20%nat
      else match room with
           | O => flush ++ matchChunks s' [c] 19%nat
           | S room' => matchChunks s' (c :: cur) room'
           end
  end.

Definition chunksOf (response : string) : list string :=
  matchChunks response [] 20%nat.

Definition finalMessage (params : Params) (response : string) (usage : option Usage)
  : Message :=
  mkMessage "mock-message-id" "message" "assistant"
    [mkContentBlock "text" response]
    (defaultModel (params_model params) "claude-3-7-sonnet-20250219")
    "end_turn" usage.

(** Everything the generator yields, in order (the pauses between chunks are
    not part of the value). *)
Definition streamEvents (params : Params) (response : string) : list StreamEvent :=
  [content_block_start "text" "mock-block-id"]
  ++ map (fun chunk => content_block_delta chunk 0) (chunksOf response)
  ++ [content_block_stop "text" "mock-block-id";
      message_stop (finalMessage params response None)].

(** MockAnthropicClient.createMockStream *)
Definition createMockStream (params : Params) : M (list StreamEvent) :=
  response <- generateResponse params ;;
  ret (streamEvents params response).

(** MockAnthropicClient.createMessages *)
Definition createMessages (params : Params) : M (Message + list StreamEvent) :=
  if truthy (params_stream params)
  then (events <- createMockStream params ;; ret (inr events))
  else (response <- generateResponse params ;;
        ret (inl (finalMessage params response (Some (mkUsage 1000 2000))))).

Record AnthropicOptions : Type := mkAnthropicOptions {
  anthropic_apiKey : string;
  anthropic_defaultHeaders : list (string * string)
}.

Record PerplexityOptions : Type := mkPerplexityOptions {
  perplexity_apiKey : string;
  perplexity_baseURL : string
}.

(** [None] is a client built without options *)
Inductive Client : Type :=
  | MockAnthropicClient (options : option AnthropicOptions)
  | MockPerplexityClient (options : option PerplexityOptions).

Definition usingClaudeDesktop (w : World) (session : option Session) : bool :=
  bool_decide (env w !! "CLAUDE_DESKTOP" = Some "true")
  || bool_decide (sessionEnv session "CLAUDE_DESKTOP" = Some "true").

(** [session?.env?.KEY || process.env.KEY], when the result is truthy *)
Definition apiKeyOf (w : World) (session : option Session) (k : string) : option string :=
  match truthy_str (sessionEnv session k) with
  | Some v => Some v
  | None => truthy_str (env w !! k)
  end.

Definition getAnthropicClientForMCP (session : option Session) : M Client :=
  try_catch
    (w <- get_world ;;
     if usingClaudeDesktop w session then
       Logger.info "Using Claude Desktop mode with mock Anthropic client" ;;
       ret (MockAnthropicClient None)
     else
       match apiKeyOf w session "ANTHROPIC_API_KEY" with
       | None =>
           throw "ANTHROPIC_API_KEY not found in session environment or process.env. Set CLAUDE_DESKTOP=true to use Claude Desktop mode."
       | Some apiKey =>
           Logger.info "Using Anthropic API with provided key" ;;
           ret (MockAnthropicClient
                  (Some (mkAnthropicOptions apiKey
                           [("anthropic-beta", "output-128k-2025-02-19")])))
       end)
    (fun message =>
       Logger.error ("Failed to initialize Anthropic client: " +:+ message) ;;
       throw message).

Definition getPerplexityClientForMCP (session : option Session) : M Client :=
  try_catch
    (w <- get_world ;;
     if usingClaudeDesktop w session then
       Logger.info "Using Claude Desktop mode with mock Perplexity client" ;;
       ret (MockPerplexityClient None)
     else
       match apiKeyOf w session "PERPLEXITY_API_KEY" with
       | None =>
           throw "PERPLEXITY_API_KEY not found in session environment or process.env. Set CLAUDE_DESKTOP=true to use Claude Desktop mode."
       | Some apiKey =>
           Logger.info "Using Perplexity API with provided key" ;;
           ret (MockPerplexityClient
                  (Some (mkPerplexityOptions apiKey "https://api.perplexity.ai")))
       end)
    (fun message =>
       Logger.error ("Failed to initialize Perplexity client: " +:+ message) ;;
       throw message).

(** A model configuration; [config_temperature] is the one number of the
    program that has a fractional part. *)
Record ModelConfig : Type := mkModelConfig {
  config_model : string;
  config_maxTokens : number;
  config_temperature : decimal
}.

Definition DEFAULT_MODEL_CONFIG : ModelConfig :=
  mkModelConfig "claude-3-7-sonnet-20250219" (Int 64000) (DFinite false 2 (-1)).

(** [parseFloat] of a value that already is a Number gives the Number back
    (its text reads back as the same value). *)
Definition parseFloatOf (v : string + decimal) : decimal :=
  match v with
  | inl s => parseFloat s
  | inr d => d
  end.

Definition getModelConfig (session : option Session) (defaults : ModelConfig)
  : ModelConfig :=
  mkModelConfig
    (default (config_model defaults) (truthy_str (sessionEnv session "MODEL")))
    (parseInt
       (default (JNum (config_maxTokens defaults))
          (JStr <$> truthy_str (sessionEnv session "MAX_TOKENS")))
       None)
    (parseFloatOf
       (default (inr (config_temperature defaults))
          (inl <$> truthy_str (sessionEnv session "TEMPERATURE")))).

Record Options : Type := mkOptions { requiresResearch : bool; claudeOverloaded : bool }.

Record Selection : Type := mkSelection { selection_type : string; selection_client : Client }.

Definition getBestAvailableAIModel (session : option Session) (options : Options)
  : M Selection :=
  w <- get_world ;;
  if usingClaudeDesktop w session then
    Logger.info "Using Claude Desktop mode for AI operations" ;;
    client <- getAnthropicClientForMCP session ;;
    ret (mkSelection "claude" client)
  else
    research <-
      (if requiresResearch options
          && bool_decide (is_Some (apiKeyOf w session "PERPLEXITY_API_KEY"))
       then
         try_catch
           (client <- getPerplexityClientForMCP session ;;
            ret (Some (mkSelection "perplexity" client)))
           (fun message =>
              Logger.warn ("Perplexity not available: " +:+ message) ;;
              ret None)
       else ret None) ;;
    match research with
    | Some selection => ret selection
    | None =>
        try_catch
          (client <- getAnthropicClientForMCP session ;;
           ret (mkSelection "claude" client))
          (fun message =>
             Logger.error ("Claude not available: " +:+ message) ;;
             throw "No AI models available. Please check your API keys or enable Claude Desktop mode.")
    end.

End AiClientUtils.

(** ** parse-prd-direct.js *)

Module ParsePrd.
Import JS AiClientUtils.

(** What generateTasksFromPRD returns *)
Record GenerationResult : Type := mkGenerationResult {
  shouldBeHandledByClaudeDirectly : bool;
  systemPrompt : string;
  userPrompt : string
}.

Definition systemPromptText (numTasks : jsval) (prdPath today : string) : string :=
  join nl
    ["You are an AI assistant tasked with breaking down a Product Requirements Document (PRD) into a set of sequential development tasks. Your goal is to create exactly " +:+ ToString numTasks +:+ " well-structured, actionable development tasks based on the PRD provided.";
     "";
     "First, carefully read and analyze the attached PRD";
     "";
     "Before creating the task list, work through the following steps inside <prd_breakdown> tags in your thinking block:";
     "";
     "1. List the key components of the PRD";
     "2. Identify the main features and functionalities described";
     "3. Note any specific technical requirements or constraints mentioned";
     "4. Outline a high-level sequence of tasks that would be needed to implement the PRD";
     "";
     "Consider dependencies, maintainability, and the fact that you don't have access to any existing codebase. Balance between providing detailed task descriptions and maintaining a high-level perspective.";
     "";
     "After your breakdown, create a JSON object containing an array of tasks and a metadata object. Each task should follow this structure:";
     "";
     "{";
     "  " +:+ quoted "id" +:+ ": number,";
     "  " +:+ quoted "title" +:+ ": string,";
     "  " +:+ quoted "description" +:+ ": string,";
     "  " +:+ quoted "status" +:+ ": " +:+ quoted "pending" +:+ ",";
     "  " +:+ quoted "dependencies" +:+ ": number[] (IDs of tasks this depends on),";
     "  " +:+ quoted "priority" +:+ ": " +:+ quoted "high" +:+ " | " +:+ quoted "medium" +:+ " | " +:+ quoted "low" +:+ ",";
     "  " +:+ quoted "details" +:+ ": string (implementation details),";
     "  " +:+ quoted "testStrategy" +:+ ": string (validation approach)";
     "}";
     "";
     "Guidelines for creating tasks:";
     "1. Number tasks from 1 to " +:+ ToString numTasks +:+ ".";
     "2. Make each task atomic and focused on a single responsibility.";
     "3. Order tasks logically, considering dependencies and implementation sequence.";
     "4. Start with setup and core functionality, then move to advanced features.";
     "5. Provide a clear validation/testing approach for each task.";
     "6. Set appropriate dependency IDs (tasks can only depend on lower-numbered tasks).";
     "7. Assign priority based on criticality and dependency order.";
     "8. Include detailed implementation guidance in the " +:+ quoted "details" +:+ " field.";
     "9. Strictly adhere to any specific requirements for libraries, database schemas, frameworks, tech stacks, or other implementation details mentioned in the PRD.";
     "10. Fill in gaps left by the PRD while preserving all explicit requirements.";
     "11. Provide the most direct path to implementation, avoiding over-engineering.";
     "";
     "The final output should be valid JSON with this structure:";
     "";
     "{";
     "  " +:+ quoted "tasks" +:+ ": [";
     "    {";
     "      " +:+ quoted "id" +:+ ": 1,";
     "      " +:+ quoted "title" +:+ ": " +:+ quoted "Example Task Title" +:+ ",";
     "      " +:+ quoted "description" +:+ ": " +:+ quoted "Brief description of the task" +:+ ",";
     "      " +:+ quoted "status" +:+ ": " +:+ quoted "pending" +:+ ",";
     "      " +:+ quoted "dependencies" +:+ ": [],";
     "      " +:+ quoted "priority" +:+ ": " +:+ quoted "high" +:+ ",";
     "      " +:+ quoted "details" +:+ ": " +:+ quoted "Detailed implementation guidance" +:+ ",";
     "      " +:+ quoted "testStrategy" +:+ ": " +:+ quoted "Approach for validating this task";
     "    },";
     "    // ... more tasks ...";
     "  ],";
     "  " +:+ quoted "metadata" +:+ ": {";
     "    " +:+ quoted "projectName" +:+ ": " +:+ quoted "PRD Implementation" +:+ ",";
     "    " +:+ quoted "totalTasks" +:+ ": " +:+ ToString numTasks +:+ ",";
     "    " +:+ quoted "sourceFile" +:+ ": " +:+ quoted prdPath +:+ ",";
     "    " +:+ quoted "generatedAt" +:+ ": " +:+ quoted today;
     "  }";
     "}";
     "";
     "Remember to provide comprehensive task details that are LLM-friendly, consider dependencies and maintainability carefully, and keep in mind that you don't have the existing codebase as context. Aim for a balance between detailed guidance and high-level planning.";
     "";
     "Your response should be valid JSON only, with no additional explanation or comments."].

Definition generateTasksFromPRD (prdContent prdPath : string) (numTasks : jsval)
  : M GenerationResult :=
  Logger.info ("Generating " +:+ ToString numTasks +:+ " tasks from PRD at " +:+ prdPath) ;;
  w <- get_world ;;
  let systemPrompt := systemPromptText numTasks prdPath (upTo "T" (now w)) in
  Logger.info "Claude is analyzing the PRD and generating tasks..." ;;
  ret (mkGenerationResult true systemPrompt
         ("Here's the Product Requirements Document (PRD) to break down into "
          +:+ ToString numTasks +:+ " tasks:" +:+ nl +:+ nl +:+ prdContent)).

(** The argument object of the parse_prd tool; an absent property is
    [JUndefined].  Properties are listed in the order of the tool's schema. *)
Record Args : Type := mkArgs {
  input : jsval;
  numTasks : jsval;
  output : jsval;
  force : jsval;
  append : jsval;
  projectRoot : jsval
}.

Definition stringifyArgs (args : Args) : string :=
  JSON.object
    [("input", input args); ("numTasks", numTasks args); ("output", output args);
     ("force", force args); ("append", append args);
     ("projectRoot", projectRoot args)].

Record ErrorInfo : Type := mkErrorInfo {
  error_code : string;
  error_message : string;
  error_details : option string
}.

(** The two shapes of [data] in a successful result *)
Inductive Data : Type :=
  | Delegated (message : string) (shouldBeHandledByClaudeDirectly : bool)
              (systemPrompt userPrompt outputPath : string)
              (numTasks : jsval) (append : bool)
  | Written (message : string) (taskCount : jsval) (outputPath : string)
            (appended : bool).

Record Result : Type := mkResult {
  success : bool;
  data : option Data;
  error : option ErrorInfo;
  fromCache : bool
}.

Definition failure (code message : string) (details : option string) : Result :=
  mkResult false None (Some (mkErrorInfo code message details)) false.

(** How Node names the value in an ERR_INVALID_ARG_TYPE message *)
Definition received (v : jsval) : string :=
  match v with
  | JUndefined => "undefined"
  | JNull => "null"
  | JBool b => "type boolean (" +:+ ToString v +:+ ")"
  | JNum n => "type number (" +:+ ToString v +:+ ")"
  | JStr s => "type string ('" +:+ s +:+ "')"
  end.

Definition invalidArgType (name : string) (v : jsval) : string :=
  "The " +:+ quoted name +:+ " argument must be of type string. Received "
  +:+ received v.

(** path.isAbsolute(v) *)
Definition path_isAbsolute (v : jsval) : M bool :=
  match v with
  | JStr s => ret (Path.isAbsolute s)
  | _ => throw (invalidArgType "path" v)
  end.

(** path.resolve(a, b): the arguments are checked from the right, and only as
    far as the loop goes. *)
Definition path_resolve (a b : jsval) : M string :=
  match b with
  | JStr sb =>
      if Path.isAbsolute sb
      then (w <- get_world ;; ret (Path.resolve (cwd w) [sb]))
      else match a with
           | JStr sa => w <- get_world ;; ret (Path.resolve (cwd w) [sa; sb])
           | _ => throw (invalidArgType "paths[0]" a)
           end
  | _ => throw (invalidArgType "paths[1]" b)
  end.

(** [path.isAbsolute(p) ? p : path.resolve(projectRoot, p)] *)
Definition resolveAgainst (projectRoot p : jsval) : M string :=
  absolute <- path_isAbsolute p ;;
  if absolute then ret (ToString p) else path_resolve projectRoot p.

(** The numTasks block: the count to use and whether the warning is due *)
Definition parseNumTasks (v : jsval) : jsval * bool :=
  if truthy v then
    let n := match v with
             | JStr _ => JNum (parseInt v (Some 10))
             | _ => v
             end in
    if isNaN n then (JNum (Int 10), true) else (n, false)
  else (JNum (Int 10), false).

(** JSON.stringify(sampleOutput, null, 2) *)
Definition sampleTask (i : nat) : string :=
  let id := Z_to_string (Z.of_nat i + 1) in
  join nl
    ["    {";
     "      " +:+ quoted "id" +:+ ": " +:+ id +:+ ",";
     "      " +:+ quoted "title" +:+ ": " +:+ JSON.quote ("Task " +:+ id) +:+ ",";
     "      " +:+ quoted "description" +:+ ": " +:+ quoted "Sample task description" +:+ ",";
     "      " +:+ quoted "status" +:+ ": " +:+ quoted "pending" +:+ ",";
     "      " +:+ quoted "dependencies" +:+ ": [],";
     "      " +:+ quoted "priority" +:+ ": " +:+ quoted "medium" +:+ ",";
     "      " +:+ quoted "details" +:+ ": " +:+ quoted "Sample task details" +:+ ",";
     "      " +:+ quoted "testStrategy" +:+ ": " +:+ quoted "Sample test strategy";
     "    }"].

Definition sampleOutput (numTasks : jsval) (inputPath today : string) : string :=
  let tasks := map sampleTask (seq 0 (ToLength numTasks)) in
  join nl
    ["{";
     "  " +:+ quoted "tasks" +:+ ": "
       +:+ match tasks with
           | [] => "[],"
           | _ => "[" +:+ nl +:+ join ("," +:+ nl) tasks +:+ nl +:+ "  ],"
           end;
     "  " +:+ quoted "metadata" +:+ ": {";
     "    " +:+ quoted "projectName" +:+ ": " +:+ quoted "PRD Implementation" +:+ ",";
     "    " +:+ quoted "totalTasks" +:+ ": " +:+ default "null" (JSON.value numTasks) +:+ ",";
     "    " +:+ quoted "sourceFile" +:+ ": " +:+ JSON.quote inputPath +:+ ",";
     "    " +:+ quoted "generatedAt" +:+ ": " +:+ JSON.quote today;
     "  }";
     "}"].

Definition parsePRDDirect (args : Args) (session : option Session) : M Result :=
  try_catch
    (Logger.info ("Parsing PRD document with args: " +:+ stringifyArgs args) ;;
     modify (set_env (insert "CLAUDE_DESKTOP" "true")) ;;
     client <-
       try_catch (c <- getAnthropicClientForMCP session ;; ret (inr c))
         (fun message =>
            Logger.error ("Failed to initialize AI client: " +:+ message) ;;
            ret (inl (failure "AI_CLIENT_ERROR"
                        ("Cannot initialize AI client: " +:+ message) None))) ;;
     match client with
     | inl result => ret result
     | inr aiClient =>
     if negb (truthy (projectRoot args)) then
       let errorMessage := "Project root is required for parsePRDDirect" in
       Logger.error errorMessage ;;
       ret (failure "MISSING_PROJECT_ROOT" errorMessage None)
     else if negb (truthy (input args)) then
       let errorMessage := "Input file path is required for parsePRDDirect" in
       Logger.error errorMessage ;;
       ret (failure "MISSING_INPUT_PATH" errorMessage None)
     else if negb (truthy (output args)) then
       let errorMessage := "Output file path is required for parsePRDDirect" in
       Logger.error errorMessage ;;
       ret (failure "MISSING_OUTPUT_PATH" errorMessage None)
     else
       inputPath <- resolveAgainst (projectRoot args) (input args) ;;
       inputExists <- Fs.existsSync inputPath ;;
       if negb inputExists then
         let errorMessage := "Input file not found: " +:+ inputPath in
         Logger.error errorMessage ;;
         ret (failure "INPUT_FILE_NOT_FOUND" errorMessage
                (Some ("Checked path: " +:+ inputPath +:+ nl
                       +:+ "Project root: " +:+ ToString (projectRoot args) +:+ nl
                       +:+ "Input argument: " +:+ ToString (input args))))
       else
         prdContent <- Fs.readFileSync inputPath ;;
         Logger.info ("Read " +:+ Z_to_string (Z.of_nat (String.length prdContent))
                      +:+ " bytes from " +:+ inputPath) ;;
         outputPath <- resolveAgainst (projectRoot args) (output args) ;;
         let outputDir := Path.dirname outputPath in
         dirExists <- Fs.existsSync outputDir ;;
         (if negb dirExists then
            Logger.info ("Creating output directory: " +:+ outputDir) ;;
            Fs.mkdirSync outputDir
          else ret tt) ;;
         let '(numTasks, invalid) := parseNumTasks (numTasks args) in
         (if invalid then
            Logger.warn ("Invalid numTasks value: " +:+ ToString (ParsePrd.numTasks args)
                         +:+ ". Using default: 10")
          else ret tt) ;;
         let append := truthy (append args) in
         Logger.info ("Preparing to parse PRD from " +:+ inputPath
                      +:+ " and output to " +:+ outputPath +:+ " with "
                      +:+ ToString numTasks +:+ " tasks, append mode: "
                      +:+ ToString (JBool append)) ;;
         let modelConfig := getModelConfig session DEFAULT_MODEL_CONFIG in
         result <- generateTasksFromPRD prdContent inputPath numTasks ;;
         if shouldBeHandledByClaudeDirectly result then
           ret (mkResult true
                  (Some (Delegated "PRD parsing should be handled directly by Claude"
                           true (systemPrompt result) (userPrompt result)
                           outputPath numTasks append))
                  None false)
         else
           w <- get_world ;;
           Fs.writeFileSync outputPath
             (sampleOutput numTasks inputPath (upTo "T" (now w))) ;;
           let actionVerb := if append then "appended" else "generated" in
           let message := "Successfully " +:+ actionVerb +:+ " "
                          +:+ ToString numTasks +:+ " tasks from PRD" in
           Logger.info message ;;
           ret (mkResult true (Some (Written message numTasks outputPath append))
                  None false)
     end)
    (fun message =>
       Logger.error ("Error parsing PRD: " +:+ message) ;;
       ret (failure "PARSE_PRD_ERROR"
              (if String.eqb message "" then "Unknown error parsing PRD" else message)
              None)).

End ParsePrd.

(** ** The paths through parsePRDDirect *)

Module Run.
Import JS AiClientUtils ParsePrd.

(** The world once the arguments are logged, the flag is set and the client
    is built *)
Definition started (args : Args) (w : World) : World :=
  add_log (Info, "Using Claude Desktop mode with mock Anthropic client")
    (set_env (insert "CLAUDE_DESKTOP" "true")
       (add_log (Info, "Parsing PRD document with args: " +:+ stringifyArgs args) w)).

Definition rejected (code message : string) (w : World) : Result * World :=
  (failure code message None, add_log (Error, message) w).

Definition notFound (args : Args) (inputPath : string) : Result :=
  failure "INPUT_FILE_NOT_FOUND" ("Input file not found: " +:+ inputPath)
    (Some ("Checked path: " +:+ inputPath +:+ nl
           +:+ "Project root: " +:+ ToString (projectRoot args) +:+ nl
           +:+ "Input argument: " +:+ ToString (input args))).

(** The catch-all handler *)
Definition caught (e : string) (w : World) : Result * World :=
  (failure "PARSE_PRD_ERROR"
     (if String.eqb e "" then "Unknown error parsing PRD" else e) None,
   add_log (Error, "Error parsing PRD: " +:+ e) w).

Definition afterRead (content inputPath : string) (w : World) : World :=
  add_log (Info, "Read " +:+ Z_to_string (Z.of_nat (String.length content))
                 +:+ " bytes from " +:+ inputPath) w.

Definition creating (dir : string) (w : World) : World :=
  add_log (Info, "Creating output directory: " +:+ dir) w.

(** Whether mkdirSync(p, { recursive: true }) goes through, and the world it
    leaves *)
Definition mkdirOk (w : World) (p : string) : bool :=
  negb (Fs.isFile w (Fs.key w p))
  && negb (existsb (Fs.isFile w) (Path.ancestorsAndSelf (Fs.key w p))).

Definition mkdirWorld (w : World) (p : string) : World :=
  set_dirs (fun d => d ∪ list_to_set (Path.ancestorsAndSelf (Fs.key w p))) w.

Definition mkdirError (w : World) (p : string) : string :=
  if Fs.isFile w (Fs.key w p)
  then "EEXIST: file already exists, mkdir '" +:+ p +:+ "'"
  else "ENOTDIR: not a directory, mkdir '" +:+ p +:+ "'".

(** The output directory is there, or is made *)
Definition ensured (dir : string) (w : World) : World :=
  if Fs.pathExists w dir then w else mkdirWorld (creating dir w) dir.

Definition warned (args : Args) (w : World) : World :=
  if snd (parseNumTasks (numTasks args))
  then add_log (Warn, "Invalid numTasks value: " +:+ ToString (numTasks args)
                      +:+ ". Using default: 10") w
  else w.

Definition userPromptText (numTasks : jsval) (prdContent : string) : string :=
  "Here's the Product Requirements Document (PRD) to break down into "
  +:+ ToString numTasks +:+ " tasks:" +:+ nl +:+ nl +:+ prdContent.

Definition generated (n : jsval) (inputPath : string) (w : World) : World :=
  add_log (Info, "Claude is analyzing the PRD and generating tasks...")
    (add_log (Info, "Generating " +:+ ToString n +:+ " tasks from PRD at "
                    +:+ inputPath) w).

Definition prepared (args : Args) (inputPath outputPath : string) (w : World) : World :=
  add_log (Info, "Preparing to parse PRD from " +:+ inputPath
                 +:+ " and output to " +:+ outputPath +:+ " with "
                 +:+ ToString (fst (parseNumTasks (numTasks args)))
                 +:+ " tasks, append mode: "
                 +:+ ToString (JBool (truthy (append args)))) w.

Definition delegated (args : Args) (w : World) (content inputPath outputPath : string)
  : Result :=
  let n := fst (parseNumTasks (numTasks args)) in
  mkResult true
    (Some (Delegated "PRD parsing should be handled directly by Claude" true
             (systemPromptText n inputPath (upTo "T" (now w)))
             (userPromptText n content)
             outputPath n (truthy (append args))))
    None false.

(** Path resolution reads the working directory and nothing else. *)
Definition resolved (w : World) (root p : jsval) : outcome string :=
  fst (resolveAgainst root p w).

(** [Exit args w r]: a call of parsePRDDirect with [args] from world [w]
    returns the result and leaves the world of [r].  One constructor for each
    way out of the function. *)
Inductive Exit (args : Args) (w : World) : Result * World -> Prop :=
  | missing_root :
      truthy (projectRoot args) = false ->
      Exit args w (rejected "MISSING_PROJECT_ROOT"
                     "Project root is required for parsePRDDirect" (started args w))
  | missing_input :
      truthy (projectRoot args) = true ->
      truthy (input args) = false ->
      Exit args w (rejected "MISSING_INPUT_PATH"
                     "Input file path is required for parsePRDDirect" (started args w))
  | missing_output :
      truthy (projectRoot args) = true ->
      truthy (input args) = true ->
      truthy (output args) = false ->
      Exit args w (rejected "MISSING_OUTPUT_PATH"
                     "Output file path is required for parsePRDDirect" (started args w))
  | input_unresolved e :
      truthy (projectRoot args) = true ->
      truthy (input args) = true ->
      truthy (output args) = true ->
      resolved w (projectRoot args) (input args) = Throw e ->
      Exit args w (caught e (started args w))
  | input_not_found inputPath :
      truthy (projectRoot args) = true ->
      truthy (input args) = true ->
      truthy (output args) = true ->
      resolved w (projectRoot args) (input args) = Ret inputPath ->
      Fs.pathExists w inputPath = false ->
      Exit args w (notFound args inputPath,
                   add_log (Error, "Input file not found: " +:+ inputPath)
                     (started args w))
  | input_unreadable inputPath e :
      truthy (projectRoot args) = true ->
      truthy (input args) = true ->
      truthy (output args) = true ->
      resolved w (projectRoot args) (input args) = Ret inputPath ->
      Fs.pathExists w inputPath = true ->
      Fs.readFile w inputPath = Throw e ->
      Exit args w (caught e (started args w))
  | output_unresolved inputPath content e :
      truthy (projectRoot args) = true ->
      truthy (input args) = true ->
      truthy (output args) = true ->
      resolved w (projectRoot args) (input args) = Ret inputPath ->
      Fs.pathExists w inputPath = true ->
      Fs.readFile w inputPath = Ret content ->
      resolved w (projectRoot args) (output args) = Throw e ->
      Exit args w (caught e (afterRead content inputPath (started args w)))
  | directory_refused inputPath content outputPath :
      truthy (projectRoot args) = true ->
      truthy (input args) = true ->
      truthy (output args) = true ->
      resolved w (projectRoot args) (input args) = Ret inputPath ->
      Fs.pathExists w inputPath = true ->
      Fs.readFile w inputPath = Ret content ->
      resolved w (projectRoot args) (output args) = Ret outputPath ->
      Fs.pathExists w (Path.dirname outputPath) = false ->
      mkdirOk w (Path.dirname outputPath) = false ->
      Exit args w
        (caught (mkdirError w (Path.dirname outputPath))
           (creating (Path.dirname outputPath)
              (afterRead content inputPath (started args w))))
  | handed_over inputPath content outputPath :
      truthy (projectRoot args) = true ->
      truthy (input args) = true ->
      truthy (output args) = true ->
      resolved w (projectRoot args) (input args) = Ret inputPath ->
      Fs.pathExists w inputPath = true ->
      Fs.readFile w inputPath = Ret content ->
      resolved w (projectRoot args) (output args) = Ret outputPath ->
      (Fs.pathExists w (Path.dirname outputPath) = true
       \/ mkdirOk w (Path.dirname outputPath) = true) ->
      Exit args w
        (delegated args w content inputPath outputPath,
         generated (fst (parseNumTasks (numTasks args))) inputPath
           (prepared args inputPath outputPath
              (warned args
                 (ensured (Path.dirname outputPath)
                    (afterRead content inputPath (started args w)))))).

(** The arguments with another numTasks *)
Definition withNumTasks (v : jsval) (args : Args) : Args :=
  mkArgs (input args) v (output args) (force args) (append args) (projectRoot args).

(** Readers of a result *)
Definition succeeded (r : outcome Result * World) : bool :=
  match fst r with
  | Ret res => success res
  | Throw _ => false
  end.

Definition errorCode (res : Result) : option string := error_code <$> error res.
Definition errorDetails (res : Result) : option string := error res ≫= error_details.

Definition dataNumTasks (res : Result) : option jsval :=
  match data res with
  | Some (Delegated _ _ _ _ _ n _) => Some n
  | Some (Written _ n _ _) => Some n
  | None => None
  end.

Definition dataOutputPath (res : Result) : option string :=
  match data res with
  | Some (Delegated _ _ _ _ p _ _) => Some p
  | Some (Written _ _ p _) => Some p
  | None => None
  end.

(** The two prompts of a result that hands the work over *)
Definition dataPrompts (res : Result) : option (string * string) :=
  match data res with
  | Some (Delegated _ true sp up _ _ _) => Some (sp, up)
  | _ => None
  end.

Definition flag : string := "CLAUDE_DESKTOP".

End Run.

(** ** Decimal numerals, for stating what parseInt reads *)

Module Numeral.
Import JS.

(** The value of a numeral read digit by digit, most significant first *)
Fixpoint uintValue (u : Decimal.uint) (acc : N) : N :=
  match u with
  | Decimal.Nil => acc
  | Decimal.D0 l => uintValue l (10 * acc)
  | Decimal.D1 l => uintValue l (1 + 10 * acc)
  | Decimal.D2 l => uintValue l (2 + 10 * acc)
  | Decimal.D3 l => uintValue l (3 + 10 * acc)
  | Decimal.D4 l => uintValue l (4 + 10 * acc)
  | Decimal.D5 l => uintValue l (5 + 10 * acc)
  | Decimal.D6 l => uintValue l (6 + 10 * acc)
  | Decimal.D7 l => uintValue l (7 + 10 * acc)
  | Decimal.D8 l => uintValue l (8 + 10 * acc)
  | Decimal.D9 l => uintValue l (9 + 10 * acc)
  end%N.

(** Texts made of decimal digits *)
Definition isDigit (c : ascii) : bool := (48 <=? code c) && (code c <=? 57).

Fixpoint allDigits (s : string) : bool :=
  match s with
  | String c s' => isDigit c && allDigits s'
  | EmptyString => true
  end.

End Numeral.

(** ** Sample inputs *)

Module Sample.
Import JS AiClientUtils ParsePrd.

(** A project with a requirements document and no tasks directory yet; the
    flag is not set in the environment. *)
Definition world : World :=
  mkWorld ∅ "/home/user"
    (<["/proj/scripts/prd.txt" := "Build a todo app."]> ∅)
    {["/proj"; "/proj/scripts"]}
    "2025-04-01T10:20:30.000Z" [] [].

(** The same machine with CLAUDE_DESKTOP=true in the environment *)
Definition desktop : World := set_env (insert "CLAUDE_DESKTOP" "true") world.

Definition args (numTasks : jsval) : Args :=
  mkArgs (JStr "scripts/prd.txt") numTasks (JStr "tasks/tasks.json")
    JUndefined JUndefined (JStr "/proj").

Definition session (k v : string) : option Session :=
  Some (mkSession (Some (<[k := v]> ∅))).

Definition params : Params := mkParams JUndefined (JBool true) "{}".

(** A call of the parse operation on the sample project *)
Definition run (args : Args) : outcome Result * World :=
  parsePRDDirect args None world.

Definition result (args : Args) : Result :=
  match fst (run args) with
  | Ret res => res
  | Throw _ => mkResult false None None false
  end.

End Sample.

(** ** ai-client-utils.js, the remaining functions *)

Module ClaudeErrors.
Import JS.

(** String.prototype.toLowerCase on code units below 256: A-Z, and the
    Latin-1 capitals other than the multiplication sign *)
Definition lowerChar (c : ascii) : ascii :=
  let n := code c in
  if ((65 <=? n) && (n <=? 90))
     || ((192 <=? n) && (n <=? 222) && negb (n =? 215))
  then ascii_of_nat (Z.to_nat (n + 32))
  else c.

Fixpoint toLowerCase (s : string) : string :=
  match s with
  | String c s' => String (lowerChar c) (toLowerCase s')
  | EmptyString => EmptyString
  end.

(** String.prototype.includes *)
Fixpoint includes (hay needle : string) : bool :=
  String.prefix needle hay
  || match hay with
     | String _ hay' => includes hay' needle
     | EmptyString => false
     end.

(** The [error] property of a structured API error *)
Record ErrorBody : Type := mkErrorBody {
  body_type : jsval;
  body_message : jsval
}.

(** What handleClaudeError reads of its argument: [type], [error] when it
    is there, and [message] when it is there. *)
Record ClaudeError : Type := mkClaudeError {
  claude_type : jsval;
  claude_error : option ErrorBody;
  claude_message : option string
}.

Definition OVERLOADED : string :=
  "Claude is currently experiencing high demand and is overloaded. Please wait a few minutes and try again.".
Definition RATE_LIMITED : string :=
  "You have exceeded the rate limit. Please wait a few minutes before making more requests.".
Definition INVALID_REQUEST : string :=
  "There was an issue with the request format. If this persists, please report it as a bug.".
Definition TIMED_OUT : string :=
  "The request to Claude timed out. Please try again.".
Definition NETWORK : string :=
  "There was a network error connecting to Claude. Please check your internet connection and try again.".

(** [error.message?.toLowerCase().includes(word)] as a condition *)
Definition mentions (message : option string) (word : string) : bool :=
  match message with
  | Some m => includes (toLowerCase m) word
  | None => false
  end.

Definition handleClaudeError (error : ClaudeError) : string :=
  match (if bool_decide (claude_type error = JStr "error") then claude_error error
         else None) with
  | Some body =>
      if bool_decide (body_type body = JStr "overloaded_error") then OVERLOADED
      else if bool_decide (body_type body = JStr "rate_limit_error") then RATE_LIMITED
      else if bool_decide (body_type body = JStr "invalid_request_error")
      then INVALID_REQUEST
      else "Claude API error: " +:+ ToString (body_message body)
  | None =>
      if mentions (claude_message error) "timeout" then TIMED_OUT
      else if mentions (claude_message error) "network" then NETWORK
      else "Error communicating with Claude: "
           +:+ default "undefined" (claude_message error)
  end.

End ClaudeErrors.

Module MockPerplexity.
Import JS AiClientUtils.

Record Choice : Type := mkChoice {
  choice_content : string;
  choice_role : string;
  choice_finish_reason : string;
  choice_index : Z
}.

Record Completion : Type := mkCompletion {
  completion_choices : list Choice;
  completion_id : string;
  completion_model : jsval;
  prompt_tokens : Z;
  completion_tokens : Z;
  total_tokens : Z
}.

(** MockPerplexityClient.createCompletion *)
Definition createCompletion (params : Params) : M Completion :=
  console_log "Generating completion with Claude's own capabilities" ;;
  console_log ("Params: " +:+ params_json params) ;;
  ret (mkCompletion [mkChoice "NOT_IMPLEMENTED" "assistant" "stop" 0]
         "mock-completion-id"
         (defaultModel (params_model params) "sonar-medium-online")
         1000 2000 3000).

End MockPerplexity.

(** ** path (POSIX), the functions server.js uses *)

Module PathJoin.
Import JS.

Fixpoint lastChar (s : string) : option ascii :=
  match s with
  | EmptyString => None
  | String c EmptyString => Some c
  | String _ s' => lastChar s'
  end.

(** path.normalize *)
Definition normalize (p : string) : string :=
  if String.eqb p "" then "."
  else
    let isAbsolute := Path.isAbsolute p in
    let trailingSeparator := bool_decide (lastChar p = Some Path.slash) in
    let body := Path.normalizeString (negb isAbsolute) p in
    if String.eqb body "" then
      (if isAbsolute then "/" else if trailingSeparator then "./" else ".")
    else
      let body' := if trailingSeparator then body +:+ "/" else body in
      if isAbsolute then "/" +:+ body' else body'.

(** path.join on arguments already known to be strings *)
Definition join (parts : list string) : string :=
  match filter (fun p => p <> "") parts with
  | [] => "."
  | nonEmpty => normalize (JS.join "/" nonEmpty)
  end.

(** path.basename(p): the part after the last slash, trailing slashes aside *)
Definition basename (p : string) : string :=
  let isSlash := fun c : ascii => bool_decide (c = Path.slash) in
  let fix takeName (l : list ascii) : list ascii :=
    match l with
    | c :: l' => if isSlash c then [] else c :: takeName l'
    | [] => []
    end in
  string_of_list_ascii
    (rev (takeName (Path.dropWhile isSlash (rev (list_ascii_of_string p))))).

End PathJoin.

(** ** server.js: the two tools *)

Module Server.
Import JS AiClientUtils ParsePrd.

(** What the parse_prd tool answers: its own envelope when the work is handed
    over, the result of parsePRDDirect as it is otherwise, or the envelope of
    its catch clause. *)
Inductive ToolResult : Type :=
  | Handled (message systemPrompt userPrompt outputPath : string)
            (numTasks : jsval) (append : bool)
  | Passed (result : Result)
  | Failed (message : string).

(** [result.success && result.data.shouldBeHandledByClaudeDirectly] *)
Definition handedOver (result : Result) : M (option Data) :=
  if success result then
    match data result with
    | Some (Delegated m flag sp up op n ap) =>
        ret (if flag then Some (Delegated m flag sp up op n ap) else None)
    | Some (Written _ _ _ _) => ret None
    | None =>
        throw "Cannot read properties of undefined (reading 'shouldBeHandledByClaudeDirectly')"
    end
  else ret None.

(** The execute function of the parse_prd tool *)
Definition parse_prd (args : Args) (session : option Session) : M ToolResult :=
  try_catch
    (Logger.info ("Parsing PRD with args: " +:+ stringifyArgs args) ;;
     result <- parsePRDDirect args session ;;
     handed <- handedOver result ;;
     match handed with
     | Some (Delegated _ _ sp up op n ap) =>
         Logger.info "Request should be handled directly by Claude's capabilities" ;;
         ret (Handled "This task should be handled directly by Claude's capabilities"
                sp up op n ap)
     | _ => ret (Passed result)
     end)
    (fun message =>
       Logger.error ("Error in parse-prd tool: " +:+ message) ;;
       ret (Failed message)).

(** The arguments of the initialize_project tool *)
Record InitArgs : Type := mkInitArgs {
  init_projectRoot : jsval;
  init_skipInstall : jsval;
  init_addAliases : jsval;
  init_yes : jsval
}.

Inductive InitResult : Type :=
  | Initialized (message next_step : string)
  | NotInitialized (message : string).

Definition EXAMPLE_PRD : string :=
  JS.join nl
    ["# Example Product Requirements Document";
     "";
     "## Project Overview";
     "Describe your project here. What problem does it solve? Who is it for?";
     "";
     "## Core Features";
     "- Feature 1: Description of feature 1";
     "- Feature 2: Description of feature 2";
     "- Feature 3: Description of feature 3";
     "";
     "## Technical Requirements";
     "- Platform/environment";
     "- Dependencies/libraries";
     "- Performance requirements";
     "- Security requirements";
     "";
     "## User Interface";
     "- Design guidelines";
     "- User interaction flows";
     "- Accessibility requirements";
     "";
     "## Milestones";
     "- Alpha release: Key features and target date";
     "- Beta release: Features and target date";
     "- v1.0 release: Final feature set and launch date";
     "";
     "## Constraints";
     "- Time constraints";
     "- Budget constraints";
     "- Technical constraints"].

Definition NEXT_STEP : string :=
  "Now that the project is initialized, the next step is to create the tasks by parsing a PRD. This will create the tasks folder and the initial task files (tasks folder will be created when parse-prd is run). The parse-prd tool will require a prd.txt file as input (typically found in the project root directory, scripts/ directory). You can create a prd.txt file by asking the user about their idea, and then using the scripts/example_prd.txt file as a template to genrate a prd.txt file in scripts/. You may skip all of this if the user already has a prd.txt file. You can THEN use the parse-prd tool to create the tasks. So: step 1 after initialization is to create a prd.txt file in scripts/prd.txt or confirm the user already has one. Step 2 is to use the parse-prd tool to create the tasks. Do not bother looking for tasks after initialization, just use the parse-prd tool to create the tasks after creating a prd.txt from which to parse the tasks. You do NOT need to reinitialize the project to parse-prd.".

(** JSON.stringify of the empty task collection, with indent 2 *)
Definition emptyTasks (projectName today : string) : string :=
  JS.join nl
    ["{";
     "  " +:+ quoted "tasks" +:+ ": [],";
     "  " +:+ quoted "metadata" +:+ ": {";
     "    " +:+ quoted "projectName" +:+ ": " +:+ JSON.quote projectName +:+ ",";
     "    " +:+ quoted "totalTasks" +:+ ": 0,";
     "    " +:+ quoted "generatedAt" +:+ ": " +:+ JSON.quote today;
     "  }";
     "}"].

(** path.join(...parts): every argument is checked, from the left *)
Fixpoint checkedStrings (parts : list jsval) : M (list string) :=
  match parts with
  | [] => ret []
  | JStr s :: more => rest <- checkedStrings more ;; ret (s :: rest)
  | v :: _ => throw (invalidArgType "path" v)
  end.

Definition path_join (parts : list jsval) : M string :=
  strings <- checkedStrings parts ;; ret (PathJoin.join strings).

(** path.basename(v) *)
Definition path_basename (v : jsval) : M string :=
  match v with
  | JStr s => ret (PathJoin.basename s)
  | _ => throw (invalidArgType "path" v)
  end.

Fixpoint forEach {A} (l : list A) (body : A -> M unit) : M unit :=
  match l with
  | [] => ret tt
  | x :: more => body x ;; forEach more body
  end.

(** The execute function of the initialize_project tool *)
Definition initialize_project (args : InitArgs) : M InitResult :=
  let root := init_projectRoot args in
  try_catch
    (Logger.info ("Initializing project at " +:+ ToString root) ;;
     scripts <- path_join [root; JStr "scripts"] ;;
     tasks <- path_join [root; JStr "tasks"] ;;
     forEach [scripts; tasks]
       (fun dir =>
          dirExists <- Fs.existsSync dir ;;
          if negb dirExists then
            Fs.mkdirSync dir ;;
            Logger.info ("Created directory: " +:+ dir)
          else ret tt) ;;
     examplePrdPath <- path_join [root; JStr "scripts"; JStr "example_prd.txt"] ;;
     prdExists <- Fs.existsSync examplePrdPath ;;
     (if negb prdExists then
        Fs.writeFileSync examplePrdPath EXAMPLE_PRD ;;
        Logger.info ("Created example PRD at " +:+ examplePrdPath)
      else ret tt) ;;
     tasksJsonPath <- path_join [root; JStr "tasks"; JStr "tasks.json"] ;;
     tasksExist <- Fs.existsSync tasksJsonPath ;;
     (if negb tasksExist then
        projectName <- path_basename root ;;
        w <- get_world ;;
        Fs.writeFileSync tasksJsonPath (emptyTasks projectName (upTo "T" (now w))) ;;
        Logger.info ("Created empty tasks.json at " +:+ tasksJsonPath)
      else ret tt) ;;
     ret (Initialized "Project initialized successfully." NEXT_STEP))
    (fun message =>
       Logger.error ("Error initializing project: " +:+ message) ;;
       ret (NotInitialized message)).

End Server.

(** ** Texts without their line terminators *)

Module Chunks.
Import JS AiClientUtils.

Fixpoint withoutLineTerminators (s : string) : string :=
  match s with
  | String c s' =>
      if isLineTerminator c then withoutLineTerminators s'
      else String c (withoutLineTerminators s')
  | EmptyString => EmptyString
  end.

(** What every match of /.{1,20}/ is *)
Definition isChunk (chunk : string) : Prop :=
  (1 <= String.length chunk <= 20)%nat /\ withoutLineTerminators chunk = chunk.

End Chunks.

(** ** Reading the answers of the mock clients *)

Module Answers.
Import JS AiClientUtils.

(** The text of the content deltas of a stream, in order *)
Definition deltaTexts (events : list StreamEvent) : list string :=
  omap (fun e => match e with
                 | content_block_delta text _ => Some text
                 | _ => None
                 end) events.

(** The text of a message: its content blocks end to end *)
Definition messageText (m : Message) : string :=
  fold_right append "" (map block_text (message_content m)).

(** The message a stream ends with *)
Definition closingMessage (events : list StreamEvent) : option Message :=
  match last events with
  | Some (message_stop m) => Some m
  | _ => None
  end.

(** Everything of a world but what was printed *)
Definition unprinted (w : World) :=
  (env w, cwd w, files w, dirs w, now w, log w).

End Answers.

(** ** Segments of a normalised path *)

Module Segments.

Fixpoint noSlash (s : string) : bool :=
  match s with
  | String c s' => negb (bool_decide (c = Path.slash)) && noSlash s'
  | EmptyString => true
  end.

(** A segment that normalizeString keeps *)
Definition kept (seg : string) : Prop :=
  noSlash seg = true /\ seg <> "" /\ seg <> "." /\ seg <> "..".

End Segments.

(** ** Paths the operating system finds where path.resolve puts them *)

Module Plain.
Import JS AiClientUtils ParsePrd Run.

(** An absolute path that path.resolve leaves as it is: no '.', '..' or empty
    segment, and no trailing slash *)
Definition plain (w : World) (p : string) : Prop :=
  Path.isAbsolute p = true /\ Fs.key w p = p.

(** The two paths a call of parsePRDDirect hands to the file system, the
    input path and the directory of the output path, are plain.  A relative
    argument is resolved against the project root and so gives a plain path;
    an absolute argument is handed over as it is written. *)
Definition plainPaths (args : Args) (w : World) : Prop :=
  (forall inputPath,
      resolved w (projectRoot args) (input args) = Ret inputPath ->
      plain w inputPath)
  /\ (forall outputPath,
      resolved w (projectRoot args) (output args) = Ret outputPath ->
      plain w (Path.dirname outputPath)).

End Plain.

(** ** The steps of initialize_project *)

Module InitRun.
Import JS AiClientUtils ParsePrd Server.

(** The body of the loop over the two directories *)
Definition ensureDir (dir : string) : M unit :=
  dirExists <- Fs.existsSync dir ;;
  if negb dirExists then
    Fs.mkdirSync dir ;;
    Logger.info ("Created directory: " +:+ dir)
  else ret tt.

(** A file written when nothing is at its path *)
Definition writeIfAbsent (p : string) (content : World -> string) (line : string)
  : M unit :=
  fileExists <- Fs.existsSync p ;;
  if negb fileExists then
    w <- get_world ;;
    Fs.writeFileSync p (content w) ;;
    Logger.info line
  else ret tt.

Definition scriptsDir (root : string) : string := PathJoin.join [root; "scripts"].
Definition tasksDir (root : string) : string := PathJoin.join [root; "tasks"].
Definition examplePrdPath (root : string) : string :=
  PathJoin.join [root; "scripts"; "example_prd.txt"].
Definition tasksJsonPath (root : string) : string :=
  PathJoin.join [root; "tasks"; "tasks.json"].

(** What the try block of initialize_project does for a project root that is
    a string *)
Definition steps (root : string) : M InitResult :=
  Logger.info ("Initializing project at " +:+ root) ;;
  forEach [scriptsDir root; tasksDir root] ensureDir ;;
  writeIfAbsent (examplePrdPath root) (fun _ => EXAMPLE_PRD)
    ("Created example PRD at " +:+ examplePrdPath root) ;;
  writeIfAbsent (tasksJsonPath root)
    (fun w => emptyTasks (PathJoin.basename root) (upTo "T" (now w)))
    ("Created empty tasks.json at " +:+ tasksJsonPath root) ;;
  ret (Initialized "Project initialized successfully." NEXT_STEP).

Definition handler (message : string) : M InitResult :=
  Logger.error ("Error initializing project: " +:+ message) ;;
  ret (NotInitialized message).

(** Nothing lost: same working directory and environment, every file with
    the content it had, every directory still there *)
Definition keeps (w w' : World) : Prop :=
  cwd w' = cwd w /\ env w' = env w /\ now w' = now w
  /\ (forall k content, files w !! k = Some content -> files w' !! k = Some content)
  /\ dirs w ⊆ dirs w'.

End InitRun.

(** ** More sample inputs *)

Module More.
Import JS AiClientUtils ParsePrd Server.

(** The sample machine with an Anthropic key in the environment *)
Definition keyed : World :=
  set_env (insert "ANTHROPIC_API_KEY" "from-env") Sample.world.

(** A machine with an empty /tmp and nothing else *)
Definition fresh : World :=
  mkWorld ∅ "/home/user" ∅ {["/tmp"]} "2025-04-01T10:20:30.000Z" [] [].

Definition init (root : jsval) : InitArgs :=
  mkInitArgs root JUndefined JUndefined JUndefined.

End More.

(** ** Reasoning about calls *)

(** [wp m Q w]: running [m] from [w] ends in an outcome and a world that
    satisfy [Q]. *)
Definition wp {A} (m : M A) (Q : outcome A -> World -> Prop) (w : World) : Prop :=
  Q (fst (m w)) (snd (m w)).

(** The calls with the given level among the logger's calls *)
Definition logged (l : level) (w : World) : list string :=
  map snd (filter (fun e => fst e = l) (log w)).

(** [hay] has [needle] as a contiguous part *)
Definition contains (hay needle : string) : Prop :=
  exists before after, hay = before +:+ needle +:+ after.

(** The texts of a list, one after the other *)
Definition concatText (l : list string) : string := fold_right append "" l.

Fixpoint noLineTerminator (s : string) : bool :=
  match s with
  | String c s' => negb (AiClientUtils.isLineTerminator c) && noLineTerminator s'
  | EmptyString => true
  end.

(** [session?.env?.KEY] holds a non-empty text / holds nothing to use *)
Definition present (session : option AiClientUtils.Session) (k s : string) : Prop :=
  AiClientUtils.sessionEnv session k = Some s /\ s <> "".
Definition absent (session : option AiClientUtils.Session) (k : string) : Prop :=
  AiClientUtils.sessionEnv session k = None \/ AiClientUtils.sessionEnv session k = Some "".

Section wp_rules.
Context {A B : Type}.

Lemma wp_ret (a : A) Q w : Q (Ret a) w -> wp (ret a) Q w.
Proof. exact id. Qed.

Lemma wp_throw (e : string) (Q : outcome A -> World -> Prop) w :
  Q (Throw e) w -> wp (throw e) Q w.
Proof. exact id. Qed.

Lemma wp_bind (m : M A) (k : A -> M B) Q w :
  wp m (fun o w' => match o with
                    | Ret a => wp (k a) Q w'
                    | Throw e => Q (Throw e) w'
                    end) w ->
  wp (bind m k) Q w.
Proof.
  unfold wp, bind. destruct (m w) as [[a|e] w']; simpl; auto.
Qed.

Lemma wp_try_catch (body : M A) (handler : string -> M A) Q w :
  wp body (fun o w' => match o with
                       | Ret a => Q (Ret a) w'
                       | Throw e => wp (handler e) Q w'
                       end) w ->
  wp (try_catch body handler) Q w.
Proof.
  unfold wp, try_catch. destruct (body w) as [[a|e] w']; simpl; auto.
Qed.

Lemma wp_known (m : M A) (o : outcome A) (w w' : World) Q :
  m w = (o, w') -> Q o w' -> wp m Q w.
Proof. unfold wp. intros ->. exact id. Qed.

Lemma wp_elim (m : M A) Q w : wp m Q w -> Q (fst (m w)) (snd (m w)).
Proof. exact id. Qed.

End wp_rules.

Lemma wp_modify (f : World -> World) Q w : Q (Ret tt) (f w) -> wp (modify f) Q w.
Proof. exact id. Qed.

Lemma wp_get_world Q w : Q (Ret w) w -> wp get_world Q w.
Proof. exact id. Qed.

(** ** Mode resolution and client construction *)

Section selection.
Import JS AiClientUtils.

Lemma getAnthropicClientForMCP_desktop session w :
  usingClaudeDesktop w session = true ->
  getAnthropicClientForMCP session w =
    (Ret (MockAnthropicClient None),
     add_log (Info, "Using Claude Desktop mode with mock Anthropic client") w).
Proof.
  intros H. unfold getAnthropicClientForMCP, try_catch, bind, get_world.
  cbv beta iota. rewrite H. reflexivity.
Qed.

Lemma usingClaudeDesktop_set session w :
  usingClaudeDesktop (set_env (insert "CLAUDE_DESKTOP" "true") w) session = true.
Proof.
  unfold usingClaudeDesktop, set_env. cbn [env].
  rewrite lookup_insert_eq. rewrite bool_decide_eq_true_2; reflexivity.
Qed.

Lemma getAnthropicClientForMCP_api session w :
  usingClaudeDesktop w session = false ->
  getAnthropicClientForMCP session w =
    match apiKeyOf w session "ANTHROPIC_API_KEY" with
    | Some apiKey =>
        (Ret (MockAnthropicClient
                (Some (mkAnthropicOptions apiKey
                         [("anthropic-beta", "output-128k-2025-02-19")]))),
         add_log (Info, "Using Anthropic API with provided key") w)
    | None =>
        (Throw "ANTHROPIC_API_KEY not found in session environment or process.env. Set CLAUDE_DESKTOP=true to use Claude Desktop mode.",
         add_log (Error, "Failed to initialize Anthropic client: " +:+ "ANTHROPIC_API_KEY not found in session environment or process.env. Set CLAUDE_DESKTOP=true to use Claude Desktop mode.") w)
    end.
Proof.
  intros H. unfold getAnthropicClientForMCP, try_catch, bind, get_world.
  cbv beta iota. rewrite H. now destruct (apiKeyOf w session "ANTHROPIC_API_KEY").
Qed.

Lemma getPerplexityClientForMCP_api session w apiKey :
  usingClaudeDesktop w session = false ->
  apiKeyOf w session "PERPLEXITY_API_KEY" = Some apiKey ->
  getPerplexityClientForMCP session w =
    (Ret (MockPerplexityClient
            (Some (mkPerplexityOptions apiKey "https://api.perplexity.ai"))),
     add_log (Info, "Using Perplexity API with provided key") w).
Proof.
  intros H Hkey. unfold getPerplexityClientForMCP, try_catch, bind, get_world.
  cbv beta iota. now rewrite H, Hkey.
Qed.

(** Outside direct mode the selection is never the key-less mock client. *)
Lemma getBestAvailableAIModel_api session options w :
  usingClaudeDesktop w session = false ->
  fst (getBestAvailableAIModel session options w)
  <> Ret (mkSelection "claude" (MockAnthropicClient None)).
Proof.
  intros H. unfold getBestAvailableAIModel, bind at 1, get_world. rewrite H.
  unfold bind at 1.
  destruct (requiresResearch options
            && bool_decide (is_Some (apiKeyOf w session "PERPLEXITY_API_KEY"))) eqn:Hres.
  - apply andb_true_iff in Hres as [_ Hkey]. apply bool_decide_eq_true in Hkey.
    destruct Hkey as [k Hk].
    unfold try_catch, bind. rewrite (getPerplexityClientForMCP_api _ _ _ H Hk).
    cbn. discriminate.
  - unfold ret at 1. cbv beta iota. unfold try_catch, bind.
    rewrite (getAnthropicClientForMCP_api _ _ H).
    destruct (apiKeyOf w session "ANTHROPIC_API_KEY"); cbn; discriminate.
Qed.

End selection.

(** ** Symbolic execution of the parse operation *)

Section parse_rules.
Import JS AiClientUtils ParsePrd Run.

Lemma wp_info msg Q w : Q (Ret tt) (add_log (Info, msg) w) -> wp (Logger.info msg) Q w.
Proof. exact id. Qed.
Lemma wp_warn msg Q w : Q (Ret tt) (add_log (Warn, msg) w) -> wp (Logger.warn msg) Q w.
Proof. exact id. Qed.
Lemma wp_error msg Q w : Q (Ret tt) (add_log (Error, msg) w) -> wp (Logger.error msg) Q w.
Proof. exact id. Qed.

Lemma wp_existsSync p Q w : Q (Ret (Fs.pathExists w p)) w -> wp (Fs.existsSync p) Q w.
Proof. exact id. Qed.

Lemma wp_readFileSync p Q w : Q (Fs.readFile w p) w -> wp (Fs.readFileSync p) Q w.
Proof. exact id. Qed.

Lemma mkdirSync_run p w :
  Fs.mkdirSync p w =
    if mkdirOk w p then (Ret tt, mkdirWorld w p) else (Throw (mkdirError w p), w).
Proof.
  unfold Fs.mkdirSync, mkdirOk, mkdirWorld, mkdirError.
  destruct (Fs.isFile w (Fs.key w p)); [reflexivity|].
  destruct (existsb _ _); reflexivity.
Qed.

Lemma wp_mkdirSync p Q w :
  (mkdirOk w p = true -> Q (Ret tt) (mkdirWorld w p)) ->
  (mkdirOk w p = false -> Q (Throw (mkdirError w p)) w) ->
  wp (Fs.mkdirSync p) Q w.
Proof.
  intros Hok Hko. unfold wp. rewrite mkdirSync_run.
  destruct (mkdirOk w p); [apply Hok | apply Hko]; reflexivity.
Qed.

Lemma resolveAgainst_run root p w :
  resolveAgainst root p w = (resolved w root p, w).
Proof.
  unfold resolved, resolveAgainst, path_isAbsolute, path_resolve, bind, get_world, ret, throw.
  destruct p; try reflexivity.
  destruct (Path.isAbsolute s); [reflexivity|].
  destruct root; reflexivity.
Qed.

Lemma resolved_cwd w w' root p : cwd w = cwd w' -> resolved w root p = resolved w' root p.
Proof.
  intros H.
  unfold resolved, resolveAgainst, path_isAbsolute, path_resolve, bind, get_world, ret, throw.
  destruct p; try reflexivity.
  destruct (Path.isAbsolute s); cbn; [reflexivity|].
  destruct root; try reflexivity. cbn. now rewrite H.
Qed.

(** What the resolved path is when there is one *)
Lemma resolved_Ret w root p path :
  resolved w root p = Ret path ->
  exists s, p = JStr s
    /\ (if Path.isAbsolute s then path = s
        else exists r, root = JStr r /\ path = Path.resolve (cwd w) [r; s]).
Proof.
  unfold resolved, resolveAgainst, path_isAbsolute, path_resolve, bind, get_world, ret, throw.
  destruct p; try discriminate. cbn.
  intros H. exists s. split; [reflexivity|].
  destruct (Path.isAbsolute s); cbn in H.
  - now inversion H.
  - destruct root; try discriminate. cbn in H. inversion H. eauto.
Qed.

Lemma wp_resolveAgainst root p Q w :
  Q (resolved w root p) w -> wp (resolveAgainst root p) Q w.
Proof. intros H. unfold wp. now rewrite resolveAgainst_run. Qed.

Lemma wp_getAnthropicClientForMCP_desktop session Q w :
  usingClaudeDesktop w session = true ->
  Q (Ret (MockAnthropicClient None))
    (add_log (Info, "Using Claude Desktop mode with mock Anthropic client") w) ->
  wp (getAnthropicClientForMCP session) Q w.
Proof.
  intros H HQ. unfold wp. now rewrite getAnthropicClientForMCP_desktop.
Qed.

Lemma generateTasksFromPRD_run prdContent prdPath numTasks w :
  generateTasksFromPRD prdContent prdPath numTasks w =
    (Ret (mkGenerationResult true
            (systemPromptText numTasks prdPath (upTo "T" (now w)))
            (userPromptText numTasks prdContent)),
     generated numTasks prdPath w).
Proof. reflexivity. Qed.

Lemma wp_generateTasksFromPRD prdContent prdPath numTasks Q w :
  Q (Ret (mkGenerationResult true
            (systemPromptText numTasks prdPath (upTo "T" (now w)))
            (userPromptText numTasks prdContent)))
    (generated numTasks prdPath w) ->
  wp (generateTasksFromPRD prdContent prdPath numTasks) Q w.
Proof. intros H. unfold wp. now rewrite generateTasksFromPRD_run. Qed.

End parse_rules.

Ltac wp_step :=
  lazymatch goal with
  | |- wp (bind _ _) _ _ => apply wp_bind
  | |- wp (try_catch _ _) _ _ => apply wp_try_catch
  | |- wp (ret _) _ _ => apply wp_ret
  | |- wp (throw _) _ _ => apply wp_throw
  | |- wp (modify _) _ _ => apply wp_modify
  | |- wp get_world _ _ => apply wp_get_world
  | |- wp (Logger.info _) _ _ => apply wp_info
  | |- wp (Logger.warn _) _ _ => apply wp_warn
  | |- wp (Logger.error _) _ _ => apply wp_error
  | |- wp (Fs.existsSync _) _ _ => apply wp_existsSync
  | |- wp (Fs.readFileSync _) _ _ => apply wp_readFileSync
  | |- wp (ParsePrd.resolveAgainst _ _) _ _ => apply wp_resolveAgainst
  | |- wp (ParsePrd.generateTasksFromPRD _ _ _) _ _ => apply wp_generateTasksFromPRD
  | |- wp (AiClientUtils.getAnthropicClientForMCP _) _ _ =>
      apply wp_getAnthropicClientForMCP_desktop;
      [first [ apply usingClaudeDesktop_set | reflexivity ] |]
  end; cbv beta iota.

Section parse_run.
Import JS AiClientUtils ParsePrd Run.

(** Every call of parsePRDDirect returns (it never throws), along one of the
    paths of [Exit]. *)
Lemma parsePRDDirect_run args session w :
  exists r, parsePRDDirect args session w = (Ret (fst r), snd r) /\ Exit args w r.
Proof.
  enough (wp (parsePRDDirect args session)
            (fun o w' => exists r, (o, w') = (Ret (fst r), snd r) /\ Exit args w r) w)
    as H.
  { apply wp_elim in H. destruct H as (r & Heq & Hr). exists r. split; [|exact Hr].
    rewrite <- Heq. now destruct (parsePRDDirect args session w). }
  unfold parsePRDDirect.
  repeat wp_step.
  fold (started args w).
  destruct (truthy (projectRoot args)) eqn:Hroot; cbn [negb].
  2:{ repeat wp_step. eexists. split; [|apply missing_root; assumption]. reflexivity. }
  destruct (truthy (input args)) eqn:Hin; cbn [negb].
  2:{ repeat wp_step. eexists. split; [|apply missing_input; assumption]. reflexivity. }
  destruct (truthy (output args)) eqn:Hout; cbn [negb].
  2:{ repeat wp_step. eexists. split; [|apply missing_output; assumption]. reflexivity. }
  repeat wp_step.
  rewrite (resolved_cwd (started args w) w) by reflexivity.
  destruct (resolved w (projectRoot args) (input args)) as [inputPath|e] eqn:Hres;
    cbv beta iota.
  2:{ repeat wp_step. eexists. split; [|eapply input_unresolved; eassumption]. reflexivity. }
  repeat wp_step.
  change (Fs.pathExists (started args w) inputPath) with (Fs.pathExists w inputPath).
  destruct (Fs.pathExists w inputPath) eqn:Hexists; cbn [negb].
  2:{ repeat wp_step. eexists. split; [|eapply input_not_found; eassumption]. reflexivity. }
  repeat wp_step.
  change (Fs.readFile (started args w) inputPath) with (Fs.readFile w inputPath).
  destruct (Fs.readFile w inputPath) as [content|e] eqn:Hread; cbv beta iota.
  2:{ repeat wp_step. eexists. split; [|eapply input_unreadable; eassumption]. reflexivity. }
  repeat wp_step.
  fold (afterRead content inputPath (started args w)).
  rewrite (resolved_cwd (afterRead content inputPath (started args w)) w) by reflexivity.
  destruct (resolved w (projectRoot args) (output args)) as [outputPath|e] eqn:Hout';
    cbv beta iota.
  2:{ repeat wp_step. eexists. split; [|eapply output_unresolved; eassumption]. reflexivity. }
  repeat wp_step.
  set (w2 := afterRead content inputPath (started args w)).
  set (dir := Path.dirname outputPath).
  assert (Hdone : Fs.pathExists w dir = true \/ mkdirOk w dir = true ->
            exists r,
              (Ret (delegated args w content inputPath outputPath),
               generated (fst (parseNumTasks (numTasks args))) inputPath
                 (prepared args inputPath outputPath (warned args (ensured dir w2))))
              = (Ret (fst r), snd r) /\ Exit args w r).
  { intros Hdir. eexists (_, _). split; [reflexivity|].
    apply handed_over; assumption. }
  change (Fs.pathExists w2 dir) with (Fs.pathExists w dir).
  assert (Hensured : ensured dir w2
                     = if Fs.pathExists w dir then w2 else mkdirWorld (creating dir w2) dir)
    by reflexivity.
  destruct (Fs.pathExists w dir) eqn:Hdir; cbn [negb].
  - repeat wp_step.
    rewrite (surjective_pairing (parseNumTasks (numTasks args))).
    unfold warned in Hdone. rewrite Hensured in Hdone.
    destruct (snd (parseNumTasks (numTasks args))); repeat wp_step;
      cbn [shouldBeHandledByClaudeDirectly systemPrompt userPrompt];
      repeat wp_step; apply Hdone; left; reflexivity.
  - repeat wp_step. apply wp_mkdirSync; cbv beta iota;
      change (mkdirOk (add_log _ w2) dir) with (mkdirOk w dir); intros Hmk.
    + rewrite (surjective_pairing (parseNumTasks (numTasks args))).
      unfold warned in Hdone. rewrite Hensured in Hdone.
      destruct (snd (parseNumTasks (numTasks args))); repeat wp_step;
        cbn [shouldBeHandledByClaudeDirectly systemPrompt userPrompt];
        repeat wp_step; apply Hdone; right; exact Hmk.
    + repeat wp_step. eexists (_, _). split; [reflexivity|].
      change (mkdirError (add_log _ w2) dir) with (mkdirError w dir).
      apply (directory_refused args w inputPath content outputPath); assumption.
Qed.

End parse_run.

(** ** What the steps of a call leave alone *)

Section frames.
Import JS AiClientUtils ParsePrd Run.

Lemma env_started args w : env (started args w) = <["CLAUDE_DESKTOP" := "true"]> (env w).
Proof. reflexivity. Qed.
Lemma env_afterRead c p w : env (afterRead c p w) = env w.
Proof. reflexivity. Qed.
Lemma env_creating d w : env (creating d w) = env w.
Proof. reflexivity. Qed.
Lemma env_ensured d w : env (ensured d w) = env w.
Proof. unfold ensured. now destruct (Fs.pathExists w d). Qed.
Lemma env_warned args w : env (warned args w) = env w.
Proof. unfold warned. now destruct (snd _). Qed.
Lemma env_prepared args i o w : env (prepared args i o w) = env w.
Proof. reflexivity. Qed.
Lemma env_generated n p w : env (generated n p w) = env w.
Proof. reflexivity. Qed.
Lemma env_add_log e w : env (add_log e w) = env w.
Proof. reflexivity. Qed.

Lemma files_started args w : files (started args w) = files w.
Proof. reflexivity. Qed.
Lemma files_afterRead c p w : files (afterRead c p w) = files w.
Proof. reflexivity. Qed.
Lemma files_creating d w : files (creating d w) = files w.
Proof. reflexivity. Qed.
Lemma files_ensured d w : files (ensured d w) = files w.
Proof. unfold ensured. now destruct (Fs.pathExists w d). Qed.
Lemma files_warned args w : files (warned args w) = files w.
Proof. unfold warned. now destruct (snd _). Qed.
Lemma files_prepared args i o w : files (prepared args i o w) = files w.
Proof. reflexivity. Qed.
Lemma files_generated n p w : files (generated n p w) = files w.
Proof. reflexivity. Qed.
Lemma files_add_log e w : files (add_log e w) = files w.
Proof. reflexivity. Qed.

Lemma logged_add_log l e w :
  logged l (add_log e w)
  = (logged l w ++ (if bool_decide (fst e = l) then [snd e] else []))%list.
Proof.
  unfold logged, add_log. cbn [log].
  rewrite filter_app, map_app. f_equal.
  rewrite filter_cons, filter_nil.
  destruct (decide (fst e = l)) as [H|H].
  - now rewrite bool_decide_eq_true_2.
  - now rewrite bool_decide_eq_false_2.
Qed.

Lemma logged_set_env l f w : logged l (set_env f w) = logged l w.
Proof. reflexivity. Qed.
Lemma logged_set_dirs l f w : logged l (set_dirs f w) = logged l w.
Proof. reflexivity. Qed.

Ltac other_level :=
  repeat (rewrite ?logged_add_log, ?logged_set_env, ?logged_set_dirs; cbn [fst snd];
          rewrite ?bool_decide_eq_false_2 by discriminate;
          rewrite ?app_nil_r);
  try reflexivity.

Lemma warnings_started args w : logged Warn (started args w) = logged Warn w.
Proof. unfold started. other_level. Qed.
Lemma warnings_afterRead c p w : logged Warn (afterRead c p w) = logged Warn w.
Proof. unfold afterRead. other_level. Qed.
Lemma warnings_creating d w : logged Warn (creating d w) = logged Warn w.
Proof. unfold creating. other_level. Qed.
Lemma warnings_ensured d w : logged Warn (ensured d w) = logged Warn w.
Proof.
  unfold ensured. destruct (Fs.pathExists w d); [reflexivity|].
  unfold mkdirWorld, creating. other_level.
Qed.
Lemma warnings_prepared args i o w : logged Warn (prepared args i o w) = logged Warn w.
Proof. unfold prepared. other_level. Qed.
Lemma warnings_generated n p w : logged Warn (generated n p w) = logged Warn w.
Proof. unfold generated. other_level. Qed.
Lemma warnings_error m w : logged Warn (add_log (Error, m) w) = logged Warn w.
Proof. other_level. Qed.
Lemma warnings_warned args w :
  logged Warn (warned args w) =
    (logged Warn w ++
     (if snd (parseNumTasks (numTasks args))
      then ["Invalid numTasks value: " +:+ ToString (numTasks args)
            +:+ ". Using default: 10"]
      else []))%list.
Proof.
  unfold warned. destruct (snd _).
  - rewrite logged_add_log. cbn [fst snd]. now rewrite bool_decide_eq_true_2.
  - now rewrite app_nil_r.
Qed.

End frames.

Create Rewrite HintDb frame.
#[local] Hint Rewrite
  env_started env_afterRead env_creating env_ensured env_warned env_prepared
  env_generated env_add_log
  files_started files_afterRead files_creating files_ensured files_warned
  files_prepared files_generated files_add_log
  warnings_started warnings_afterRead warnings_creating warnings_ensured
  warnings_prepared warnings_generated warnings_error warnings_warned : frame.

(** ** Decimal numerals read back *)

Section numerals.
Import JS Numeral.

Lemma digitsPrefix_uint u acc :
  digitsPrefix 10 (NilEmpty.string_of_uint u) (Z.of_N acc) = Z.of_N (uintValue u acc).
Proof.
  revert acc. induction u; intros acc; cbn [NilEmpty.string_of_uint uintValue digitsPrefix];
    [reflexivity|..];
    (match goal with
     | |- context [radixDigit 10 ?c] =>
         let v := eval vm_compute in (radixDigit 10 c) in
         change (radixDigit 10 c) with v
     end; cbv iota; rewrite <- IHu; f_equal; lia).
Qed.

Lemma uintValue_pos u p : uintValue u (N.pos p) = N.pos (Pos.of_uint_acc u p).
Proof. revert p. induction u; intros p; cbn; try reflexivity; apply IHu. Qed.

Lemma uintValue_0 u : uintValue u 0 = Pos.of_uint u.
Proof. induction u; cbn; try reflexivity; try apply uintValue_pos. exact IHu. Qed.

Lemma allDigits_uint u : allDigits (NilEmpty.string_of_uint u) = true.
Proof. induction u; cbn [NilEmpty.string_of_uint allDigits]; auto. Qed.

Lemma uint_nonempty u : u <> Decimal.Nil -> NilEmpty.string_of_uint u <> "".
Proof. destruct u; cbn; congruence. Qed.

Lemma digit_facts c :
  isDigit c = true ->
  isStrWhiteSpaceChar c = false
  /\ c <> "-"%char /\ c <> "+"%char /\ c <> "x"%char /\ c <> "X"%char
  /\ is_Some (radixDigit 10 c).
Proof.
  unfold isDigit, isStrWhiteSpaceChar, radixDigit, digitValue. cbv zeta.
  intros H. apply andb_true_iff in H as [H1 H2].
  apply Z.leb_le in H1, H2.
  assert (Hne : forall d : ascii, (code d < 48 \/ 57 < code d) -> c <> d).
  { intros d Hd ->. lia. }
  repeat split; try (apply Hne; first [left; reflexivity | right; reflexivity]).
  - repeat (apply orb_false_iff; split); try apply andb_false_iff;
      rewrite ?Z.leb_gt, ?Z.eqb_neq; lia.
  - rewrite (proj2 (Z.leb_le _ _) H1), (proj2 (Z.leb_le _ _) H2). cbn.
    rewrite (proj2 (Z.ltb_lt _ _)) by lia. eauto.
Qed.

(** On a text made of digits parseInt reads the whole numeral, with or
    without an explicit radix 10. *)
Lemma parseInt_digits s radix :
  s <> "" -> allDigits s = true -> radix = None \/ radix = Some 10 ->
  parseInt (JStr s) radix = Int (digitsPrefix 10 s 0)
  /\ parseInt (JStr (String "-" s)) radix = Int (- digitsPrefix 10 s 0).
Proof.
  intros Hne Hall Hradix.
  destruct s as [|c s]; [congruence|].
  cbn [allDigits] in Hall. apply andb_true_iff in Hall as [Hc Hs].
  destruct (digit_facts c Hc) as (Hws & Hm & Hp & Hx & HX & Hd).
  assert (Hhex : stripHexPrefix (String c s) = None).
  { destruct s as [|c' s]; cbn.
    - destruct c as [[] [] [] [] [] [] [] []]; reflexivity.
    - cbn [allDigits] in Hs. apply andb_true_iff in Hs as [Hc' _].
      destruct (digit_facts c' Hc') as (_ & _ & _ & Hx' & HX' & _).
      destruct c as [[] [] [] [] [] [] [] []]; try reflexivity;
        destruct c' as [[] [] [] [] [] [] [] []]; try reflexivity; congruence. }
  assert (Hsign : stripSign (String c s) = (false, String c s)).
  { cbn. destruct c as [[] [] [] [] [] [] [] []]; try reflexivity; congruence. }
  assert (Hstart : startsWithDigit 10 (String c s) = true).
  { cbn. now apply bool_decide_eq_true_2. }
  unfold parseInt. cbn [ToString skipWhiteSpace].
  rewrite Hws.
  change (isStrWhiteSpaceChar "-") with false. cbv iota.
  change (stripSign (String "-" (String c s))) with (true, String c s).
  rewrite Hsign.
  destruct Hradix as [-> | ->]; cbn [default negb Z.eqb Z.ltb Z.compare orb andb];
    change (id 10) with 10;
    change (10 =? 0) with false; change (10 =? 16) with false;
    change (10 <? 2) with false; change (36 <? 10) with false;
    cbn [negb andb orb]; cbv iota; rewrite ?Hhex; cbv beta iota zeta;
    rewrite Hstart; split; f_equal; lia.
Qed.

Lemma parseInt_Z_to_string z radix :
  safeInteger z ->
  radix = None \/ radix = Some 10 ->
  parseInt (JStr (Z_to_string z)) radix = Int z.
Proof.
  intros _ Hradix. unfold Z_to_string.
  destruct z as [|p|p]; cbn [Z.to_int NilEmpty.string_of_int].
  - destruct Hradix as [-> | ->]; reflexivity.
  - destruct (parseInt_digits (NilEmpty.string_of_uint (Pos.to_uint p)) radix) as [H _];
      [apply uint_nonempty, Unsigned.to_uint_nonnil | apply allDigits_uint | exact Hradix |].
    rewrite H. f_equal.
    rewrite (digitsPrefix_uint _ 0), uintValue_0, DecimalPos.Unsigned.of_to. reflexivity.
  - destruct (parseInt_digits (NilEmpty.string_of_uint (Pos.to_uint p)) radix) as [_ H];
      [apply uint_nonempty, Unsigned.to_uint_nonnil | apply allDigits_uint | exact Hradix |].
    rewrite H. f_equal.
    rewrite (digitsPrefix_uint _ 0), uintValue_0, DecimalPos.Unsigned.of_to. reflexivity.
Qed.

(** parseInt of a Number goes through its text; an exact Number reads back. *)
Lemma parseInt_number n : exactNumber n -> parseInt (JNum n) None = n.
Proof.
  destruct n as [|z]; [reflexivity|]. intros Hz.
  change (parseInt (JNum (Int z)) None) with (parseInt (JStr (Z_to_string z)) None).
  apply parseInt_Z_to_string; [exact Hz | now left].
Qed.

End numerals.

(** ** Texts *)

Section texts.
Import JS ParsePrd Run.

Lemma append_nil_r s : s +:+ "" = s.
Proof.
  induction s as [|a s IH]; [reflexivity|].
  change (String a (s +:+ "") = String a s). now rewrite IH.
Qed.

Lemma append_assoc (a b c : string) : (a +:+ b) +:+ c = a +:+ (b +:+ c).
Proof.
  induction a as [|x a IH]; [reflexivity|].
  change (String x ((a +:+ b) +:+ c) = String x (a +:+ (b +:+ c))). now rewrite IH.
Qed.

Lemma contains_refl s : contains s s.
Proof. exists "", "". cbn. now rewrite append_nil_r. Qed.

Lemma contains_append_r a b needle : contains b needle -> contains (a +:+ b) needle.
Proof.
  intros (x & y & ->). exists (a +:+ x), y. now rewrite append_assoc.
Qed.

Lemma contains_append_l a b needle : contains a needle -> contains (a +:+ b) needle.
Proof.
  intros (x & y & ->). exists x, (y +:+ b). now rewrite !append_assoc.
Qed.

Lemma join_cons sep x y rest :
  join sep (x :: y :: rest) = x +:+ sep +:+ join sep (y :: rest).
Proof. reflexivity. Qed.

Lemma userPromptText_contains n content : contains (userPromptText n content) content.
Proof.
  unfold userPromptText. repeat apply contains_append_r. apply contains_refl.
Qed.

Lemma userPromptText_states_count n content :
  contains (userPromptText n content) ("into " +:+ ToString n +:+ " tasks:").
Proof.
  unfold userPromptText.
  exists "Here's the Product Requirements Document (PRD) to break down ",
         (nl +:+ nl +:+ content).
  now rewrite !append_assoc.
Qed.

Lemma userPromptText_nonempty n content : userPromptText n content <> "".
Proof. unfold userPromptText. cbn. discriminate. Qed.

Lemma systemPromptText_nonempty n path today : systemPromptText n path today <> "".
Proof. unfold systemPromptText. rewrite join_cons. cbn [append]. discriminate. Qed.

Lemma systemPromptText_states_count n path today :
  contains (systemPromptText n path today)
    ("create exactly " +:+ ToString n +:+ " well-structured").
Proof.
  unfold systemPromptText. rewrite join_cons. apply contains_append_l.
  match goal with
  | |- contains (?pre +:+ ToString n +:+ ?post) _ =>
      exists (String.substring 0 (String.length pre - 15) pre),
             (String.substring 16 (String.length post - 16) post)
  end.
  cbn [String.substring String.length Nat.sub]. now rewrite !append_assoc.
Qed.

End texts.

(** ** Facts about the paths *)

Section paths.
Import JS AiClientUtils ParsePrd Run Numeral.

Lemma parseNumTasks_absent : parseNumTasks JUndefined = (JNum (Int 10), false).
Proof. reflexivity. Qed.

Lemma parseNumTasks_zero : parseNumTasks (JNum (Int 0)) = (JNum (Int 10), false).
Proof. reflexivity. Qed.

Lemma Z_to_string_nonempty z : Z_to_string z <> "".
Proof.
  unfold Z_to_string. destruct z as [|p|p]; cbn; try discriminate.
  apply uint_nonempty, Unsigned.to_uint_nonnil.
Qed.

Lemma truthy_JStr s : truthy (JStr s) = true <-> s <> "".
Proof.
  cbn. rewrite negb_true_iff. split.
  - intros H ->. discriminate.
  - intros H. now apply String.eqb_neq.
Qed.

Lemma parseNumTasks_numeral z :
  safeInteger z -> parseNumTasks (JStr (Z_to_string z)) = (JNum (Int z), false).
Proof.
  intros Hz. unfold parseNumTasks.
  rewrite (proj2 (truthy_JStr _) (Z_to_string_nonempty z)).
  rewrite (parseInt_Z_to_string z (Some 10) Hz) by now right. reflexivity.
Qed.

Lemma parseNumTasks_unparseable s :
  s <> "" -> parseInt (JStr s) (Some 10) = NaN ->
  parseNumTasks (JStr s) = (JNum (Int 10), true).
Proof.
  intros Hs Hnan. unfold parseNumTasks.
  rewrite (proj2 (truthy_JStr _) Hs), Hnan. reflexivity.
Qed.

Lemma parseNumTasks_warns v :
  snd (parseNumTasks v) = true ->
  exists s, v = JStr s /\ s <> "" /\ parseInt (JStr s) (Some 10) = NaN.
Proof.
  unfold parseNumTasks. destruct (truthy v) eqn:Htruthy; [|discriminate].
  destruct v as [| |b|[|z]|s]; try discriminate.
  - destruct b; discriminate.
  - intros H. exists s. split; [reflexivity|]. split; [now apply truthy_JStr|].
    destruct (parseInt (JStr s) (Some 10)) eqn:Hp; [reflexivity|].
    cbn in H. discriminate.
Qed.

(** A successful call went all the way. *)
Lemma Exit_success args w r :
  Exit args w r -> success (fst r) = true ->
  exists inputPath content outputPath,
    resolved w (projectRoot args) (input args) = Ret inputPath
    /\ Fs.readFile w inputPath = Ret content
    /\ resolved w (projectRoot args) (output args) = Ret outputPath
    /\ r = (delegated args w content inputPath outputPath,
            generated (fst (parseNumTasks (numTasks args))) inputPath
              (prepared args inputPath outputPath
                 (warned args
                    (ensured (Path.dirname outputPath)
                       (afterRead content inputPath (started args w)))))).
Proof. destruct 1; cbn; try discriminate. eauto 10. Qed.

(** With the three paths given, the document readable and the output
    directory there or makeable, the call succeeds. *)
Lemma Exit_succeeds args w r inputPath content outputPath :
  Exit args w r ->
  truthy (projectRoot args) = true ->
  truthy (input args) = true ->
  truthy (output args) = true ->
  resolved w (projectRoot args) (input args) = Ret inputPath ->
  Fs.pathExists w inputPath = true ->
  Fs.readFile w inputPath = Ret content ->
  resolved w (projectRoot args) (output args) = Ret outputPath ->
  (Fs.pathExists w (Path.dirname outputPath) = true
   \/ mkdirOk w (Path.dirname outputPath) = true) ->
  r = (delegated args w content inputPath outputPath,
       generated (fst (parseNumTasks (numTasks args))) inputPath
         (prepared args inputPath outputPath
            (warned args
               (ensured (Path.dirname outputPath)
                  (afterRead content inputPath (started args w)))))).
Proof.
  intros Hr Hroot Hin Hout Hip Hex Hrd Hop Hdir.
  destruct Hr; try congruence.
  assert (outputPath0 = outputPath) by congruence. subst.
  destruct Hdir; congruence.
Qed.

(** Whether a call succeeds does not depend on numTasks. *)
Lemma Exit_numTasks_irrelevant args w v r r' :
  Exit args w r -> Exit (withNumTasks v args) w r' ->
  success (fst r') = success (fst r).
Proof.
  intros Hr Hr'.
  destruct Hr; destruct Hr'; cbn [withNumTasks projectRoot input output] in *;
    try reflexivity; try congruence;
    repeat match goal with
           | H : Ret _ = Ret _ |- _ => injection H as ->
           | H1 : resolved w ?a ?b = Ret ?x, H2 : resolved w ?a ?b = Ret ?y |- _ =>
               assert (x = y) by congruence; subst y; clear H2
           | H : _ \/ _ |- _ => destruct H
           end; congruence.
Qed.

End paths.

(** ** Chunks of a response, and the session's settings *)

Section chunks.
Import JS AiClientUtils.

Lemma concatText_app a b : concatText (a ++ b) = concatText a +:+ concatText b.
Proof.
  induction a as [|x a IH]; [reflexivity|].
  cbn [app concatText fold_right]. fold (concatText (a ++ b)) (concatText a).
  now rewrite IH, append_assoc.
Qed.

Lemma string_of_list_ascii_snoc l c :
  string_of_list_ascii (l ++ [c]) +:+ "" = string_of_list_ascii l +:+ String c "".
Proof.
  rewrite append_nil_r. induction l as [|x l IH]; [reflexivity|].
  cbn [app string_of_list_ascii].
  change (String x (string_of_list_ascii (l ++ [c]))
          = String x (string_of_list_ascii l +:+ String c "")).
  now rewrite IH.
Qed.

Lemma flush_concat (cur : list ascii) :
  concatText (match cur with
              | [] => []
              | _ => [string_of_list_ascii (rev cur)]
              end) = string_of_list_ascii (rev cur).
Proof. destruct cur; [reflexivity|]. cbn [concatText fold_right]. apply append_nil_r. Qed.

(** Without a line terminator in it, a text is the concatenation of the
    matches of /.{1,20}/g. *)
Lemma matchChunks_concat s cur room :
  noLineTerminator s = true ->
  concatText (matchChunks s cur room) = string_of_list_ascii (rev cur) +:+ s.
Proof.
  revert cur room. induction s as [|c s IH]; intros cur room Hs.
  - cbn [matchChunks]. rewrite flush_concat. now rewrite append_nil_r.
  - cbn [noLineTerminator] in Hs. apply andb_true_iff in Hs as [Hc Hs].
    apply negb_true_iff in Hc. cbn [matchChunks]. rewrite Hc.
    destruct room as [|room].
    + rewrite concatText_app, flush_concat, (IH _ _ Hs). reflexivity.
    + rewrite (IH _ _ Hs). cbn [rev].
      rewrite <- (append_nil_r (string_of_list_ascii (rev cur ++ [c]))).
      rewrite string_of_list_ascii_snoc, append_assoc. reflexivity.
Qed.

Lemma chunksOf_concat s : noLineTerminator s = true -> concatText (chunksOf s) = s.
Proof. intros H. unfold chunksOf. now rewrite matchChunks_concat. Qed.

Lemma truthy_str_present session k s :
  present session k s -> truthy_str (sessionEnv session k) = Some s.
Proof.
  intros [-> Hs]. cbn. now rewrite (proj2 (String.eqb_neq _ _) Hs).
Qed.

Lemma truthy_str_absent session k :
  absent session k -> truthy_str (sessionEnv session k) = None.
Proof. intros [-> | ->]; reflexivity. Qed.

End chunks.

(** ** More on the paths through parsePRDDirect *)

Section more_paths.
Import JS AiClientUtils ParsePrd Run.

(** The paths exclude one another: a call has one result. *)
Lemma Exit_functional args w r r' : Exit args w r -> Exit args w r' -> r = r'.
Proof.
  intros Hr Hr'.
  destruct Hr; destruct Hr'; try reflexivity; try congruence;
    repeat match goal with
           | H1 : resolved w ?a ?b = Ret ?x, H2 : resolved w ?a ?b = Ret ?y |- _ =>
               assert (x = y) by congruence; subst y; clear H2
           | H1 : Fs.readFile w ?p = Ret ?x, H2 : Fs.readFile w ?p = Ret ?y |- _ =>
               assert (x = y) by congruence; subst y; clear H2
           | H : _ \/ _ |- _ => destruct H
           end; try reflexivity; congruence.
Qed.

Lemma parsePRDDirect_Exit args session w r :
  Exit args w r -> parsePRDDirect args session w = (Ret (fst r), snd r).
Proof.
  intros Hr. destruct (parsePRDDirect_run args session w) as (r' & -> & Hr').
  now rewrite (Exit_functional _ _ _ _ Hr' Hr).
Qed.

End more_paths.

Section more_frames.
Import JS AiClientUtils ParsePrd Run.

Lemma logged_other l l' m w : l <> l' -> logged l (add_log (l', m) w) = logged l w.
Proof.
  intros H. rewrite logged_add_log. cbn [fst snd].
  rewrite bool_decide_eq_false_2 by congruence. apply app_nil_r.
Qed.

Lemma logged_same l m w : logged l (add_log (l, m) w) = (logged l w ++ [m])%list.
Proof. rewrite logged_add_log. cbn [fst snd]. now rewrite bool_decide_eq_true_2. Qed.

Lemma errors_started args w : logged Error (started args w) = logged Error w.
Proof.
  unfold started. rewrite logged_other by discriminate.
  change (logged Error (set_env ?f ?x)) with (logged Error x).
  now rewrite logged_other by discriminate.
Qed.
Lemma errors_afterRead c p w : logged Error (afterRead c p w) = logged Error w.
Proof. unfold afterRead. now rewrite logged_other by discriminate. Qed.
Lemma errors_creating d w : logged Error (creating d w) = logged Error w.
Proof. unfold creating. now rewrite logged_other by discriminate. Qed.
Lemma errors_ensured d w : logged Error (ensured d w) = logged Error w.
Proof.
  unfold ensured. destruct (Fs.pathExists w d); [reflexivity|].
  change (logged Error (mkdirWorld ?x ?y)) with (logged Error x).
  apply errors_creating.
Qed.
Lemma errors_warned args w : logged Error (warned args w) = logged Error w.
Proof.
  unfold warned. destruct (snd _); [|reflexivity].
  now rewrite logged_other by discriminate.
Qed.
Lemma errors_prepared args i o w : logged Error (prepared args i o w) = logged Error w.
Proof. unfold prepared. now rewrite logged_other by discriminate. Qed.
Lemma errors_generated n p w : logged Error (generated n p w) = logged Error w.
Proof. unfold generated. now rewrite !logged_other by discriminate. Qed.

Lemma dirs_started args w : dirs (started args w) = dirs w.
Proof. reflexivity. Qed.
Lemma dirs_afterRead c p w : dirs (afterRead c p w) = dirs w.
Proof. reflexivity. Qed.
Lemma dirs_creating d w : dirs (creating d w) = dirs w.
Proof. reflexivity. Qed.
Lemma dirs_warned args w : dirs (warned args w) = dirs w.
Proof. unfold warned. now destruct (snd _). Qed.
Lemma dirs_prepared args i o w : dirs (prepared args i o w) = dirs w.
Proof. reflexivity. Qed.
Lemma dirs_generated n p w : dirs (generated n p w) = dirs w.
Proof. reflexivity. Qed.
Lemma dirs_add_log e w : dirs (add_log e w) = dirs w.
Proof. reflexivity. Qed.

Lemma cwd_ensured d w : cwd (ensured d w) = cwd w.
Proof. unfold ensured. now destruct (Fs.pathExists w d). Qed.
Lemma cwd_warned args w : cwd (warned args w) = cwd w.
Proof. unfold warned. now destruct (snd _). Qed.
Lemma now_ensured d w : now (ensured d w) = now w.
Proof. unfold ensured. now destruct (Fs.pathExists w d). Qed.
Lemma now_warned args w : now (warned args w) = now w.
Proof. unfold warned. now destruct (snd _). Qed.

(** The directories after the output directory is seen to *)
Lemma dirs_ensured d w :
  dirs (ensured d w)
  = if Fs.pathExists w d then dirs w
    else dirs w ∪ list_to_set (Path.ancestorsAndSelf (Fs.key w d)).
Proof. unfold ensured. now destruct (Fs.pathExists w d). Qed.

End more_frames.

Create Rewrite HintDb errframe.
#[local] Hint Rewrite
  errors_started errors_afterRead errors_creating errors_ensured errors_warned
  errors_prepared errors_generated : errframe.
Create Rewrite HintDb dirframe.
#[local] Hint Rewrite
  dirs_started dirs_afterRead dirs_creating dirs_warned dirs_prepared dirs_generated
  dirs_add_log dirs_ensured : dirframe.

(** ** Numerals with something around them *)

Section numeral_prefix.
Import JS Numeral.

Lemma skipWhiteSpace_app ws t :
  allWhiteSpace ws = true -> skipWhiteSpace (ws +:+ t) = skipWhiteSpace t.
Proof.
  unfold allWhiteSpace. induction ws as [|c ws IH]; [reflexivity|].
  change (String c ws +:+ t) with (String c (ws +:+ t)).
  cbn [skipWhiteSpace]. destruct (isStrWhiteSpaceChar c); [exact IH|].
  intros H. apply String.eqb_eq in H. discriminate.
Qed.

Lemma digitsPrefix_app s rest acc :
  allDigits s = true -> startsWithDigit 10 rest = false ->
  digitsPrefix 10 (s +:+ rest) acc = digitsPrefix 10 s acc.
Proof.
  intros Hs Hrest. revert acc. induction s as [|c s IH]; intros acc.
  - cbn [append]. change ("" +:+ rest) with rest.
    destruct rest as [|c rest]; [reflexivity|].
    cbn [digitsPrefix]. cbn [startsWithDigit] in Hrest.
    apply bool_decide_eq_false in Hrest.
    destruct (radixDigit 10 c); [|reflexivity]. exfalso. apply Hrest. eauto.
  - cbn [allDigits] in Hs. apply andb_true_iff in Hs as [Hc Hs].
    change (String c s +:+ rest) with (String c (s +:+ rest)).
    cbn [digitsPrefix]. destruct (radixDigit 10 c); [|reflexivity].
    now apply IH.
Qed.

Lemma allDigits_app s t : allDigits s = true -> allDigits t = true ->
  allDigits (s +:+ t) = true.
Proof.
  intros Hs Ht. induction s as [|c s IH]; [exact Ht|].
  change (String c s +:+ t) with (String c (s +:+ t)).
  cbn [allDigits] in *. apply andb_true_iff in Hs as [Hc Hs].
  now rewrite Hc, IH.
Qed.

(** With radix 10, parseInt reads the numeral of a safe integer through
    leading white space and stops at the first character that is not a digit. *)
Lemma parseInt10_prefix ws z rest :
  safeInteger z ->
  allWhiteSpace ws = true -> startsWithDigit 10 rest = false ->
  parseInt (JStr (ws +:+ Z_to_string z +:+ rest)) (Some 10) = Int z.
Proof.
  intros _ Hws Hrest.
  assert (Hkey : forall s, s <> "" -> allDigits s = true ->
             parseInt (JStr (ws +:+ s +:+ rest)) (Some 10) = Int (digitsPrefix 10 s 0)
             /\ parseInt (JStr (ws +:+ String "-" s +:+ rest)) (Some 10)
                = Int (- digitsPrefix 10 s 0)).
  { intros s Hne Hall.
    destruct s as [|c s]; [congruence|].
    pose proof Hall as Hall'.
    cbn [allDigits] in Hall. apply andb_true_iff in Hall as [Hc Hs].
    destruct (digit_facts c Hc) as (Hwsc & Hm & Hp & Hx & HX & Hd).
    assert (Hsign : forall t, stripSign (String c t) = (false, String c t)).
    { intros t. cbn. destruct c as [[] [] [] [] [] [] [] []]; try reflexivity; congruence. }
    unfold parseInt. cbn [ToString].
    rewrite (skipWhiteSpace_app ws (String c s +:+ rest) Hws).
    rewrite (skipWhiteSpace_app ws (String "-" (String c s) +:+ rest) Hws).
    change (String "-" (String c s) +:+ rest) with (String "-" (String c (s +:+ rest))).
    change (String c s +:+ rest) with (String c (s +:+ rest)).
    cbn [skipWhiteSpace]. rewrite Hwsc.
    change (isStrWhiteSpaceChar "-") with false. cbv iota.
    change (stripSign (String "-" (String c (s +:+ rest)))) with (true, String c (s +:+ rest)).
    rewrite Hsign.
    cbn [default negb Z.eqb Z.ltb Z.compare orb andb];
      change (id 10) with 10;
      change (10 =? 0) with false; change (10 =? 16) with false;
      change (10 <? 2) with false; change (36 <? 10) with false;
      cbn [negb andb orb]; cbv beta iota zeta.
    assert (Hstart : startsWithDigit 10 (String c (s +:+ rest)) = true).
    { cbn. now apply bool_decide_eq_true_2. }
    rewrite Hstart.
    change (String c (s +:+ rest)) with (String c s +:+ rest).
    rewrite (digitsPrefix_app _ _ _ Hall' Hrest). split; f_equal; lia. }
  unfold Z_to_string.
  destruct z as [|p|p]; cbn [Z.to_int NilEmpty.string_of_int].
  - destruct (Hkey "0") as [H _]; [discriminate | reflexivity |]. exact H.
  - destruct (Hkey (NilEmpty.string_of_uint (Pos.to_uint p))) as [H _];
      [apply uint_nonempty, Unsigned.to_uint_nonnil | apply allDigits_uint |].
    rewrite H. f_equal.
    rewrite (digitsPrefix_uint _ 0), uintValue_0, DecimalPos.Unsigned.of_to. reflexivity.
  - destruct (Hkey (NilEmpty.string_of_uint (Pos.to_uint p))) as [_ H];
      [apply uint_nonempty, Unsigned.to_uint_nonnil | apply allDigits_uint |].
    rewrite H. f_equal.
    rewrite (digitsPrefix_uint _ 0), uintValue_0, DecimalPos.Unsigned.of_to. reflexivity.
Qed.

Lemma append_nonempty_r a b : b <> "" -> a +:+ b <> "".
Proof. intros Hb. destruct a; [exact Hb|]. discriminate. Qed.

Lemma append_nonempty_l a b : a <> "" -> a +:+ b <> "".
Proof. intros Ha. destruct a; [congruence|]. discriminate. Qed.

End numeral_prefix.

(** ** The client getters outside direct mode *)

Section clients.
Import JS AiClientUtils.

Lemma apiKeyOf_session w session k v :
  present session k v -> apiKeyOf w session k = Some v.
Proof. intros H. unfold apiKeyOf. now rewrite (truthy_str_present _ _ _ H). Qed.

Lemma apiKeyOf_env w session k v :
  absent session k -> env w !! k = Some v -> v <> "" -> apiKeyOf w session k = Some v.
Proof.
  intros H Henv Hv. unfold apiKeyOf. rewrite (truthy_str_absent _ _ H), Henv.
  cbn. now rewrite (proj2 (String.eqb_neq _ _) Hv).
Qed.

Lemma apiKeyOf_none w session k :
  absent session k -> env w !! k = None \/ env w !! k = Some "" ->
  apiKeyOf w session k = None.
Proof.
  intros H Henv. unfold apiKeyOf. rewrite (truthy_str_absent _ _ H).
  destruct Henv as [-> | ->]; reflexivity.
Qed.

Lemma getPerplexityClientForMCP_none session w :
  usingClaudeDesktop w session = false ->
  apiKeyOf w session "PERPLEXITY_API_KEY" = None ->
  getPerplexityClientForMCP session w =
    (Throw "PERPLEXITY_API_KEY not found in session environment or process.env. Set CLAUDE_DESKTOP=true to use Claude Desktop mode.",
     add_log (Error, "Failed to initialize Perplexity client: " +:+ "PERPLEXITY_API_KEY not found in session environment or process.env. Set CLAUDE_DESKTOP=true to use Claude Desktop mode.") w).
Proof.
  intros H Hkey. unfold getPerplexityClientForMCP, try_catch, bind, get_world.
  cbv beta iota. now rewrite H, Hkey.
Qed.

(** getBestAvailableAIModel outside direct mode, case by case *)
Lemma getBestAvailableAIModel_research session options w k :
  usingClaudeDesktop w session = false ->
  requiresResearch options = true ->
  apiKeyOf w session "PERPLEXITY_API_KEY" = Some k ->
  getBestAvailableAIModel session options w =
    (Ret (mkSelection "perplexity"
            (MockPerplexityClient (Some (mkPerplexityOptions k "https://api.perplexity.ai")))),
     add_log (Info, "Using Perplexity API with provided key") w).
Proof.
  intros H Hr Hk. unfold getBestAvailableAIModel, bind at 1, get_world. rewrite H.
  unfold bind at 1. rewrite Hr, Hk.
  rewrite bool_decide_eq_true_2 by eauto. cbn [andb].
  unfold try_catch, bind. now rewrite (getPerplexityClientForMCP_api _ _ _ H Hk).
Qed.

Lemma getBestAvailableAIModel_default session options w :
  usingClaudeDesktop w session = false ->
  requiresResearch options = false \/ apiKeyOf w session "PERPLEXITY_API_KEY" = None ->
  getBestAvailableAIModel session options w =
    match apiKeyOf w session "ANTHROPIC_API_KEY" with
    | Some k =>
        (Ret (mkSelection "claude"
                (MockAnthropicClient
                   (Some (mkAnthropicOptions k
                            [("anthropic-beta", "output-128k-2025-02-19")])))),
         add_log (Info, "Using Anthropic API with provided key") w)
    | None =>
        (Throw "No AI models available. Please check your API keys or enable Claude Desktop mode.",
         add_log (Error, "Claude not available: ANTHROPIC_API_KEY not found in session environment or process.env. Set CLAUDE_DESKTOP=true to use Claude Desktop mode.")
           (add_log (Error, "Failed to initialize Anthropic client: ANTHROPIC_API_KEY not found in session environment or process.env. Set CLAUDE_DESKTOP=true to use Claude Desktop mode.") w))
    end.
Proof.
  intros H Hor. unfold getBestAvailableAIModel, bind at 1, get_world. rewrite H.
  unfold bind at 1.
  assert (Hcond : requiresResearch options
                  && bool_decide (is_Some (apiKeyOf w session "PERPLEXITY_API_KEY"))
                  = false).
  { destruct Hor as [-> | ->]; [reflexivity|].
    rewrite bool_decide_eq_false_2; [apply andb_false_r|]. intros [? ?]. discriminate. }
  rewrite Hcond. unfold ret at 1. cbv beta iota. unfold try_catch, bind.
  rewrite (getAnthropicClientForMCP_api _ _ H).
  now destruct (apiKeyOf w session "ANTHROPIC_API_KEY").
Qed.

Lemma getBestAvailableAIModel_direct session options w :
  usingClaudeDesktop w session = true ->
  getBestAvailableAIModel session options w =
    (Ret (mkSelection "claude" (MockAnthropicClient None)),
     add_log (Info, "Using Claude Desktop mode with mock Anthropic client")
       (add_log (Info, "Using Claude Desktop mode for AI operations") w)).
Proof.
  intros Hmode.
  unfold getBestAvailableAIModel, bind at 1, get_world.
  rewrite Hmode. unfold bind, Logger.info, modify.
  now rewrite getAnthropicClientForMCP_desktop.
Qed.

End clients.

(** ** The matches of /.{1,20}/g in any text *)

Section all_chunks.
Import JS AiClientUtils Chunks.

Lemma length_string_of_list_ascii l :
  String.length (string_of_list_ascii l) = length l.
Proof. induction l; cbn; congruence. Qed.

Lemma noLineTerminator_of_list l :
  noLineTerminator (string_of_list_ascii l)
  = forallb (fun c => negb (isLineTerminator c)) l.
Proof. induction l as [|c l IH]; [reflexivity|]. cbn. now rewrite IH. Qed.

Lemma forallb_rev {A} (f : A -> bool) l : forallb f (rev l) = forallb f l.
Proof.
  induction l as [|x l IH]; [reflexivity|].
  cbn. rewrite forallb_app, IH. cbn. rewrite andb_true_r. apply andb_comm.
Qed.

Lemma matchChunks_concat_any s cur room :
  concatText (matchChunks s cur room)
  = string_of_list_ascii (rev cur) +:+ withoutLineTerminators s.
Proof.
  revert cur room. induction s as [|c s IH]; intros cur room.
  - cbn [matchChunks withoutLineTerminators]. rewrite flush_concat.
    now rewrite append_nil_r.
  - cbn [matchChunks withoutLineTerminators].
    destruct (isLineTerminator c).
    + rewrite concatText_app, flush_concat, IH. reflexivity.
    + destruct room as [|room].
      * rewrite concatText_app, flush_concat, IH. reflexivity.
      * rewrite IH. cbn [rev].
        rewrite <- (append_nil_r (string_of_list_ascii (rev cur ++ [c]))).
        rewrite string_of_list_ascii_snoc, append_assoc. reflexivity.
Qed.

Lemma withoutLineTerminators_id s :
  noLineTerminator s = true -> withoutLineTerminators s = s.
Proof.
  induction s as [|c s IH]; [reflexivity|]. cbn.
  intros H. apply andb_true_iff in H as [Hc Hs]. apply negb_true_iff in Hc.
  now rewrite Hc, IH.
Qed.

Lemma flush_isChunk (cur : list ascii) :
  (length cur <= 20)%nat ->
  forallb (fun c => negb (isLineTerminator c)) cur = true ->
  Forall isChunk (match cur with
                  | [] => []
                  | _ => [string_of_list_ascii (rev cur)]
                  end).
Proof.
  intros Hlen Hcur. destruct cur as [|c cur]; [constructor|].
  constructor; [|constructor]. split.
  - rewrite length_string_of_list_ascii, length_rev. cbn in *. lia.
  - apply withoutLineTerminators_id.
    now rewrite noLineTerminator_of_list, forallb_rev.
Qed.

Lemma matchChunks_isChunk s cur room :
  (length cur + room = 20)%nat ->
  forallb (fun c => negb (isLineTerminator c)) cur = true ->
  Forall isChunk (matchChunks s cur room).
Proof.
  revert cur room. induction s as [|c s IH]; intros cur room Hlen Hcur.
  - cbn [matchChunks]. apply flush_isChunk; [lia | exact Hcur].
  - cbn [matchChunks]. destruct (isLineTerminator c) eqn:Hc.
    + apply Forall_app. split; [apply flush_isChunk; [lia | exact Hcur]|].
      now apply IH.
    + destruct room as [|room].
      * apply Forall_app. split; [apply flush_isChunk; [lia | exact Hcur]|].
        apply IH; [reflexivity|]. cbn. now rewrite Hc.
      * apply IH; [cbn; lia|]. cbn. now rewrite Hc, Hcur.
Qed.

Lemma matchChunks_count s cur room :
  noLineTerminator s = true ->
  (length cur + room = 20)%nat ->
  length (matchChunks s cur room) = ((length cur + String.length s + 19) / 20)%nat.
Proof.
  revert cur room. induction s as [|c s IH]; intros cur room Hs Hlen.
  - cbn [matchChunks String.length]. rewrite Nat.add_0_r.
    destruct cur as [|x cur]; [reflexivity|].
    cbn [length] in *. apply (Nat.div_unique _ 20 1 (length cur)); lia.
  - cbn [noLineTerminator] in Hs. apply andb_true_iff in Hs as [Hc Hs].
    apply negb_true_iff in Hc. cbn [matchChunks String.length]. rewrite Hc.
    destruct room as [|room].
    + rewrite length_app, (IH [c] 19%nat Hs eq_refl).
      destruct cur as [|x cur]; [cbn in Hlen; lia|].
      cbn [length] in *.
      replace (S (length cur) + S (String.length s) + 19)%nat
        with (1 * 20 + (1 + String.length s + 19))%nat by lia.
      now rewrite Nat.div_add_l by lia.
    + rewrite (IH (c :: cur) room Hs) by (cbn; lia).
      cbn [length]. f_equal. lia.
Qed.

End all_chunks.

(** ** Searching a message *)

Section searching.
Import JS ClaudeErrors.

Lemma prefix_spec p s : String.prefix p s = true <-> exists after, s = p +:+ after.
Proof.
  revert s. induction p as [|a p IH]; intros s.
  - split; [intros _; now exists s | intros _; now destruct s].
  - destruct s as [|b s]; cbn [String.prefix].
    + split; [discriminate | intros [after H]; discriminate].
    + destruct (Ascii.ascii_dec a b) as [->|Hab].
      * rewrite IH. split; intros [after H]; exists after.
        -- now rewrite H.
        -- change (String b p +:+ after) with (String b (p +:+ after)) in H.
           congruence.
      * split; [discriminate|]. intros [after H].
        change (String a p +:+ after) with (String a (p +:+ after)) in H. congruence.
Qed.

(** [includes] finds the needle exactly when it is a part of the text. *)
Lemma includes_spec hay needle : includes hay needle = true <-> contains hay needle.
Proof.
  induction hay as [|c hay IH].
  - cbn [includes]. rewrite orb_false_r, prefix_spec. split.
    + intros [after H]. now exists "", after.
    + intros (before & after & H). destruct before; [now exists after|discriminate].
  - cbn [includes]. rewrite orb_true_iff, prefix_spec, IH. split.
    + intros [[after H] | (before & after & H)].
      * now exists "", after.
      * exists (String c before), after. now rewrite H.
    + intros (before & after & H). destruct before as [|b before].
      * left. now exists after.
      * right. exists before, after.
        change (String b before +:+ needle +:+ after)
          with (String b (before +:+ needle +:+ after)) in H. congruence.
Qed.

Lemma includes_false hay needle : includes hay needle = false <-> ~ contains hay needle.
Proof.
  rewrite <- includes_spec. destruct (includes hay needle); split; congruence.
Qed.

Lemma toLowerCase_app a b : toLowerCase (a +:+ b) = toLowerCase a +:+ toLowerCase b.
Proof.
  induction a as [|c a IH]; [reflexivity|].
  change (String c a +:+ b) with (String c (a +:+ b)). cbn [toLowerCase].
  now rewrite IH.
Qed.

End searching.

(** ** Calls from worlds with the same file system *)

Section same_fs.
Import JS AiClientUtils ParsePrd Run.

(** Same working directory, files, directories and clock *)
Lemma pathExists_same w w' p :
  cwd w' = cwd w -> files w' = files w -> dirs w' = dirs w ->
  Fs.pathExists w' p = Fs.pathExists w p.
Proof.
  intros Hc Hf Hd. unfold Fs.pathExists, Fs.key, Fs.isDirectory, Fs.isFile.
  now rewrite Hc, Hf, Hd.
Qed.

Lemma readFile_same w w' p :
  cwd w' = cwd w -> files w' = files w -> dirs w' = dirs w ->
  Fs.readFile w' p = Fs.readFile w p.
Proof.
  intros Hc Hf Hd. unfold Fs.readFile, Fs.key, Fs.isDirectory.
  now rewrite Hc, Hf, Hd.
Qed.

Lemma mkdirOk_same w w' p :
  cwd w' = cwd w -> files w' = files w ->
  mkdirOk w' p = mkdirOk w p.
Proof.
  intros Hc Hf. unfold mkdirOk, Fs.key, Fs.isFile. rewrite Hc, Hf. reflexivity.
Qed.

Lemma mkdirError_same w w' p :
  cwd w' = cwd w -> files w' = files w ->
  mkdirError w' p = mkdirError w p.
Proof.
  intros Hc Hf. unfold mkdirError, Fs.key, Fs.isFile. now rewrite Hc, Hf.
Qed.

Lemma Exit_same args w w' r :
  cwd w' = cwd w -> files w' = files w -> dirs w' = dirs w -> now w' = now w ->
  Exit args w r -> exists r', Exit args w' r' /\ fst r' = fst r.
Proof.
  intros Hc Hf Hd Hn Hr.
  pose proof (fun root p => resolved_cwd w' w root p Hc) as Hres.
  pose proof (fun p => pathExists_same w w' p Hc Hf Hd) as Hex.
  pose proof (fun p => readFile_same w w' p Hc Hf Hd) as Hrd.
  pose proof (fun p => mkdirOk_same w w' p Hc Hf) as Hmk.
  destruct Hr.
  - eexists. split; [now apply missing_root | reflexivity].
  - eexists. split; [now apply missing_input | reflexivity].
  - eexists. split; [now apply missing_output | reflexivity].
  - eexists. split; [apply (input_unresolved _ _ e); rewrite ?Hres; assumption
                    | reflexivity].
  - eexists. split; [apply (input_not_found _ _ inputPath);
                     rewrite ?Hres, ?Hex; assumption | reflexivity].
  - eexists. split; [apply (input_unreadable _ _ inputPath e);
                     rewrite ?Hres, ?Hex, ?Hrd; assumption | reflexivity].
  - eexists. split; [apply (output_unresolved _ _ inputPath content e);
                     rewrite ?Hres, ?Hex, ?Hrd; assumption | reflexivity].
  - eexists. split; [apply (directory_refused _ _ inputPath content outputPath);
                     rewrite ?Hres, ?Hex, ?Hrd, ?Hmk; assumption |].
    cbn [fst caught]. now rewrite (mkdirError_same w w' _ Hc Hf).
  - eexists. split; [apply (handed_over _ _ inputPath content outputPath);
                     rewrite ?Hres, ?Hex, ?Hrd, ?Hmk; assumption |].
    cbn [fst]. unfold delegated. now rewrite Hn.
Qed.

(** The result of parsePRDDirect depends on the world through its file
    system and clock only. *)
Lemma parsePRDDirect_same args session w w' :
  cwd w' = cwd w -> files w' = files w -> dirs w' = dirs w -> now w' = now w ->
  fst (parsePRDDirect args session w') = fst (parsePRDDirect args session w).
Proof.
  intros Hc Hf Hd Hn.
  destruct (parsePRDDirect_run args session w) as (r & -> & Hr).
  destruct (Exit_same _ _ _ _ Hc Hf Hd Hn Hr) as (r' & Hr' & Heq).
  rewrite (parsePRDDirect_Exit _ session _ _ Hr'). cbn [fst]. now rewrite Heq.
Qed.

(** A result is a failure, or a success that hands the work over. *)
Lemma parsePRDDirect_shape args session w :
  exists res,
    fst (parsePRDDirect args session w) = Ret res
    /\ (if success res
        then exists m sp up op n ap, data res = Some (Delegated m true sp up op n ap)
        else True).
Proof.
  destruct (parsePRDDirect_run args session w) as (r & -> & Hr).
  exists (fst r). split; [reflexivity|].
  destruct Hr; cbn; eauto 10.
Qed.

End same_fs.

(** ** Normalised paths *)

Section normal_paths.
Import Segments.

Lemma split_noSlash s : Forall (fun seg => noSlash seg = true) (Path.split s).
Proof.
  induction s as [|c s IH]; [repeat constructor|].
  cbn [Path.split]. destruct (bool_decide (c = Path.slash)) eqn:Hc.
  - constructor; [reflexivity | exact IH].
  - destruct (Path.split s) as [|h t]; [repeat constructor; cbn; now rewrite Hc|].
    inversion IH; subst. constructor; [|assumption]. cbn. now rewrite Hc.
Qed.

Lemma split_nonempty s : Path.split s <> [].
Proof.
  destruct s as [|c s]; [discriminate|]. cbn.
  destruct (bool_decide _); [discriminate|]. now destruct (Path.split s).
Qed.

Lemma split_segment seg t :
  noSlash seg = true -> Path.split (seg +:+ "/" +:+ t) = seg :: Path.split t.
Proof.
  induction seg as [|c seg IH]; intros H.
  - reflexivity.
  - cbn [noSlash] in H. apply andb_true_iff in H as [Hc H].
    apply negb_true_iff in Hc.
    change (String c seg +:+ "/" +:+ t) with (String c (seg +:+ "/" +:+ t)).
    cbn [Path.split]. rewrite Hc, (IH H). reflexivity.
Qed.

Lemma split_last seg : noSlash seg = true -> Path.split seg = [seg].
Proof.
  induction seg as [|c seg IH]; intros H; [reflexivity|].
  cbn [noSlash] in H. apply andb_true_iff in H as [Hc H].
  apply negb_true_iff in Hc. cbn [Path.split]. now rewrite Hc, (IH H).
Qed.

Lemma split_join segs :
  Forall (fun seg => noSlash seg = true) segs -> segs <> [] ->
  Path.split (JS.join "/" segs) = segs.
Proof.
  induction 1 as [|x rest Hx Hrest IH]; [congruence|]. intros _.
  destruct rest as [|y rest]; [now apply split_last|].
  change (JS.join "/" (x :: y :: rest)) with (x +:+ "/" +:+ JS.join "/" (y :: rest)).
  rewrite (split_segment _ _ Hx), IH; [reflexivity | discriminate].
Qed.

Lemma pushSegment_kept stack seg : kept seg -> Path.pushSegment false stack seg = seg :: stack.
Proof.
  intros (_ & H1 & H2 & H3). unfold Path.pushSegment.
  now rewrite (proj2 (String.eqb_neq _ _) H1), (proj2 (String.eqb_neq _ _) H2),
    (proj2 (String.eqb_neq _ _) H3).
Qed.

Lemma pushSegment_keeps stack seg :
  Forall kept stack -> noSlash seg = true ->
  Forall kept (Path.pushSegment false stack seg).
Proof.
  intros Hstack Hseg. unfold Path.pushSegment.
  destruct (String.eqb_spec seg ""); [exact Hstack|].
  destruct (String.eqb_spec seg "."); [exact Hstack|]. cbn [orb].
  destruct (String.eqb_spec seg "..").
  - destruct stack as [|top below]; [constructor|].
    inversion Hstack as [|? ? (_ & _ & _ & Htop) Hbelow]; subst.
    now rewrite (proj2 (String.eqb_neq _ _) Htop).
  - constructor; [now repeat split | exact Hstack].
Qed.

Lemma fold_pushSegment_keeps segs stack :
  Forall kept stack -> Forall (fun seg => noSlash seg = true) segs ->
  Forall kept (fold_left (Path.pushSegment false) segs stack).
Proof.
  intros Hstack Hsegs. revert stack Hstack.
  induction Hsegs as [|seg segs Hseg _ IH]; intros stack Hstack; [exact Hstack|].
  cbn [fold_left]. apply IH. now apply pushSegment_keeps.
Qed.

Lemma normalizeSegments_kept p : Forall kept (Path.normalizeSegments false p).
Proof.
  unfold Path.normalizeSegments. apply Forall_rev.
  apply fold_pushSegment_keeps; [constructor | apply split_noSlash].
Qed.

Lemma fold_pushSegment_kept segs stack :
  Forall kept segs ->
  fold_left (Path.pushSegment false) segs stack = (rev segs ++ stack)%list.
Proof.
  intros H. revert stack. induction H as [|seg segs Hseg _ IH]; intros stack;
    [reflexivity|].
  cbn [fold_left rev]. rewrite (pushSegment_kept _ _ Hseg), IH.
  now rewrite <- app_assoc.
Qed.

(** Normalising a normalised absolute path gives its segments back. *)
Lemma normalizeSegments_absolute segs :
  Forall kept segs -> Path.normalizeSegments false ("/" +:+ JS.join "/" segs) = segs.
Proof.
  intros H. unfold Path.normalizeSegments.
  change ("/" +:+ JS.join "/" segs) with (String Path.slash (JS.join "/" segs)).
  cbn [Path.split]. rewrite bool_decide_eq_true_2 by reflexivity.
  cbn [fold_left]. change (Path.pushSegment false [] "") with (@nil string).
  destruct segs as [|x rest].
  - reflexivity.
  - rewrite split_join; [|eapply Forall_impl; [exact H | now intros ? []] | discriminate].
    rewrite (fold_pushSegment_kept _ _ H), app_nil_r. apply rev_involutive.
Qed.

Lemma isAbsolute_app p t : Path.isAbsolute p = true -> Path.isAbsolute (p +:+ t) = true.
Proof. destruct p; [discriminate | exact id]. Qed.

(** With an absolute working directory, path.resolve gives a normalised
    absolute path. *)
Lemma resolve_normal cwd p :
  Path.isAbsolute cwd = true ->
  exists segs, Forall kept segs /\ Path.resolve cwd [p] = "/" +:+ JS.join "/" segs.
Proof.
  intros Hcwd. unfold Path.resolve.
  assert (Habs : Path.isAbsolute (Path.resolveLoop (rev [p] ++ [cwd]) "") = true).
  { cbn [rev app Path.resolveLoop].
    assert (Hne : String.eqb cwd "" = false) by now destruct cwd.
    destruct (String.eqb p "").
    - rewrite Hne, Hcwd. now apply isAbsolute_app.
    - destruct (Path.isAbsolute p) eqn:Hp; [now apply isAbsolute_app|].
      rewrite Hne, Hcwd. now apply isAbsolute_app. }
  rewrite Habs. cbn [negb]. eexists. split; [apply normalizeSegments_kept | reflexivity].
Qed.

Lemma ancestorsAndSelf_self segs :
  Forall kept segs -> segs <> [] ->
  ("/" +:+ JS.join "/" segs) ∈ Path.ancestorsAndSelf ("/" +:+ JS.join "/" segs).
Proof.
  intros H Hne. unfold Path.ancestorsAndSelf.
  rewrite (normalizeSegments_absolute _ H).
  apply list_elem_of_fmap. exists (length segs). split.
  - now rewrite firstn_all.
  - apply elem_of_seq. destruct segs; [congruence|]. cbn. lia.
Qed.

End normal_paths.

Section made_directories.
Import Run.

(** After mkdirSync(p, { recursive: true }) the path exists. *)
Lemma mkdirWorld_exists w p :
  Path.isAbsolute (cwd w) = true -> p <> "" ->
  Fs.pathExists (mkdirWorld w p) p = true.
Proof.
  intros Hcwd Hp. unfold Fs.pathExists.
  rewrite (proj2 (String.eqb_neq _ _) Hp).
  change (Fs.key (mkdirWorld w p) p) with (Fs.key w p).
  cbv zeta. apply orb_true_iff. left. unfold Fs.isDirectory.
  destruct (String.eqb_spec (Fs.key w p) "/") as [|Hroot]; [reflexivity|].
  apply bool_decide_eq_true_2.
  destruct (resolve_normal (cwd w) p Hcwd) as (segs & Hsegs & Hkey).
  fold (Fs.key w p) in Hkey.
  unfold mkdirWorld, set_dirs. cbn [dirs]. apply elem_of_union. right.
  apply elem_of_list_to_set. rewrite Hkey.
  apply ancestorsAndSelf_self; [exact Hsegs|].
  intros ->. now apply Hroot.
Qed.

(** Directories only grow the set of existing paths. *)
Lemma pathExists_grows w w' p :
  cwd w' = cwd w -> files w' = files w -> dirs w ⊆ dirs w' ->
  Fs.pathExists w p = true -> Fs.pathExists w' p = true.
Proof.
  intros Hc Hf Hd. unfold Fs.pathExists, Fs.key, Fs.isDirectory, Fs.isFile.
  rewrite Hc, Hf. destruct (String.eqb p ""); [exact id|]. cbv zeta.
  rewrite !orb_true_iff, !bool_decide_eq_true. intros [[H|H]|H]; auto.
Qed.

Lemma dirname_nonempty p : Path.dirname p <> "".
Proof.
  unfold Path.dirname. destruct (list_ascii_of_string p) as [|c0 rest]; [discriminate|].
  cbv zeta.
  destruct (Path.dropWhile _ (Path.dropWhile _ (rev rest))) as [|x l] eqn:Hl.
  - destruct (bool_decide _); discriminate.
  - destruct (bool_decide (c0 = Path.slash) && (length (x :: l) =? 1)%nat);
      [discriminate|].
    cbn. discriminate.
Qed.

End made_directories.

(** ** A call after a call *)

Section again.
Import JS AiClientUtils ParsePrd Run.

Lemma readFile_Ret_same_files w w' p content :
  cwd w' = cwd w -> files w' = files w ->
  Fs.readFile w p = Ret content -> Fs.readFile w' p = Ret content.
Proof.
  intros Hc Hf. unfold Fs.readFile, Fs.key. rewrite Hc, Hf.
  destruct (files w !! _); [exact id|].
  destruct (Fs.isDirectory w _); discriminate.
Qed.

(** The world a successful call leaves *)
Lemma handed_over_world args w content ip op :
  let w' := generated (fst (parseNumTasks (numTasks args))) ip
              (prepared args ip op
                 (warned args
                    (ensured (Path.dirname op) (afterRead content ip (started args w))))) in
  cwd w' = cwd w /\ files w' = files w /\ now w' = now w
  /\ dirs w' = if Fs.pathExists w (Path.dirname op) then dirs w
               else dirs (mkdirWorld w (Path.dirname op)).
Proof.
  cbv zeta. unfold generated, prepared. cbn [cwd files now dirs add_log].
  rewrite cwd_warned, cwd_ensured, files_warned, files_ensured, now_warned, now_ensured,
    dirs_warned, dirs_ensured.
  repeat split.
Qed.

(** The paths of a call from the world that a call has left *)
Lemma Exit_again args w r :
  Path.isAbsolute (cwd w) = true ->
  Exit args w r ->
  exists r', Exit args (snd r) r' /\ fst r' = fst r
             /\ files (snd r') = files (snd r) /\ dirs (snd r') = dirs (snd r).
Proof.
  intros Hcwd Hr.
  assert (Hfail : cwd (snd r) = cwd w -> files (snd r) = files w ->
                  dirs (snd r) = dirs w -> now (snd r) = now w ->
                  success (fst r) = false ->
                  exists r', Exit args (snd r) r' /\ fst r' = fst r
                             /\ files (snd r') = files (snd r)
                             /\ dirs (snd r') = dirs (snd r)).
  { intros Hc Hf Hd Hn Hs.
    destruct (Exit_same _ _ _ _ Hc Hf Hd Hn Hr) as (r' & Hr' & Heq).
    exists r'. split; [exact Hr'|]. split; [exact Heq|].
    assert (Hs' : success (fst r') = false) by now rewrite Heq.
    destruct Hr'; try discriminate; cbn [snd rejected caught];
      autorewrite with frame dirframe; split; reflexivity. }
  destruct Hr as [| | | | | | | |ip content op Hroot Hin Hout Hip Hex Hrd Hop Hdir];
    try (apply Hfail; reflexivity).
  cbn [snd fst].
  destruct (handed_over_world args w content ip op) as (Hc & Hf & Hn & Hd).
  cbv zeta in Hc, Hf, Hn, Hd.
  set (w' := generated _ _ _) in *.
  assert (Hsub : dirs w ⊆ dirs w').
  { rewrite Hd. destruct (Fs.pathExists w (Path.dirname op)); [reflexivity|].
    unfold mkdirWorld, set_dirs. cbn [dirs]. apply union_subseteq_l. }
  assert (Hdir' : Fs.pathExists w' (Path.dirname op) = true).
  { destruct (Fs.pathExists w (Path.dirname op)) eqn:Hexd.
    - now apply (pathExists_grows w w').
    - rewrite (pathExists_same (mkdirWorld w (Path.dirname op)) w');
        [apply mkdirWorld_exists; [exact Hcwd | apply dirname_nonempty]
        | exact Hc | exact Hf | exact Hd]. }
  eexists (_, _). split.
  - apply (handed_over args w' ip content op); try assumption.
    + now rewrite (resolved_cwd w' w) by exact Hc.
    + now apply (pathExists_grows w w').
    + now apply (readFile_Ret_same_files w w').
    + now rewrite (resolved_cwd w' w) by exact Hc.
    + now left.
  - cbn [fst snd]. split; [unfold delegated; now rewrite Hn|].
    destruct (handed_over_world args w' content ip op) as (_ & Hf' & _ & Hd').
    cbv zeta in Hf', Hd'. rewrite Hf', Hd', Hdir'. split; reflexivity.
Qed.

End again.

(** ** The steps of initialize_project *)

Section init_steps.
Import JS AiClientUtils ParsePrd Server InitRun Run.

Lemma initialize_project_steps args root w :
  init_projectRoot args = JStr root ->
  initialize_project args w = try_catch (steps root) handler w.
Proof.
  intros Hroot. unfold initialize_project. rewrite Hroot. reflexivity.
Qed.

End init_steps.

(** * Verified properties *)

Import JS AiClientUtils ParsePrd Run.

(** C2. Mode resolution is a logical OR of the two flags: the direct
    (Claude Desktop) mode is chosen exactly when CLAUDE_DESKTOP is the string
    'true' in process.env or in the session environment, and the
    provider-backed mode exactly when it is 'true' in neither (absent, or any
    other text).  Both functions that resolve the mode act on it: each yields
    the key-less mock client of the direct mode exactly when one of the two
    flags is 'true'. *)
Theorem C2_mode_is_or_of_flags (w : World) (session : option Session) :
  let direct := env w !! flag = Some "true" \/ sessionEnv session flag = Some "true" in
  (usingClaudeDesktop w session = true <-> direct)
  /\ (usingClaudeDesktop w session = false <->
        env w !! flag <> Some "true" /\ sessionEnv session flag <> Some "true")
  /\ (fst (getAnthropicClientForMCP session w) = Ret (MockAnthropicClient None)
      <-> direct)
  /\ (forall options,
      fst (getBestAvailableAIModel session options w)
      = Ret (mkSelection "claude" (MockAnthropicClient None))
      <-> direct).
Proof.
  cbv zeta.
  assert (Hmode : usingClaudeDesktop w session = true <->
                  env w !! flag = Some "true" \/ sessionEnv session flag = Some "true").
  { unfold usingClaudeDesktop, flag.
    rewrite orb_true_iff, !bool_decide_eq_true. reflexivity. }
  split; [exact Hmode|]. split; [|split].
  - unfold usingClaudeDesktop, flag.
    rewrite orb_false_iff, !bool_decide_eq_false. reflexivity.
  - rewrite <- Hmode. split.
    + intros H. destruct (usingClaudeDesktop w session) eqn:Hu; [reflexivity|].
      rewrite (getAnthropicClientForMCP_api _ _ Hu) in H.
      destruct (apiKeyOf w session "ANTHROPIC_API_KEY"); discriminate.
    + intros H. now rewrite (getAnthropicClientForMCP_desktop _ _ H).
  - intros options. rewrite <- Hmode. split.
    + intros H. destruct (usingClaudeDesktop w session) eqn:Hu; [reflexivity|].
      now apply (getBestAvailableAIModel_api session options) in Hu.
    + intros H. unfold getBestAvailableAIModel, bind at 1, get_world.
      rewrite H. unfold bind, Logger.info, modify.
      now rewrite getAnthropicClientForMCP_desktop.
Qed.

(** C3. In direct mode getBestAvailableAIModel returns the selection of type
    'claude' with the key-less mock client, whatever requiresResearch and
    claudeOverloaded are and whatever API keys the environment and the session
    hold; it does not throw, and all it does to the world is log two
    informational lines. *)
Theorem C3_direct_mode_selects_claude
    (w : World) (session : option Session) (options : Options) :
  usingClaudeDesktop w session = true ->
  getBestAvailableAIModel session options w =
    (Ret (mkSelection "claude" (MockAnthropicClient None)),
     add_log (Info, "Using Claude Desktop mode with mock Anthropic client")
       (add_log (Info, "Using Claude Desktop mode for AI operations") w)).
Proof.
  intros Hmode.
  unfold getBestAvailableAIModel, bind at 1, get_world.
  rewrite Hmode. unfold bind, Logger.info, modify.
  rewrite getAnthropicClientForMCP_desktop by exact Hmode.
  reflexivity.
Qed.

Lemma C3_witness :
  getBestAvailableAIModel (Sample.session "PERPLEXITY_API_KEY" "pk")
    (mkOptions true true) Sample.desktop =
    (Ret (mkSelection "claude" (MockAnthropicClient None)),
     add_log (Info, "Using Claude Desktop mode with mock Anthropic client")
       (add_log (Info, "Using Claude Desktop mode for AI operations") Sample.desktop)).
Proof.
  apply (C3_direct_mode_selects_claude Sample.desktop
           (Sample.session "PERPLEXITY_API_KEY" "pk") (mkOptions true true)).
  reflexivity.
Defined.

(** C9 as stated fails: from a world in which CLAUDE_DESKTOP is not set, a
    call of parsePRDDirect leaves it set to 'true'. *)
Lemma C9_counterexample :
  env Sample.world !! flag = None
  /\ env (snd (parsePRDDirect (Sample.args JUndefined) None Sample.world)) !! flag
     = Some "true".
Proof. split; reflexivity. Qed.

(** C9, amended. Every call of parsePRDDirect writes the flag: afterwards
    process.env is the environment of before with CLAUDE_DESKTOP set to
    'true', on every path out of the function.  So the flag is 'true' after
    the call whatever it was, every other variable is as before, and the flag
    has its value of before exactly when that value was 'true'. *)
Theorem C9_flag_is_set_by_every_call
    (args : Args) (session : option Session) (w : World) :
  let w' := snd (parsePRDDirect args session w) in
  env w' = <[flag := "true"]> (env w)
  /\ env w' !! flag = Some "true"
  /\ (forall k, k <> flag -> env w' !! k = env w !! k)
  /\ (env w' !! flag = env w !! flag <-> env w !! flag = Some "true").
Proof.
  cbv zeta.
  assert (Henv : env (snd (parsePRDDirect args session w)) = <[flag := "true"]> (env w)).
  { destruct (parsePRDDirect_run args session w) as (r & -> & Hr).
    destruct Hr; cbn [fst snd Run.rejected Run.caught]; now autorewrite with frame. }
  rewrite Henv. split; [reflexivity|]. split; [apply lookup_insert_eq|].
  split.
  - intros k Hk. now apply lookup_insert_ne.
  - rewrite lookup_insert_eq. split; intros H; congruence.
Qed.

(** C5. The parse operation validates in the order projectRoot, input,
    output, input file, and the first violation decides the result: a missing
    projectRoot (absent, that is undefined, or otherwise falsy) gives
    MISSING_PROJECT_ROOT whatever the other arguments are; with a projectRoot,
    a missing input gives MISSING_INPUT_PATH; with both, a missing output gives
    MISSING_OUTPUT_PATH; with all three, an input path that resolves to
    [inputPath] where nothing exists gives INPUT_FILE_NOT_FOUND, with details
    that name the path checked.  Each of these is a returned failure result,
    not a throw. *)
Theorem C5_validation_order (args : Args) (session : option Session) (w : World) :
  let r := parsePRDDirect args session w in
  (truthy (projectRoot args) = false ->
   exists res, fst r = Ret res /\ success res = false
               /\ errorCode res = Some "MISSING_PROJECT_ROOT")
  /\ (truthy (projectRoot args) = true -> truthy (input args) = false ->
      exists res, fst r = Ret res /\ success res = false
                  /\ errorCode res = Some "MISSING_INPUT_PATH")
  /\ (truthy (projectRoot args) = true -> truthy (input args) = true ->
      truthy (output args) = false ->
      exists res, fst r = Ret res /\ success res = false
                  /\ errorCode res = Some "MISSING_OUTPUT_PATH")
  /\ (forall inputPath,
      truthy (projectRoot args) = true -> truthy (input args) = true ->
      truthy (output args) = true ->
      resolved w (projectRoot args) (input args) = Ret inputPath ->
      Fs.pathExists w inputPath = false ->
      exists res details,
        fst r = Ret res /\ success res = false
        /\ errorCode res = Some "INPUT_FILE_NOT_FOUND"
        /\ errorDetails res = Some details
        /\ contains details ("Checked path: " +:+ inputPath)).
Proof.
  cbv zeta.
  destruct (parsePRDDirect_run args session w) as (r & -> & Hr). cbn [fst].
  repeat split; intros; destruct Hr; try congruence;
    try (eexists; repeat split; reflexivity).
  assert (inputPath0 = inputPath) by congruence. subst.
  eexists _, _. repeat split; try reflexivity.
  cbn [fst notFound]. eexists "", _. reflexivity.
Qed.

Lemma C5_witness :
  (exists res,
      fst (Sample.run (mkArgs JUndefined JUndefined JUndefined JUndefined JUndefined
                         JUndefined)) = Ret res
      /\ success res = false /\ errorCode res = Some "MISSING_PROJECT_ROOT")
  /\ (exists res,
         fst (Sample.run (mkArgs JUndefined JUndefined JUndefined JUndefined JUndefined
                            (JStr "/proj"))) = Ret res
         /\ success res = false /\ errorCode res = Some "MISSING_INPUT_PATH")
  /\ (exists res,
         fst (Sample.run (mkArgs (JStr "scripts/prd.txt") JUndefined JUndefined
                            JUndefined JUndefined (JStr "/proj"))) = Ret res
         /\ success res = false /\ errorCode res = Some "MISSING_OUTPUT_PATH")
  /\ (exists res details,
         fst (Sample.run (mkArgs (JStr "scripts/missing.txt") JUndefined
                            (JStr "tasks/tasks.json") JUndefined JUndefined
                            (JStr "/proj"))) = Ret res
         /\ success res = false /\ errorCode res = Some "INPUT_FILE_NOT_FOUND"
         /\ errorDetails res = Some details
         /\ contains details ("Checked path: " +:+ "/proj/scripts/missing.txt")).
Proof.
  repeat split.
  - apply (proj1 (C5_validation_order _ None Sample.world)). reflexivity.
  - apply (proj1 (proj2 (C5_validation_order _ None Sample.world))); reflexivity.
  - apply (proj1 (proj2 (proj2 (C5_validation_order _ None Sample.world)))); reflexivity.
  - apply (proj2 (proj2 (proj2 (C5_validation_order _ None Sample.world)))
             "/proj/scripts/missing.txt"); reflexivity.
Defined.

(** C4. No call of parsePRDDirect creates or changes a regular file: the
    file store after the call is the one before, so the output file is neither
    created nor modified (the only write in the function is after the result
    that hands the work over, and is never reached; what a call may create is
    the directory of the output).  When the call succeeds,
    data.outputPath is the output argument itself if that is absolute, and
    path.resolve(projectRoot, output) otherwise.  And it does succeed when the
    three paths are given, the input resolves to a readable file and the
    directory of the output exists or can be made. *)
Theorem C4_output_file_untouched (args : Args) (session : option Session) (w : World) :
  let r := parsePRDDirect args session w in
  files (snd r) = files w
  /\ (forall res, fst r = Ret res -> success res = true ->
      exists out outputPath,
        output args = JStr out
        /\ dataOutputPath res = Some outputPath
        /\ (if Path.isAbsolute out then outputPath = out
            else exists root, projectRoot args = JStr root
                              /\ outputPath = Path.resolve (cwd w) [root; out]))
  /\ (forall inputPath content outputPath,
      truthy (projectRoot args) = true -> truthy (input args) = true ->
      truthy (output args) = true ->
      resolved w (projectRoot args) (input args) = Ret inputPath ->
      Fs.pathExists w inputPath = true ->
      Fs.readFile w inputPath = Ret content ->
      resolved w (projectRoot args) (output args) = Ret outputPath ->
      (Fs.pathExists w (Path.dirname outputPath) = true
       \/ mkdirOk w (Path.dirname outputPath) = true) ->
      succeeded r = true).
Proof.
  cbv zeta.
  destruct (parsePRDDirect_run args session w) as (r & Heq & Hr). rewrite Heq.
  cbn [fst snd]. split; [|split].
  - destruct Hr; cbn [fst snd rejected caught]; autorewrite with frame; reflexivity.
  - intros res Hres Hsucc. injection Hres as <-.
    destruct (Exit_success _ _ _ Hr Hsucc) as (ip & content & op & _ & _ & Hop & ->).
    destruct (resolved_Ret _ _ _ _ Hop) as (out & Hout & Hpath).
    exists out, op. repeat split; assumption.
  - intros ip content op Hroot Hin Hout Hip Hex Hrd Hop Hdir.
    rewrite (Exit_succeeds _ _ _ _ _ _ Hr Hroot Hin Hout Hip Hex Hrd Hop Hdir).
    reflexivity.
Qed.

Lemma C4_witness :
  files (snd (Sample.run (Sample.args (JStr "5")))) = files Sample.world
  /\ dataOutputPath (Sample.result (Sample.args (JStr "5"))) = Some "/proj/tasks/tasks.json"
  /\ succeeded (Sample.run (Sample.args (JStr "5"))) = true.
Proof.
  pose proof (C4_output_file_untouched (Sample.args (JStr "5")) None Sample.world)
    as (Hfiles & Hpath & Hsucc).
  split; [exact Hfiles|]. split.
  - destruct (Hpath (Sample.result (Sample.args (JStr "5"))))
      as (out & op & Hout & Hop & Hres); [reflexivity | reflexivity |].
    injection Hout as <-. cbn in Hres. destruct Hres as (root & Hroot & ->).
    injection Hroot as <-. exact Hop.
  - apply (Hsucc "/proj/scripts/prd.txt" "Build a todo app." "/proj/tasks/tasks.json");
      try reflexivity. right. reflexivity.
Defined.

(** C1. generateTasksFromPRD always returns, with
    shouldBeHandledByClaudeDirectly true, a system prompt and a user prompt
    that are not empty, and a user prompt that contains the document text as
    given.  Through parsePRDDirect: a successful result carries two non-empty
    prompts, and its userPrompt contains the whole content of the file the
    input argument resolves to. *)
Theorem C1_prompts_embed_document :
  (forall (prdContent prdPath : string) (numTasks : jsval) (w : World),
      exists r w',
        generateTasksFromPRD prdContent prdPath numTasks w = (Ret r, w')
        /\ shouldBeHandledByClaudeDirectly r = true
        /\ systemPrompt r <> "" /\ userPrompt r <> ""
        /\ contains (userPrompt r) prdContent)
  /\ (forall (args : Args) (session : option Session) (w : World) (res : Result),
      fst (parsePRDDirect args session w) = Ret res ->
      success res = true ->
      exists inputPath content sp up,
        resolved w (projectRoot args) (input args) = Ret inputPath
        /\ Fs.readFile w inputPath = Ret content
        /\ dataPrompts res = Some (sp, up)
        /\ sp <> "" /\ up <> ""
        /\ contains up content).
Proof.
  split.
  - intros prdContent prdPath n w. eexists _, _.
    split; [apply generateTasksFromPRD_run|]. cbn [shouldBeHandledByClaudeDirectly
      systemPrompt userPrompt].
    repeat split.
    + apply systemPromptText_nonempty.
    + apply userPromptText_nonempty.
    + apply userPromptText_contains.
  - intros args session w res Hres Hsucc.
    destruct (parsePRDDirect_run args session w) as (r & Heq & Hr).
    rewrite Heq in Hres. injection Hres as <-.
    destruct (Exit_success _ _ _ Hr Hsucc) as (ip & content & op & Hip & Hrd & _ & ->).
    exists ip, content. eexists _, _. repeat split; try eassumption.
    + apply systemPromptText_nonempty.
    + apply userPromptText_nonempty.
    + apply userPromptText_contains.
Qed.

Lemma C1_witness :
  exists sp up,
    dataPrompts (Sample.result (Sample.args (JStr "5"))) = Some (sp, up)
    /\ sp <> "" /\ up <> "" /\ contains up "Build a todo app.".
Proof.
  destruct (proj2 C1_prompts_embed_document (Sample.args (JStr "5")) None Sample.world
              (Sample.result (Sample.args (JStr "5"))) eq_refl eq_refl)
    as (ip & content & sp & up & Hip & Hrd & Hp & Hsp & Hup & Hin).
  injection Hip as <-. injection Hrd as <-.
  exists sp, up. repeat split; assumption.
Defined.

(** C7. The parse operation does not fail on numTasks.  Whether a call
    succeeds is the same for every value of the field; with numTasks absent
    the call logs no warning and a successful result carries 10; with a
    non-empty string that parseInt cannot read, a successful result carries 10
    and exactly one warning is logged, naming the value; and a warning is
    logged for no other value. *)
Theorem C7_numTasks_defaults (args : Args) (session : option Session) (w : World) :
  let r := parsePRDDirect args session w in
  (forall v, succeeded (parsePRDDirect (withNumTasks v args) session w) = succeeded r)
  /\ (numTasks args = JUndefined ->
      logged Warn (snd r) = logged Warn w
      /\ (forall res, fst r = Ret res -> success res = true ->
          dataNumTasks res = Some (JNum (Int 10))))
  /\ (forall s, numTasks args = JStr s -> s <> "" ->
      parseInt (JStr s) (Some 10) = NaN ->
      forall res, fst r = Ret res -> success res = true ->
      dataNumTasks res = Some (JNum (Int 10))
      /\ logged Warn (snd r)
         = (logged Warn w
            ++ ["Invalid numTasks value: " +:+ s +:+ ". Using default: 10"])%list)
  /\ (logged Warn (snd r) <> logged Warn w ->
      exists s, numTasks args = JStr s /\ s <> ""
                /\ parseInt (JStr s) (Some 10) = NaN).
Proof.
  cbv zeta.
  destruct (parsePRDDirect_run args session w) as (r & Heq & Hr). rewrite Heq.
  cbn [fst snd]. split; [|split; [|split]].
  - intros v.
    destruct (parsePRDDirect_run (withNumTasks v args) session w) as (r' & Heq' & Hr').
    rewrite Heq'. unfold succeeded. cbn [fst].
    apply (Exit_numTasks_irrelevant _ _ _ _ _ Hr Hr').
  - intros Hnum. split.
    + destruct Hr; cbn [fst snd rejected caught]; autorewrite with frame;
        try reflexivity.
      rewrite Hnum, parseNumTasks_absent. cbn [snd]. apply app_nil_r.
    + intros res Hres Hsucc. injection Hres as <-.
      destruct (Exit_success _ _ _ Hr Hsucc) as (ip & content & op & _ & _ & _ & ->).
      cbn. now rewrite Hnum.
  - intros s Hnum Hs Hnan res Hres Hsucc. injection Hres as <-.
    destruct (Exit_success _ _ _ Hr Hsucc) as (ip & content & op & _ & _ & _ & ->).
    cbn [fst snd delegated dataNumTasks data]. autorewrite with frame.
    rewrite Hnum, (parseNumTasks_unparseable s Hs Hnan). split; reflexivity.
  - intros Hwarn. apply parseNumTasks_warns.
    destruct (snd (parseNumTasks (numTasks args))) eqn:Hsnd; [reflexivity|].
    exfalso. apply Hwarn.
    destruct Hr; cbn [fst snd rejected caught]; autorewrite with frame;
      try reflexivity.
    rewrite Hsnd. apply app_nil_r.
Qed.

Lemma C7_witness :
  (logged Warn (snd (Sample.run (Sample.args JUndefined))) = []
   /\ dataNumTasks (Sample.result (Sample.args JUndefined)) = Some (JNum (Int 10)))
  /\ (dataNumTasks (Sample.result (Sample.args (JStr "abc"))) = Some (JNum (Int 10))
      /\ logged Warn (snd (Sample.run (Sample.args (JStr "abc"))))
         = ["Invalid numTasks value: abc. Using default: 10"]).
Proof.
  split.
  - destruct (proj1 (proj2 (C7_numTasks_defaults (Sample.args JUndefined) None
                              Sample.world)) eq_refl) as [Hlog Hnum].
    split; [exact Hlog|]. apply Hnum; reflexivity.
  - apply (proj1 (proj2 (proj2 (C7_numTasks_defaults (Sample.args (JStr "abc")) None
                                  Sample.world))) "abc");
      first [reflexivity | discriminate].
Defined.

(** C10. The count is coerced differently for numbers and for strings.  In a
    successful call the number 0 is taken as missing and data.numTasks is 10,
    while a string that is the decimal numeral of a safe integer [z] (at most
    2^53 - 1 in absolute value), positive, zero or negative, is parsed and
    passed on: data.numTasks is [z] and both prompts state [z] as the count.
    So the strings '0' and '-3' give the counts 0 and -3.  (Beyond the safe
    integers parseInt rounds to a binary64 and the prompts print the rounded
    Number, which is why [z] is bounded.) *)
Theorem C10_numTasks_number_and_string
    (args : Args) (session : option Session) (w : World) (res : Result) :
  fst (parsePRDDirect args session w) = Ret res ->
  success res = true ->
  (numTasks args = JNum (Int 0) -> dataNumTasks res = Some (JNum (Int 10)))
  /\ (forall z, safeInteger z -> numTasks args = JStr (Z_to_string z) ->
      dataNumTasks res = Some (JNum (Int z))
      /\ exists sp up,
           dataPrompts res = Some (sp, up)
           /\ contains sp ("create exactly " +:+ Z_to_string z +:+ " well-structured")
           /\ contains up ("into " +:+ Z_to_string z +:+ " tasks:")).
Proof.
  intros Hres Hsucc.
  destruct (parsePRDDirect_run args session w) as (r & Heq & Hr).
  rewrite Heq in Hres. injection Hres as <-.
  destruct (Exit_success _ _ _ Hr Hsucc) as (ip & content & op & _ & _ & _ & ->).
  cbn [fst delegated dataNumTasks dataPrompts data]. split.
  - intros ->. reflexivity.
  - intros z Hz ->. rewrite (parseNumTasks_numeral z Hz). cbn [fst].
    split; [reflexivity|].
    eexists _, _. split; [reflexivity|]. split.
    + apply (systemPromptText_states_count (JNum (Int z))).
    + apply (userPromptText_states_count (JNum (Int z))).
Qed.

Lemma C10_witness :
  dataNumTasks (Sample.result (Sample.args (JNum (Int 0)))) = Some (JNum (Int 10))
  /\ dataNumTasks (Sample.result (Sample.args (JStr "0"))) = Some (JNum (Int 0))
  /\ dataNumTasks (Sample.result (Sample.args (JStr "-3"))) = Some (JNum (Int (-3))).
Proof.
  split; [|split].
  - apply (proj1 (C10_numTasks_number_and_string (Sample.args (JNum (Int 0))) None
                    Sample.world _ eq_refl eq_refl)). reflexivity.
  - apply (proj2 (C10_numTasks_number_and_string (Sample.args (JStr "0")) None
                    Sample.world _ eq_refl eq_refl) 0);
      [unfold safeInteger; lia | reflexivity].
  - apply (proj2 (C10_numTasks_number_and_string (Sample.args (JStr "-3")) None
                    Sample.world _ eq_refl eq_refl) (-3));
      [unfold safeInteger; lia | reflexivity].
Defined.

(** C6 as stated fails: with MAX_TOKENS='abc' in the session environment the
    maxTokens of the configuration is NaN, not the default 64000. *)
Lemma C6_counterexample :
  config_maxTokens (getModelConfig (Sample.session "MAX_TOKENS" "abc") DEFAULT_MODEL_CONFIG)
  = NaN
  /\ config_maxTokens DEFAULT_MODEL_CONFIG = Int 64000.
Proof. split; reflexivity. Qed.

(** C6, amended. getModelConfig is a total function of the session and the
    defaults, and field by field it takes the session's value when that is
    present and not empty, and the default otherwise: the model is that text,
    maxTokens is parseInt of it and temperature is parseFloat of it.  A default
    is used only for a value that is absent or empty; a present value that
    does not parse gives NaN for the field.  The default of maxTokens goes
    through parseInt as well, that is through its text: it comes out as it is
    when it is NaN or a safe integer (beyond those the text of a Number does
    not read back: parseInt(1e21) is 1), so that clause is stated for such
    defaults. *)
Theorem C6_session_value_or_default (session : option Session) (defaults : ModelConfig) :
  let c := getModelConfig session defaults in
  (forall s, present session "MODEL" s -> config_model c = s)
  /\ (absent session "MODEL" -> config_model c = config_model defaults)
  /\ (forall s, present session "MAX_TOKENS" s ->
      config_maxTokens c = parseInt (JStr s) None)
  /\ (absent session "MAX_TOKENS" -> exactNumber (config_maxTokens defaults) ->
      config_maxTokens c = config_maxTokens defaults)
  /\ (forall s, present session "TEMPERATURE" s ->
      config_temperature c = parseFloat s)
  /\ (absent session "TEMPERATURE" ->
      config_temperature c = config_temperature defaults)
  /\ (forall s, present session "MAX_TOKENS" s ->
      parseInt (JStr s) None = NaN -> config_maxTokens c = NaN)
  /\ (forall s, present session "TEMPERATURE" s ->
      parseFloat s = DNaN -> config_temperature c = DNaN).
Proof.
  cbv zeta. unfold getModelConfig. cbn [config_model config_maxTokens config_temperature].
  repeat split; intros;
    repeat match goal with
           | H : present _ _ _ |- _ => rewrite (truthy_str_present _ _ _ H); clear H
           | H : absent _ _ |- _ => rewrite (truthy_str_absent _ _ H); clear H
           end;
    cbn [default from_option fmap option_fmap option_map id parseFloatOf];
    try reflexivity; try assumption.
  now apply parseInt_number.
Qed.

Lemma C6_witness :
  config_maxTokens (getModelConfig (Sample.session "MAX_TOKENS" "abc") DEFAULT_MODEL_CONFIG)
  = NaN
  /\ config_maxTokens (getModelConfig (Sample.session "MAX_TOKENS" "32000")
                         DEFAULT_MODEL_CONFIG) = Int 32000
  /\ config_maxTokens (getModelConfig (Sample.session "MODEL" "m") DEFAULT_MODEL_CONFIG)
     = Int 64000
  /\ config_temperature (getModelConfig (Sample.session "TEMPERATURE" "warm")
                           DEFAULT_MODEL_CONFIG) = DNaN.
Proof.
  split; [|split; [|split]].
  - apply (proj1 (proj2 (proj2 (proj2 (proj2 (proj2 (proj2
             (C6_session_value_or_default (Sample.session "MAX_TOKENS" "abc")
                DEFAULT_MODEL_CONFIG))))))) "abc");
      [split; [reflexivity | discriminate] | reflexivity].
  - rewrite (proj1 (proj2 (proj2
               (C6_session_value_or_default (Sample.session "MAX_TOKENS" "32000")
                  DEFAULT_MODEL_CONFIG))) "32000");
      [reflexivity | split; [reflexivity | discriminate]].
  - rewrite (proj1 (proj2 (proj2 (proj2
               (C6_session_value_or_default (Sample.session "MODEL" "m")
                  DEFAULT_MODEL_CONFIG)))));
      [reflexivity | left; reflexivity | cbn; unfold safeInteger; lia].
  - apply (proj2 (proj2 (proj2 (proj2 (proj2 (proj2 (proj2
             (C6_session_value_or_default (Sample.session "TEMPERATURE" "warm")
                DEFAULT_MODEL_CONFIG))))))) "warm");
      [split; [reflexivity | discriminate] | reflexivity].
Defined.

(** C8 as stated fails: the events of a mock stream are not one event
    followed by content deltas and one last event; after the deltas come two
    events. *)
Lemma C8_counterexample :
  ~ exists first chunks last,
      fst (createMockStream Sample.params Sample.world)
      = Ret ([first] ++ map (fun chunk => content_block_delta chunk 0) chunks
             ++ [last])%list.
Proof.
  intros (first & chunks & last & H).
  change (fst (createMockStream Sample.params Sample.world))
    with (Ret (streamEvents Sample.params SENTINEL)) in H.
  injection H as H. vm_compute in H.
  destruct chunks as [|c1 [|c2 chunks]]; cbn in H; discriminate.
Qed.

(** C8, amended. For every parameter set the mock stream is a finite list of
    events: one content_block_start, then one content_block_delta for each
    chunk, then a content_block_stop and last a message_stop that carries the
    whole message.  The chunks are the matches of /.{1,20}/g in the text that
    generateResponse returns, their concatenation is that text, the sentinel
    NOT_IMPLEMENTED, and each has between 1 and 20 characters. *)
Theorem C8_stream_reassembles_sentinel (params : Params) (w : World) :
  exists chunks w',
    createMockStream params w
    = (Ret ([content_block_start "text" "mock-block-id"]
            ++ map (fun chunk => content_block_delta chunk 0) chunks
            ++ [content_block_stop "text" "mock-block-id";
                message_stop (finalMessage params SENTINEL None)])%list, w')
    /\ generateResponse params w = (Ret SENTINEL, w')
    /\ concatText chunks = SENTINEL
    /\ Forall (fun chunk => (1 <= String.length chunk <= 20)%nat) chunks.
Proof.
  exists (chunksOf SENTINEL). eexists. split; [reflexivity|]. split; [reflexivity|].
  split.
  - apply chunksOf_concat. reflexivity.
  - vm_compute. repeat constructor.
Qed.

(** * Further properties of the parse operation *)

(** X1. parsePRDDirect always returns a result and never throws.  The result
    is a complete envelope: fromCache is false; a success carries data, the
    hand-over flag and no error; a failure carries no data and an error whose
    message is not empty and whose code is one of MISSING_PROJECT_ROOT,
    MISSING_INPUT_PATH, MISSING_OUTPUT_PATH, INPUT_FILE_NOT_FOUND and
    PARSE_PRD_ERROR.  AI_CLIENT_ERROR is never returned. *)
Theorem X1_parse_returns_complete_envelope
    (args : Args) (session : option Session) (w : World) :
  exists res,
    fst (parsePRDDirect args session w) = Ret res
    /\ fromCache res = false
    /\ (if success res
        then error res = None
             /\ exists m sp up op n ap, data res = Some (Delegated m true sp up op n ap)
        else data res = None
             /\ exists e, error res = Some e
                  /\ error_message e <> ""
                  /\ error_code e ∈ ["MISSING_PROJECT_ROOT"; "MISSING_INPUT_PATH";
                                     "MISSING_OUTPUT_PATH"; "INPUT_FILE_NOT_FOUND";
                                     "PARSE_PRD_ERROR"]).
Proof.
  destruct (parsePRDDirect_run args session w) as (r & -> & Hr).
  exists (fst r). split; [reflexivity|].
  destruct Hr; cbn [fst rejected caught notFound failure delegated success data error
                      fromCache];
    (split; [reflexivity|]);
    try (split; [reflexivity|]; eexists; split; [reflexivity|];
         cbn [error_message error_code]; split;
         [ try discriminate | set_solver ]).
  all: try (split; [reflexivity|]; eauto 10).
  all: match goal with
       | |- (if String.eqb ?e "" then _ else _) <> "" =>
           destruct (String.eqb_spec e ""); [discriminate | assumption]
       end.
Qed.

(** X2. parsePRDDirect does not consult the session: with the same arguments
    and the same world, any two sessions (present or not, with or without API
    keys or a CLAUDE_DESKTOP entry) give the same result and the same world. *)
Theorem X2_parse_ignores_session
    (args : Args) (session session' : option Session) (w : World) :
  parsePRDDirect args session w = parsePRDDirect args session' w.
Proof.
  destruct (parsePRDDirect_run args session w) as (r & -> & Hr).
  symmetry. now apply parsePRDDirect_Exit.
Qed.

(** X3. A successful call logs nothing at error level; a failed call logs
    exactly one error line, and unless the failure is the catch-all
    PARSE_PRD_ERROR that line is the message of the returned error. *)
Theorem X3_parse_logs_one_error_per_failure
    (args : Args) (session : option Session) (w : World) (res : Result) :
  fst (parsePRDDirect args session w) = Ret res ->
  let w' := snd (parsePRDDirect args session w) in
  if success res then logged Error w' = logged Error w
  else exists line,
      logged Error w' = (logged Error w ++ [line])%list
      /\ (errorCode res <> Some "PARSE_PRD_ERROR" ->
          error_message <$> error res = Some line).
Proof.
  destruct (parsePRDDirect_run args session w) as (r & -> & Hr).
  cbn [fst snd]. intros Hres. injection Hres as <-.
  destruct Hr; cbn [fst snd rejected caught notFound failure delegated success];
    rewrite ?logged_same; autorewrite with errframe;
    try reflexivity; eexists; (split; [reflexivity|]);
    cbn; try reflexivity; intros Hcode; congruence.
Qed.

Lemma X3_witness :
  logged Error (snd (Sample.run (Sample.args JUndefined))) = []
  /\ logged Error (snd (Sample.run (mkArgs JUndefined JUndefined JUndefined JUndefined
                                      JUndefined JUndefined)))
     = ["Project root is required for parsePRDDirect"].
Proof.
  split.
  - apply (X3_parse_logs_one_error_per_failure (Sample.args JUndefined) None
             Sample.world (Sample.result (Sample.args JUndefined)) eq_refl).
  - destruct (X3_parse_logs_one_error_per_failure
                (mkArgs JUndefined JUndefined JUndefined JUndefined JUndefined JUndefined)
                None Sample.world _ eq_refl) as (line & Hlog & Hline).
    cbn in Hline. specialize (Hline ltac:(discriminate)).
    injection Hline as <-. exact Hlog.
Defined.

(** X4. The count in a successful result is never NaN and never a string:
    whatever numTasks was, isNaN(data.numTasks) is false. *)
Theorem X4_count_is_never_NaN
    (args : Args) (session : option Session) (w : World) (res : Result) (v : jsval) :
  fst (parsePRDDirect args session w) = Ret res ->
  dataNumTasks res = Some v ->
  isNaN v = false /\ (forall s, v <> JStr s).
Proof.
  destruct (parsePRDDirect_run args session w) as (r & -> & Hr).
  cbn [fst]. intros Hres Hv. injection Hres as <-.
  destruct Hr; try discriminate.
  cbn in Hv. injection Hv as <-.
  unfold parseNumTasks. destruct (truthy (numTasks args)) eqn:Ht;
    [|split; [reflexivity | discriminate]].
  cbv zeta.
  destruct (isNaN match numTasks args with
                  | JStr _ => JNum (parseInt (numTasks args) (Some 10))
                  | _ => numTasks args
                  end) eqn:Hnan; cbn [fst]; [split; [reflexivity | discriminate]|].
  split; [exact Hnan|]. intros s. destruct (numTasks args); discriminate.
Qed.

Lemma X4_witness :
  isNaN (JNum (Int 10)) = false /\ (forall s, JNum (Int 10) <> JStr s).
Proof.
  apply (X4_count_is_never_NaN (Sample.args (JStr "abc")) None Sample.world
           (Sample.result (Sample.args (JStr "abc"))) (JNum (Int 10)));
    reflexivity.
Defined.

(** X5. What a call does to the directories, when the paths it hands to the
    file system are plain (see [Plain.plainPaths]): a failed call leaves the
    directories as they were, and a successful call adds the directory of the
    output path with its ancestors when that directory did not exist, and
    nothing otherwise.  The working directory is never changed. *)
Theorem X5_parse_creates_only_the_output_directory
    (args : Args) (session : option Session) (w : World) (res : Result) :
  Plain.plainPaths args w ->
  fst (parsePRDDirect args session w) = Ret res ->
  let w' := snd (parsePRDDirect args session w) in
  cwd w' = cwd w
  /\ (success res = false -> dirs w' = dirs w)
  /\ (forall outputPath, dataOutputPath res = Some outputPath ->
      dirs w' = if Fs.pathExists w (Path.dirname outputPath) then dirs w
                else dirs w ∪ list_to_set
                       (Path.ancestorsAndSelf (Path.dirname outputPath))).
Proof.
  intros [_ Hplain].
  destruct (parsePRDDirect_run args session w) as (r & -> & Hr).
  cbn [fst snd]. intros Hres. injection Hres as <-.
  destruct Hr; cbn [fst snd rejected caught notFound failure delegated success
                      dataOutputPath data];
    (split; [first [reflexivity
                   | unfold generated, prepared; cbn [cwd add_log];
                     now rewrite cwd_warned, cwd_ensured]|]);
    (split; [intros Hs; first [discriminate Hs | reflexivity]|]);
    intros op Hop; try discriminate Hop.
  injection Hop as <-.
  match goal with
  | H : resolved w _ (output args) = Ret _ |- _ =>
      destruct (Hplain _ H) as [_ Hkey]
  end.
  autorewrite with dirframe.
  change (Fs.key (afterRead content inputPath (started args w)) (Path.dirname outputPath))
    with (Fs.key w (Path.dirname outputPath)).
  change (Fs.pathExists (afterRead content inputPath (started args w))
            (Path.dirname outputPath))
    with (Fs.pathExists w (Path.dirname outputPath)).
  now rewrite Hkey.
Qed.

Lemma X5_witness :
  dirs (snd (Sample.run (Sample.args JUndefined)))
  = dirs Sample.world ∪ list_to_set (Path.ancestorsAndSelf "/proj/tasks").
Proof.
  assert (Hplain : Plain.plainPaths (Sample.args JUndefined) Sample.world)
    by (split; intros p Hp; vm_compute in Hp; injection Hp as <-; split; reflexivity).
  apply (proj2 (proj2 (X5_parse_creates_only_the_output_directory
                         (Sample.args JUndefined) None Sample.world
                         (Sample.result (Sample.args JUndefined)) Hplain eq_refl))
           "/proj/tasks/tasks.json").
  reflexivity.
Defined.

(** X6. numTasks given as a string is read with parseInt(_, 10), which skips
    leading white space and stops at the first character that is not a digit:
    when the string is white space, then the decimal numeral of a safe
    integer [z], then anything that does not start with a digit, a successful
    call carries [z] as the count and logs no warning ('12abc' counts as 12,
    '3.9' as 3, '0x10' as 0). *)
Theorem X6_count_is_the_leading_numeral
    (args : Args) (session : option Session) (w : World) (res : Result)
    (ws rest : string) (z : Z) :
  safeInteger z ->
  allWhiteSpace ws = true ->
  startsWithDigit 10 rest = false ->
  numTasks args = JStr (ws +:+ Z_to_string z +:+ rest) ->
  fst (parsePRDDirect args session w) = Ret res ->
  success res = true ->
  dataNumTasks res = Some (JNum (Int z))
  /\ logged Warn (snd (parsePRDDirect args session w)) = logged Warn w.
Proof.
  intros Hz Hws Hrest Hnum Hres Hsucc.
  destruct (parsePRDDirect_run args session w) as (r & Heq & Hr).
  rewrite Heq in *. cbn [fst snd] in *. injection Hres as <-.
  destruct (Exit_success _ _ _ Hr Hsucc) as (ip & content & op & _ & _ & _ & ->).
  assert (Hparse : parseNumTasks (numTasks args) = (JNum (Int z), false)).
  { rewrite Hnum. unfold parseNumTasks.
    rewrite (proj2 (truthy_JStr _)).
    - now rewrite parseInt10_prefix.
    - apply append_nonempty_r, append_nonempty_l, Z_to_string_nonempty. }
  cbn [fst snd delegated dataNumTasks data]. autorewrite with frame.
  rewrite Hparse. cbn [fst snd]. split; [reflexivity | apply app_nil_r].
Qed.

Lemma X6_witness :
  dataNumTasks (Sample.result (Sample.args (JStr "12abc"))) = Some (JNum (Int 12))
  /\ dataNumTasks (Sample.result (Sample.args (JStr " 0x10"))) = Some (JNum (Int 0))
  /\ logged Warn (snd (Sample.run (Sample.args (JStr " 0x10")))) = [].
Proof.
  split.
  - apply (X6_count_is_the_leading_numeral (Sample.args (JStr "12abc")) None Sample.world
             (Sample.result (Sample.args (JStr "12abc"))) "" "abc" 12);
      first [reflexivity | unfold safeInteger; lia].
  - apply (X6_count_is_the_leading_numeral (Sample.args (JStr " 0x10")) None Sample.world
             (Sample.result (Sample.args (JStr " 0x10"))) " " "x10" 0);
      first [reflexivity | unfold safeInteger; lia].
Defined.

(** X7. getModelConfig reads MAX_TOKENS back exactly and checks no range:
    when the session holds the decimal numeral of a safe integer [z],
    maxTokens is [z], also for zero and for negative [z]. *)
Theorem X7_max_tokens_numeral_read_back
    (session : option Session) (defaults : ModelConfig) (z : Z) :
  safeInteger z ->
  sessionEnv session "MAX_TOKENS" = Some (Z_to_string z) ->
  config_maxTokens (getModelConfig session defaults) = Int z.
Proof.
  intros Hz H. unfold getModelConfig. cbn [config_maxTokens].
  rewrite H. cbn [truthy_str].
  rewrite (proj2 (String.eqb_neq _ _) (Z_to_string_nonempty z)).
  cbn [fmap option_fmap option_map default from_option id].
  apply parseInt_Z_to_string; [exact Hz | now left].
Qed.

Lemma X7_witness :
  config_maxTokens (getModelConfig (Sample.session "MAX_TOKENS" "-5") DEFAULT_MODEL_CONFIG)
  = Int (-5).
Proof.
  apply (X7_max_tokens_numeral_read_back (Sample.session "MAX_TOKENS" "-5")
           DEFAULT_MODEL_CONFIG (-5));
    [unfold safeInteger; lia | reflexivity].
Defined.

(** * Further properties of the client utilities *)

(** X8. Outside direct mode each client getter takes its API key from the
    session when the session has a non-empty one, whatever process.env holds,
    and from process.env otherwise; with no non-empty key in either it throws
    the message that names the variable and logs one error line with that
    message.  This holds for the Anthropic getter and for the Perplexity
    getter. *)
Theorem X8_session_key_before_environment_key (w : World) (session : option Session) :
  usingClaudeDesktop w session = false ->
  let anthropic k :=
    Ret (MockAnthropicClient
           (Some (mkAnthropicOptions k [("anthropic-beta", "output-128k-2025-02-19")]))) in
  let perplexity k :=
    Ret (MockPerplexityClient (Some (mkPerplexityOptions k "https://api.perplexity.ai"))) in
  let missing name :=
    name +:+ " not found in session environment or process.env. Set CLAUDE_DESKTOP=true to use Claude Desktop mode." in
  ((forall k, present session "ANTHROPIC_API_KEY" k ->
      fst (getAnthropicClientForMCP session w) = anthropic k)
   /\ (forall k, absent session "ANTHROPIC_API_KEY" ->
       env w !! "ANTHROPIC_API_KEY" = Some k -> k <> "" ->
       fst (getAnthropicClientForMCP session w) = anthropic k)
   /\ (absent session "ANTHROPIC_API_KEY" ->
       env w !! "ANTHROPIC_API_KEY" = None \/ env w !! "ANTHROPIC_API_KEY" = Some "" ->
       fst (getAnthropicClientForMCP session w) = Throw (missing "ANTHROPIC_API_KEY")
       /\ logged Error (snd (getAnthropicClientForMCP session w))
          = (logged Error w
             ++ ["Failed to initialize Anthropic client: "
                 +:+ missing "ANTHROPIC_API_KEY"])%list))
  /\ ((forall k, present session "PERPLEXITY_API_KEY" k ->
       fst (getPerplexityClientForMCP session w) = perplexity k)
      /\ (forall k, absent session "PERPLEXITY_API_KEY" ->
          env w !! "PERPLEXITY_API_KEY" = Some k -> k <> "" ->
          fst (getPerplexityClientForMCP session w) = perplexity k)
      /\ (absent session "PERPLEXITY_API_KEY" ->
          env w !! "PERPLEXITY_API_KEY" = None \/ env w !! "PERPLEXITY_API_KEY" = Some "" ->
          fst (getPerplexityClientForMCP session w) = Throw (missing "PERPLEXITY_API_KEY")
          /\ logged Error (snd (getPerplexityClientForMCP session w))
             = (logged Error w
                ++ ["Failed to initialize Perplexity client: "
                    +:+ missing "PERPLEXITY_API_KEY"])%list)).
Proof.
  intros Hmode. cbv zeta. split; (split; [|split]).
  - intros k Hk. rewrite (getAnthropicClientForMCP_api _ _ Hmode).
    now rewrite (apiKeyOf_session _ _ _ _ Hk).
  - intros k Hs He Hk. rewrite (getAnthropicClientForMCP_api _ _ Hmode).
    now rewrite (apiKeyOf_env _ _ _ _ Hs He Hk).
  - intros Hs He. rewrite (getAnthropicClientForMCP_api _ _ Hmode).
    rewrite (apiKeyOf_none _ _ _ Hs He). cbn [fst snd]. split; [reflexivity|].
    apply logged_same.
  - intros k Hk.
    now rewrite (getPerplexityClientForMCP_api _ _ _ Hmode (apiKeyOf_session _ _ _ _ Hk)).
  - intros k Hs He Hk.
    now rewrite (getPerplexityClientForMCP_api _ _ _ Hmode (apiKeyOf_env _ _ _ _ Hs He Hk)).
  - intros Hs He.
    rewrite (getPerplexityClientForMCP_none _ _ Hmode (apiKeyOf_none _ _ _ Hs He)).
    cbn [fst snd]. split; [reflexivity|]. apply logged_same.
Qed.

Lemma X8_witness :
  fst (getAnthropicClientForMCP (Sample.session "ANTHROPIC_API_KEY" "from-session")
         More.keyed)
  = Ret (MockAnthropicClient
           (Some (mkAnthropicOptions "from-session"
                    [("anthropic-beta", "output-128k-2025-02-19")])))
  /\ fst (getAnthropicClientForMCP (Sample.session "ANTHROPIC_API_KEY" "") More.keyed)
     = Ret (MockAnthropicClient
              (Some (mkAnthropicOptions "from-env"
                       [("anthropic-beta", "output-128k-2025-02-19")]))).
Proof.
  split.
  - apply (proj1 (proj1 (X8_session_key_before_environment_key More.keyed
                           (Sample.session "ANTHROPIC_API_KEY" "from-session") eq_refl))).
    split; [reflexivity | discriminate].
  - apply (proj1 (proj2 (proj1 (X8_session_key_before_environment_key More.keyed
                                  (Sample.session "ANTHROPIC_API_KEY" "") eq_refl)))).
    + right. reflexivity.
    + reflexivity.
    + discriminate.
Defined.

(** X9. getBestAvailableAIModel outside direct mode.  When research is
    required and a Perplexity key is there, the selection is 'perplexity', with
    or without an Anthropic key.  Otherwise (research not required, or no
    Perplexity key) the selection is 'claude' with the Anthropic key when there
    is one; and when there is none the call throws 'No AI models available...'
    after logging two error lines. *)
Theorem X9_selection_outside_direct_mode
    (w : World) (session : option Session) (options : Options) :
  usingClaudeDesktop w session = false ->
  let r := getBestAvailableAIModel session options w in
  (forall k, requiresResearch options = true ->
      apiKeyOf w session "PERPLEXITY_API_KEY" = Some k ->
      fst r = Ret (mkSelection "perplexity"
                     (MockPerplexityClient
                        (Some (mkPerplexityOptions k "https://api.perplexity.ai")))))
  /\ (forall k,
      requiresResearch options = false
      \/ apiKeyOf w session "PERPLEXITY_API_KEY" = None ->
      apiKeyOf w session "ANTHROPIC_API_KEY" = Some k ->
      fst r = Ret (mkSelection "claude"
                     (MockAnthropicClient
                        (Some (mkAnthropicOptions k
                                 [("anthropic-beta", "output-128k-2025-02-19")])))))
  /\ (requiresResearch options = false
      \/ apiKeyOf w session "PERPLEXITY_API_KEY" = None ->
      apiKeyOf w session "ANTHROPIC_API_KEY" = None ->
      fst r = Throw "No AI models available. Please check your API keys or enable Claude Desktop mode."
      /\ length (logged Error (snd r)) = (length (logged Error w) + 2)%nat).
Proof.
  intros Hmode. cbv zeta. split; [|split].
  - intros k Hr Hk. now rewrite (getBestAvailableAIModel_research _ _ _ _ Hmode Hr Hk).
  - intros k Hor Hk. rewrite (getBestAvailableAIModel_default _ _ _ Hmode Hor).
    now rewrite Hk.
  - intros Hor Hk. rewrite (getBestAvailableAIModel_default _ _ _ Hmode Hor).
    rewrite Hk. cbn [fst snd]. split; [reflexivity|].
    rewrite !logged_same, !length_app. cbn. lia.
Qed.

Lemma X9_witness :
  fst (getBestAvailableAIModel (Sample.session "PERPLEXITY_API_KEY" "pk")
         (mkOptions true false) Sample.world)
  = Ret (mkSelection "perplexity"
           (MockPerplexityClient
              (Some (mkPerplexityOptions "pk" "https://api.perplexity.ai"))))
  /\ fst (getBestAvailableAIModel None (mkOptions true false) More.keyed)
     = Ret (mkSelection "claude"
              (MockAnthropicClient
                 (Some (mkAnthropicOptions "from-env"
                          [("anthropic-beta", "output-128k-2025-02-19")]))))
  /\ fst (getBestAvailableAIModel None (mkOptions false false) Sample.world)
     = Throw "No AI models available. Please check your API keys or enable Claude Desktop mode.".
Proof.
  split; [|split].
  - apply (proj1 (X9_selection_outside_direct_mode Sample.world
                    (Sample.session "PERPLEXITY_API_KEY" "pk") (mkOptions true false)
                    eq_refl)); reflexivity.
  - apply (proj1 (proj2 (X9_selection_outside_direct_mode More.keyed None
                           (mkOptions true false) eq_refl)));
      [right; reflexivity | reflexivity].
  - apply (proj2 (proj2 (X9_selection_outside_direct_mode Sample.world None
                           (mkOptions false false) eq_refl)));
      [left; reflexivity | reflexivity].
Defined.

(** X10. getBestAvailableAIModel never logs a warning, in any mode: the
    clause that falls back from Perplexity to Claude with a warning is never
    entered, because Perplexity is tried only when its key is there and then
    its client is built.  The claudeOverloaded option changes neither the
    selection nor the world. *)
Theorem X10_selection_never_warns
    (w : World) (session : option Session) (research overloaded overloaded' : bool) :
  logged Warn (snd (getBestAvailableAIModel session (mkOptions research overloaded) w))
  = logged Warn w
  /\ getBestAvailableAIModel session (mkOptions research overloaded) w
     = getBestAvailableAIModel session (mkOptions research overloaded') w.
Proof.
  split; [|reflexivity].
  destruct (usingClaudeDesktop w session) eqn:Hmode.
  - rewrite (getBestAvailableAIModel_direct _ _ _ Hmode). cbn [snd].
    now rewrite !logged_other by discriminate.
  - destruct research.
    + destruct (apiKeyOf w session "PERPLEXITY_API_KEY") as [k|] eqn:Hk.
      * rewrite (getBestAvailableAIModel_research session (mkOptions true overloaded) w k
                   Hmode eq_refl Hk). cbn [snd].
        now rewrite logged_other by discriminate.
      * rewrite (getBestAvailableAIModel_default _ _ _ Hmode (or_intror Hk)).
        destruct (apiKeyOf w session "ANTHROPIC_API_KEY"); cbn [snd];
          now rewrite !logged_other by discriminate.
    + rewrite (getBestAvailableAIModel_default session (mkOptions false overloaded) w
                 Hmode (or_introl eq_refl)).
      destruct (apiKeyOf w session "ANTHROPIC_API_KEY"); cbn [snd];
        now rewrite !logged_other by discriminate.
Qed.

(** X11. The chunks of a mock stream, for any response text: the matches of
    /.{1,20}/g put end to end are the text without its line terminators; every
    chunk has between 1 and 20 characters and no line terminator; and a text
    of n characters without line terminators yields ceil(n / 20) chunks, so a
    text is streamed in full exactly when it has no line break. *)
Theorem X11_chunks_of_any_text (response : string) :
  concatText (chunksOf response) = Chunks.withoutLineTerminators response
  /\ Forall Chunks.isChunk (chunksOf response)
  /\ (noLineTerminator response = true ->
      concatText (chunksOf response) = response
      /\ length (chunksOf response) = ((String.length response + 19) / 20)%nat).
Proof.
  unfold chunksOf. split; [|split].
  - now rewrite matchChunks_concat_any.
  - now apply matchChunks_isChunk.
  - intros H. split.
    + now rewrite matchChunks_concat.
    + now rewrite matchChunks_count.
Qed.

Lemma X11_witness :
  concatText (chunksOf "twenty-six characters long") = "twenty-six characters long"
  /\ length (chunksOf "twenty-six characters long") = 2%nat.
Proof.
  apply (proj2 (proj2 (X11_chunks_of_any_text "twenty-six characters long"))).
  reflexivity.
Defined.

(** X12. handleClaudeError on an error that is not a structured API error
    (its type is not 'error', or it has no error body) goes by the text of
    the message in lower case: if that contains 'timeout' the answer is the
    time-out message, also when it contains 'network' too; else if it contains
    'network' the answer is the network message; else the answer quotes the
    message, and quotes 'undefined' when there is no message.  So 'timeout' is
    found in any mix of upper and lower case and anywhere in the message.  A
    structured error of an unknown type is answered with its own message and
    the text search is not made. *)
Theorem X12_errors_are_classified_by_message (error : ClaudeErrors.ClaudeError) :
  let lower m := ClaudeErrors.toLowerCase m in
  let answer := ClaudeErrors.handleClaudeError error in
  (ClaudeErrors.claude_type error <> JStr "error"
   \/ ClaudeErrors.claude_error error = None ->
   (forall m, ClaudeErrors.claude_message error = Some m ->
      contains (lower m) "timeout" -> answer = ClaudeErrors.TIMED_OUT)
   /\ (forall m, ClaudeErrors.claude_message error = Some m ->
       ~ contains (lower m) "timeout" -> contains (lower m) "network" ->
       answer = ClaudeErrors.NETWORK)
   /\ (forall m, ClaudeErrors.claude_message error = Some m ->
       ~ contains (lower m) "timeout" -> ~ contains (lower m) "network" ->
       answer = "Error communicating with Claude: " +:+ m)
   /\ (ClaudeErrors.claude_message error = None ->
       answer = "Error communicating with Claude: undefined")
   /\ (forall before word after,
       ClaudeErrors.claude_message error = Some (before +:+ word +:+ after) ->
       lower word = "timeout" -> answer = ClaudeErrors.TIMED_OUT))
  /\ (forall body,
      ClaudeErrors.claude_type error = JStr "error" ->
      ClaudeErrors.claude_error error = Some body ->
      ClaudeErrors.body_type body <> JStr "overloaded_error" ->
      ClaudeErrors.body_type body <> JStr "rate_limit_error" ->
      ClaudeErrors.body_type body <> JStr "invalid_request_error" ->
      answer = "Claude API error: " +:+ ToString (ClaudeErrors.body_message body)).
Proof.
  cbv zeta. unfold ClaudeErrors.handleClaudeError. split.
  - intros Hu.
    assert (Hnone : (if bool_decide (ClaudeErrors.claude_type error = JStr "error")
                     then ClaudeErrors.claude_error error else None) = None).
    { destruct Hu as [Hu | Hu].
      - now rewrite bool_decide_eq_false_2.
      - rewrite Hu. now destruct (bool_decide _). }
    rewrite Hnone.
    assert (Htimeout : forall m, ClaudeErrors.claude_message error = Some m ->
              contains (ClaudeErrors.toLowerCase m) "timeout" ->
              (if ClaudeErrors.mentions (ClaudeErrors.claude_message error) "timeout"
               then ClaudeErrors.TIMED_OUT
               else if ClaudeErrors.mentions (ClaudeErrors.claude_message error) "network"
                    then ClaudeErrors.NETWORK
                    else "Error communicating with Claude: "
                         +:+ default "undefined" (ClaudeErrors.claude_message error))
              = ClaudeErrors.TIMED_OUT).
    { intros m Hm Hc. rewrite Hm. cbn [ClaudeErrors.mentions].
      now rewrite (proj2 (includes_spec _ _) Hc). }
    split; [exact Htimeout|]. split; [|split; [|split]].
    + intros m Hm Ht Hn. rewrite Hm. cbn [ClaudeErrors.mentions].
      now rewrite (proj2 (includes_false _ _) Ht), (proj2 (includes_spec _ _) Hn).
    + intros m Hm Ht Hn. rewrite Hm. cbn [ClaudeErrors.mentions].
      now rewrite (proj2 (includes_false _ _) Ht), (proj2 (includes_false _ _) Hn).
    + intros Hm. now rewrite Hm.
    + intros before word after Hm Hw. apply (Htimeout _ Hm).
      rewrite !toLowerCase_app, Hw. now eexists _, _.
  - intros body Ht Hb H1 H2 H3. rewrite Ht, Hb.
    rewrite bool_decide_eq_true_2 by reflexivity.
    now rewrite !bool_decide_eq_false_2 by assumption.
Qed.

Lemma X12_witness :
  ClaudeErrors.handleClaudeError
    (ClaudeErrors.mkClaudeError JUndefined None (Some "Network TimeOut after 30s"))
  = ClaudeErrors.TIMED_OUT.
Proof.
  apply (proj2 (proj2 (proj2 (proj2 (proj1 (X12_errors_are_classified_by_message
           (ClaudeErrors.mkClaudeError JUndefined None (Some "Network TimeOut after 30s")))
           (or_intror eq_refl)))))
           "Network " "TimeOut" " after 30s"); reflexivity.
Defined.



(** * Properties of the tools of server.js *)

(** X14. The parse_prd tool never throws and never answers with the envelope
    of its catch clause.  When parsePRDDirect fails, the tool returns that
    failure as it is, code and details included; when it succeeds, the tool
    returns its own envelope with the same two prompts, output path, count and
    append flag. *)
Theorem X14_tool_passes_the_result_on
    (args : Args) (session : option Session) (w : World) :
  exists res,
    fst (parsePRDDirect args session w) = Ret res
    /\ (success res = false ->
        fst (Server.parse_prd args session w) = Ret (Server.Passed res))
    /\ (success res = true ->
        exists m sp up op n ap,
          data res = Some (Delegated m true sp up op n ap)
          /\ fst (Server.parse_prd args session w)
             = Ret (Server.Handled
                      "This task should be handled directly by Claude's capabilities"
                      sp up op n ap)).
Proof.
  destruct (parsePRDDirect_shape args session w) as (res & Hres & Hshape).
  exists res. split; [exact Hres|].
  set (w1 := add_log (Info, "Parsing PRD with args: " +:+ stringifyArgs args) w).
  assert (Hres1 : fst (parsePRDDirect args session w1) = Ret res).
  { rewrite <- Hres. now apply parsePRDDirect_same. }
  destruct (parsePRDDirect args session w1) as [o w2] eqn:Hrun.
  cbn [fst] in Hres1. subst o.
  assert (Hwp : forall t,
             wp (h <- Server.handedOver res ;;
                 match h with
                 | Some (Delegated _ _ sp up op n ap) =>
                     Logger.info "Request should be handled directly by Claude's capabilities" ;;
                     ret (Server.Handled "This task should be handled directly by Claude's capabilities" sp up op n ap)
                 | _ => ret (Server.Passed res)
                 end)%js
               (fun o _ => o = Ret t) w2 ->
             fst (Server.parse_prd args session w) = Ret t).
  { intros t H.
    apply (wp_elim (Server.parse_prd args session) (fun o _ => o = Ret t)).
    unfold Server.parse_prd. repeat wp_step.
    apply (wp_known _ _ _ _ _ Hrun). cbv beta iota.
    unfold wp in *.
    match type of H with
    | fst ?x = _ => destruct x as [[a|e] w3]; cbn [fst snd] in *;
                    [exact H | discriminate]
    end. }
  destruct (success res) eqn:Hs.
  - destruct Hshape as (m & sp & up & op & n & ap & Hdata).
    split; [discriminate|]. intros _. exists m, sp, up, op, n, ap.
    split; [exact Hdata|]. apply Hwp.
    unfold Server.handedOver. rewrite Hs, Hdata. repeat wp_step. reflexivity.
  - split; [|discriminate]. intros _. apply Hwp.
    unfold Server.handedOver. rewrite Hs. repeat wp_step. reflexivity.
Qed.


